(** * DSN parsing and serialisation of the vendored Snowflake driver

    A shallow embedding of
    [cmd/sql-agent/vendor/github.com/snowflakedb/gosnowflake/dsn.go]:
    the [Config] record, the serialiser [DSN], the parser [ParseDSN] with its
    backward scans, the defaulting pass [fillMissingConfigParameters] and the
    query-string decoder [parseDSNParams].

    Go strings are byte sequences; they are modelled by [string], whose
    characters are 8-bit [ascii] values.  Go's [int], [int64] and
    [time.Duration] are modelled by [Z] on a 64-bit platform, with the
    wrap-around written out where the code can overflow. *)

From Stdlib Require Import ZArith Lia List Ascii String Bool DecimalString DecimalZ.
From stdpp Require Import base option list gmap strings sorting.

Local Open Scope string_scope.
Local Open Scope Z_scope.

(** ** The parts of Go's standard library that dsn.go calls *)

Module Go.

(** [s[i] == c]; the scans of dsn.go only index inside the string. *)
Definition byteIs (s : string) (i : nat) (c : ascii) : bool :=
  match String.get i s with
  | Some x => Ascii.eqb x c
  | None => false
  end.

(** [s[lo:hi]]. *)
Definition slice (s : string) (lo hi : Z) : string :=
  String.substring (Z.to_nat lo) (Z.to_nat (hi - lo)) s.

(** [s[lo:]]. *)
Definition sliceFrom (s : string) (lo : Z) : string :=
  slice s lo (Z.of_nat (String.length s)).

Definition len (s : string) : Z := Z.of_nat (String.length s).

(** [strings.Index]: the first position of [sub] in [s], or -1. *)
Definition Index (s sub : string) : Z :=
  match String.index 0 sub s with
  | Some n => Z.of_nat n
  | None => -1
  end.

(** [strings.HasSuffix]. *)
Definition HasSuffix (s suffix : string) : bool :=
  (String.length suffix <=? String.length s)%nat &&
  String.eqb
    (String.substring (String.length s - String.length suffix)
       (String.length suffix) s)
    suffix.

(** [strings.Split s sep] for a one-byte separator: the first piece and the
    pieces after it. *)
Fixpoint splitGo (c : ascii) (s : string) : string * list string :=
  match s with
  | EmptyString => (EmptyString, [])
  | String x s' =>
      let '(h, t) := splitGo c s' in
      if Ascii.eqb x c then (EmptyString, h :: t) else (String x h, t)
  end.

Definition Split (s : string) (c : ascii) : list string :=
  let '(h, t) := splitGo c s in h :: t.

(** [strings.SplitN s sep 2] for a one-byte separator: cut at the first
    occurrence, if there is one. *)
Fixpoint cut (c : ascii) (s : string) : option (string * string) :=
  match s with
  | EmptyString => None
  | String x s' =>
      if Ascii.eqb x c then Some (EmptyString, s')
      else match cut c s' with
           | Some (a, b) => Some (String x a, b)
           | None => None
           end
  end.

Definition SplitN2 (s : string) (c : ascii) : list string :=
  match cut c s with
  | Some (a, b) => [a; b]
  | None => [s]
  end.

(** *** strconv *)

Inductive NumErrKind := ErrSyntax | ErrRange.

Definition isDigit (c : ascii) : bool :=
  let n := N_of_ascii c in ((48 <=? n) && (n <=? 57))%N.

Definition digitVal (c : ascii) : Z := Z.of_N (N_of_ascii c) - 48.

Definition maxUint64 : Z := 2 ^ 64 - 1.

(** The digit loop of [strconv.ParseUint s 10 64], with accumulator [n]. *)
Fixpoint parseUintFrom (n : Z) (s : string) : Z * option NumErrKind :=
  match s with
  | EmptyString => (n, None)
  | String c s' =>
      if negb (isDigit c) then (0, Some ErrSyntax)
      else if maxUint64 / 10 + 1 <=? n then (maxUint64, Some ErrRange)
      else
        let n10 := n * 10 in
        let n1 := (n10 + digitVal c) mod 2 ^ 64 in
        if (n1 <? n10) || (maxUint64 <? n1) then (maxUint64, Some ErrRange)
        else parseUintFrom n1 s'
  end.

Definition ParseUint (s : string) : Z * option NumErrKind :=
  match s with
  | EmptyString => (0, Some ErrSyntax)
  | _ => parseUintFrom 0 s
  end.

(** [strconv.ParseInt s 10 64]. *)
Definition ParseInt (s : string) : Z * option NumErrKind :=
  match s with
  | EmptyString => (0, Some ErrSyntax)
  | String c s' =>
      let neg := Ascii.eqb c "-" in
      let digits := if Ascii.eqb c "+" || neg then s' else s in
      match ParseUint digits with
      | (_, Some ErrSyntax) => (0, Some ErrSyntax)
      | (un, _) =>
          let cutoff := 2 ^ 63 in
          if negb neg && (cutoff <=? un) then (cutoff - 1, Some ErrRange)
          else if neg && (cutoff <? un) then (- cutoff, Some ErrRange)
          else (if neg then - un else un, None)
      end
  end.

(** [strconv.Atoi], where [int] has 64 bits. *)
Definition Atoi (s : string) : Z * option NumErrKind := ParseInt s.

(** [strconv.ParseBool]. *)
Definition ParseBool (s : string) : option bool :=
  if existsb (String.eqb s) ["1"; "t"; "T"; "TRUE"; "true"; "True"]
  then Some true
  else if existsb (String.eqb s) ["0"; "f"; "F"; "FALSE"; "false"; "False"]
  then Some false
  else None.

Definition FormatBool (b : bool) : string := if b then "true" else "false".

(** [strconv.FormatInt i 10], also what [%v] prints for an [int]. *)
Definition FormatInt (i : Z) : string := NilZero.string_of_int (Z.to_int i).

(** *** net/url *)

Definition isHex (c : ascii) : bool :=
  let n := N_of_ascii c in
  (((48 <=? n) && (n <=? 57)) || ((97 <=? n) && (n <=? 102)) ||
   ((65 <=? n) && (n <=? 70)))%N.

Definition unhex (c : ascii) : N :=
  let n := N_of_ascii c in
  if ((48 <=? n) && (n <=? 57))%N then (n - 48)%N
  else if ((97 <=? n) && (n <=? 102))%N then (n - 97 + 10)%N
  else if ((65 <=? n) && (n <=? 70))%N then (n - 65 + 10)%N
  else 0%N.

(** A failed [url.QueryUnescape] reports the offending escape: the text from
    the ['%'] on, at most three bytes. *)
Definition escapeErrorText (s : string) : string := String.substring 0 3 s.

(** [url.QueryUnescape]: every ['%'] must be followed by two hex digits,
    ['+'] decodes to a space. *)
Fixpoint QueryUnescape (s : string) : string + string :=
  match s with
  | EmptyString => inl EmptyString
  | String c s' =>
      if Ascii.eqb c "%" then
        match s' with
        | String h1 (String h2 s'') =>
            if isHex h1 && isHex h2 then
              match QueryUnescape s'' with
              | inl r =>
                  inl (String (ascii_of_N (unhex h1 * 16 + unhex h2)) r)
              | inr e => inr e
              end
            else inr (escapeErrorText s)
        | _ => inr (escapeErrorText s)
        end
      else
        match QueryUnescape s' with
        | inl r => inl (String (if Ascii.eqb c "+" then " "%char else c) r)
        | inr e => inr e
        end
  end.

(** [shouldEscape c encodeQueryComponent]: letters, digits and [-_.~] are
    kept. *)
Definition shouldEscape (c : ascii) : bool :=
  let n := N_of_ascii c in
  negb
    (((97 <=? n) && (n <=? 122)) || ((65 <=? n) && (n <=? 90)) ||
     ((48 <=? n) && (n <=? 57)) ||
     (n =? 45) || (n =? 95) || (n =? 46) || (n =? 126))%N.

Definition hexDigit (n : N) : ascii :=
  match String.get (N.to_nat n) "0123456789ABCDEF" with
  | Some c => c
  | None => "0"%char
  end.

(** [url.QueryEscape]. *)
Fixpoint QueryEscape (s : string) : string :=
  match s with
  | EmptyString => EmptyString
  | String c s' =>
      if Ascii.eqb c " " then String "+" (QueryEscape s')
      else if shouldEscape c then
        String "%"
          (String (hexDigit (N_of_ascii c / 16))
             (String (hexDigit (N_of_ascii c mod 16)) (QueryEscape s')))
      else String c (QueryEscape s')
  end.

(** [url.Values] is [map[string][]string]. *)
Abbreviation Values := (gmap string (list string)).

(** [v.Add key value]. *)
Definition Add (v : Values) (key value : string) : Values :=
  <[key := (default [] (v !! key) ++ [value])%list]> v.

(** The [key=value] pieces that [Encode] writes for one key. *)
Definition encodeKey (v : Values) (k : string) : list string :=
  (fun x => QueryEscape k +:+ "=" +:+ QueryEscape x) <$> default [] (v !! k).

(** [v.Encode ()]: keys in sorted order, pieces joined by ['&']. *)
Definition Encode (v : Values) : string :=
  String.concat "&"
    (concat (encodeKey v <$> merge_sort String.le (elements (dom v)))).

End Go.
Import Go.

(** ** The data model *)

(** [Config]: the connection parameters.  [Params] is a Go map that may be
    [nil] ([None]); its values are pointers to strings, each to a variable of
    its own, so the map is modelled by the strings themselves.  Durations are
    in nanoseconds. *)
Record Config := mkConfig {
  Account : string;
  User : string;
  Password : string;
  Database : string;
  Schema : string;
  Warehouse : string;
  Role : string;
  Region : string;
  Params : option (gmap string string);
  Protocol : string;
  Host : string;
  Port : Z;
  Authenticator : string;
  Passcode : string;
  PasscodeInPassword : bool;
  LoginTimeout : Z;
  RequestTimeout : Z;
  Application : string;
  InsecureMode : bool
}.

(** Field assignments [cfg.F = v]. *)
Definition setAccount (c : Config) (v : string) : Config :=
  mkConfig v (User c) (Password c) (Database c) (Schema c) (Warehouse c)
    (Role c) (Region c) (Params c) (Protocol c) (Host c) (Port c)
    (Authenticator c) (Passcode c) (PasscodeInPassword c) (LoginTimeout c)
    (RequestTimeout c) (Application c) (InsecureMode c).
Definition setUser (c : Config) (v : string) : Config :=
  mkConfig (Account c) v (Password c) (Database c) (Schema c) (Warehouse c)
    (Role c) (Region c) (Params c) (Protocol c) (Host c) (Port c)
    (Authenticator c) (Passcode c) (PasscodeInPassword c) (LoginTimeout c)
    (RequestTimeout c) (Application c) (InsecureMode c).
Definition setPassword (c : Config) (v : string) : Config :=
  mkConfig (Account c) (User c) v (Database c) (Schema c) (Warehouse c)
    (Role c) (Region c) (Params c) (Protocol c) (Host c) (Port c)
    (Authenticator c) (Passcode c) (PasscodeInPassword c) (LoginTimeout c)
    (RequestTimeout c) (Application c) (InsecureMode c).
Definition setDatabase (c : Config) (v : string) : Config :=
  mkConfig (Account c) (User c) (Password c) v (Schema c) (Warehouse c)
    (Role c) (Region c) (Params c) (Protocol c) (Host c) (Port c)
    (Authenticator c) (Passcode c) (PasscodeInPassword c) (LoginTimeout c)
    (RequestTimeout c) (Application c) (InsecureMode c).
Definition setSchema (c : Config) (v : string) : Config :=
  mkConfig (Account c) (User c) (Password c) (Database c) v (Warehouse c)
    (Role c) (Region c) (Params c) (Protocol c) (Host c) (Port c)
    (Authenticator c) (Passcode c) (PasscodeInPassword c) (LoginTimeout c)
    (RequestTimeout c) (Application c) (InsecureMode c).
Definition setWarehouse (c : Config) (v : string) : Config :=
  mkConfig (Account c) (User c) (Password c) (Database c) (Schema c) v (Role
    c) (Region c) (Params c) (Protocol c) (Host c) (Port c) (Authenticator
    c) (Passcode c) (PasscodeInPassword c) (LoginTimeout c) (RequestTimeout
    c) (Application c) (InsecureMode c).
Definition setRole (c : Config) (v : string) : Config :=
  mkConfig (Account c) (User c) (Password c) (Database c) (Schema c)
    (Warehouse c) v (Region c) (Params c) (Protocol c) (Host c) (Port c)
    (Authenticator c) (Passcode c) (PasscodeInPassword c) (LoginTimeout c)
    (RequestTimeout c) (Application c) (InsecureMode c).
Definition setRegion (c : Config) (v : string) : Config :=
  mkConfig (Account c) (User c) (Password c) (Database c) (Schema c)
    (Warehouse c) (Role c) v (Params c) (Protocol c) (Host c) (Port c)
    (Authenticator c) (Passcode c) (PasscodeInPassword c) (LoginTimeout c)
    (RequestTimeout c) (Application c) (InsecureMode c).
Definition setParams (c : Config) (v : option (gmap string string)) : Config :=
  mkConfig (Account c) (User c) (Password c) (Database c) (Schema c)
    (Warehouse c) (Role c) (Region c) v (Protocol c) (Host c) (Port c)
    (Authenticator c) (Passcode c) (PasscodeInPassword c) (LoginTimeout c)
    (RequestTimeout c) (Application c) (InsecureMode c).
Definition setProtocol (c : Config) (v : string) : Config :=
  mkConfig (Account c) (User c) (Password c) (Database c) (Schema c)
    (Warehouse c) (Role c) (Region c) (Params c) v (Host c) (Port c)
    (Authenticator c) (Passcode c) (PasscodeInPassword c) (LoginTimeout c)
    (RequestTimeout c) (Application c) (InsecureMode c).
Definition setHost (c : Config) (v : string) : Config :=
  mkConfig (Account c) (User c) (Password c) (Database c) (Schema c)
    (Warehouse c) (Role c) (Region c) (Params c) (Protocol c) v (Port c)
    (Authenticator c) (Passcode c) (PasscodeInPassword c) (LoginTimeout c)
    (RequestTimeout c) (Application c) (InsecureMode c).
Definition setPort (c : Config) (v : Z) : Config :=
  mkConfig (Account c) (User c) (Password c) (Database c) (Schema c)
    (Warehouse c) (Role c) (Region c) (Params c) (Protocol c) (Host c) v
    (Authenticator c) (Passcode c) (PasscodeInPassword c) (LoginTimeout c)
    (RequestTimeout c) (Application c) (InsecureMode c).
Definition setAuthenticator (c : Config) (v : string) : Config :=
  mkConfig (Account c) (User c) (Password c) (Database c) (Schema c)
    (Warehouse c) (Role c) (Region c) (Params c) (Protocol c) (Host c) (Port
    c) v (Passcode c) (PasscodeInPassword c) (LoginTimeout c)
    (RequestTimeout c) (Application c) (InsecureMode c).
Definition setPasscode (c : Config) (v : string) : Config :=
  mkConfig (Account c) (User c) (Password c) (Database c) (Schema c)
    (Warehouse c) (Role c) (Region c) (Params c) (Protocol c) (Host c) (Port
    c) (Authenticator c) v (PasscodeInPassword c) (LoginTimeout c)
    (RequestTimeout c) (Application c) (InsecureMode c).
Definition setPasscodeInPassword (c : Config) (v : bool) : Config :=
  mkConfig (Account c) (User c) (Password c) (Database c) (Schema c)
    (Warehouse c) (Role c) (Region c) (Params c) (Protocol c) (Host c) (Port
    c) (Authenticator c) (Passcode c) v (LoginTimeout c) (RequestTimeout c)
    (Application c) (InsecureMode c).
Definition setLoginTimeout (c : Config) (v : Z) : Config :=
  mkConfig (Account c) (User c) (Password c) (Database c) (Schema c)
    (Warehouse c) (Role c) (Region c) (Params c) (Protocol c) (Host c) (Port
    c) (Authenticator c) (Passcode c) (PasscodeInPassword c) v
    (RequestTimeout c) (Application c) (InsecureMode c).
Definition setRequestTimeout (c : Config) (v : Z) : Config :=
  mkConfig (Account c) (User c) (Password c) (Database c) (Schema c)
    (Warehouse c) (Role c) (Region c) (Params c) (Protocol c) (Host c) (Port
    c) (Authenticator c) (Passcode c) (PasscodeInPassword c) (LoginTimeout
    c) v (Application c) (InsecureMode c).
Definition setApplication (c : Config) (v : string) : Config :=
  mkConfig (Account c) (User c) (Password c) (Database c) (Schema c)
    (Warehouse c) (Role c) (Region c) (Params c) (Protocol c) (Host c) (Port
    c) (Authenticator c) (Passcode c) (PasscodeInPassword c) (LoginTimeout
    c) (RequestTimeout c) v (InsecureMode c).
Definition setInsecureMode (c : Config) (v : bool) : Config :=
  mkConfig (Account c) (User c) (Password c) (Database c) (Schema c)
    (Warehouse c) (Role c) (Region c) (Params c) (Protocol c) (Host c) (Port
    c) (Authenticator c) (Passcode c) (PasscodeInPassword c) (LoginTimeout
    c) (RequestTimeout c) (Application c) v.

(** Modelled from the spec: the proxy settings.  dsn.go assigns the package
    variables [proxyHost], [proxyPort], [proxyUser] and [proxyPassword], which
    are declared in another file of the package; they are the process-wide
    state that parsing threads along with the [Config]. *)
Record Proxy := mkProxy {
  proxyHost : string;
  proxyPort : Z;
  proxyUser : string;
  proxyPassword : string
}.

(** Modelled from the spec: the errors surfaced to callers.  [ErrEmptyAccount],
    [ErrEmptyUsername], [ErrEmptyPassword] and the [SnowflakeError] built for
    a bad port (number [ErrCodeFailedToParsePort], message
    [errMsgFailedToParsePort], the offending text as argument) are declared in
    another file of the package; [EscapeError] and [NumError] are those of
    [net/url] and [strconv]. *)
Inductive Error :=
| ErrEmptyAccount
| ErrEmptyUsername
| ErrEmptyPassword
| ErrFailedToParsePort (arg : string)
| EscapeError (text : string)
| NumError (func num : string) (kind : NumErrKind).

Definition second : Z := 1000000000.
Definition defaultLoginTimeout : Z := 60 * second.
Definition defaultRequestTimeout : Z := 0 * second.
Definition defaultAuthenticator : string := "snowflake".

(** Conversion to [int64]. *)
Definition wrap64 (z : Z) : Z := (z + 2 ^ 63) mod 2 ^ 64 - 2 ^ 63.

(** The state that parsing updates in place: the [Config] behind the pointer
    and the package variables. *)
Record State := mkState { cfg : Config; proxy : Proxy }.

Definition onCfg (f : Config -> Config) (st : State) : State :=
  mkState (f (cfg st)) (proxy st).

Definition setProxyHost (st : State) (v : string) : State :=
  let p := proxy st in
  mkState (cfg st) (mkProxy v (proxyPort p) (proxyUser p) (proxyPassword p)).
Definition setProxyPort (st : State) (v : Z) : State :=
  let p := proxy st in
  mkState (cfg st) (mkProxy (proxyHost p) v (proxyUser p) (proxyPassword p)).
Definition setProxyUser (st : State) (v : string) : State :=
  let p := proxy st in
  mkState (cfg st) (mkProxy (proxyHost p) (proxyPort p) v (proxyPassword p)).
Definition setProxyPassword (st : State) (v : string) : State :=
  let p := proxy st in
  mkState (cfg st) (mkProxy (proxyHost p) (proxyPort p) (proxyUser p) v).

(** [cfg.Params[key] = &value], after [make] when the map is [nil]. *)
Definition putParam (c : Config) (key value : string) : Config :=
  setParams c (Some (<[key := value]> (default ∅ (Params c)))).

(** ** The query-string decoder *)

(** The keys that the [switch] of [parseDSNParams] has a case for. *)
Definition recognizedKeys : list string :=
  ["account"; "warehouse"; "database"; "schema"; "role"; "region"; "protocol";
   "passcode"; "passcodeInPassword"; "loginTimeout"; "application";
   "authenticator"; "insecureMode"; "proxyHost"; "proxyPort"; "proxyUser";
   "proxyPassword"].

(** The [switch param[0]] of [parseDSNParams], on the decoded [value]. *)
Definition dispatchParam (st : State) (key value : string)
  : State * option Error :=
  if String.eqb key "account" then (onCfg (fun c => setAccount c value) st, None)
  else if String.eqb key "warehouse" then
    (onCfg (fun c => setWarehouse c value) st, None)
  else if String.eqb key "database" then
    (onCfg (fun c => setDatabase c value) st, None)
  else if String.eqb key "schema" then
    (onCfg (fun c => setSchema c value) st, None)
  else if String.eqb key "role" then (onCfg (fun c => setRole c value) st, None)
  else if String.eqb key "region" then
    (onCfg (fun c => setRegion c value) st, None)
  else if String.eqb key "protocol" then
    (onCfg (fun c => setProtocol c value) st, None)
  else if String.eqb key "passcode" then
    (onCfg (fun c => setPasscode c value) st, None)
  else if String.eqb key "passcodeInPassword" then
    match ParseBool value with
    | None => (st, Some (NumError "ParseBool" value ErrSyntax))
    | Some vv => (onCfg (fun c => setPasscodeInPassword c vv) st, None)
    end
  else if String.eqb key "loginTimeout" then
    match ParseInt value with
    | (_, Some k) => (st, Some (NumError "ParseInt" value k))
    | (vv, None) =>
        (onCfg (fun c => setLoginTimeout c (wrap64 (vv * second))) st, None)
    end
  else if String.eqb key "application" then
    (onCfg (fun c => setApplication c value) st, None)
  else if String.eqb key "authenticator" then
    (onCfg (fun c => setAuthenticator c value) st, None)
  else if String.eqb key "insecureMode" then
    match ParseBool value with
    | None => (st, Some (NumError "ParseBool" value ErrSyntax))
    | Some vv => (onCfg (fun c => setInsecureMode c vv) st, None)
    end
  else if String.eqb key "proxyHost" then (setProxyHost st value, None)
  else if String.eqb key "proxyPort" then
    match ParseInt value with
    | (_, Some k) => (st, Some (NumError "ParseInt" value k))
    | (vv, None) => (setProxyPort st vv, None)
    end
  else if String.eqb key "proxyUser" then (setProxyUser st value, None)
  else if String.eqb key "proxyPassword" then (setProxyPassword st value, None)
  else (onCfg (fun c => putParam c key value) st, None).

(** One turn of the loop of [parseDSNParams], on the piece [v]. *)
Definition parseDSNParam (st : State) (v : string) : State * option Error :=
  match SplitN2 v "=" with
  | [key; raw] =>
      match QueryUnescape raw with
      | inr text => (st, Some (EscapeError text))
      | inl value => dispatchParam st key value
      end
  | _ => (st, None)
  end.

(** The loop over the pieces; an error returns at once, with the assignments
    made so far in place. *)
Fixpoint parsePieces (st : State) (vs : list string) : State * option Error :=
  match vs with
  | [] => (st, None)
  | v :: vs' =>
      match parseDSNParam st v with
      | (st', None) => parsePieces st' vs'
      | r => r
      end
  end.

Definition parseDSNParams (st : State) (params : string)
  : State * option Error :=
  parsePieces st (Split params "&").

(** The loop [for k = from; k < from + n; k++] that stops at the first
    [dsn[k] == c]: the final [k], and whether it stopped there. *)
Fixpoint scanFor (c : ascii) (dsn : string) (k n : nat) : nat * bool :=
  match n with
  | O => (k, false)
  | S n' => if byteIs dsn k c then (k, true) else scanFor c dsn (S k) n'
  end.

(** [parseParams]: decode what follows the first ['?'] after [posQuestion]. *)
Definition parseParams (st : State) (posQuestion : Z) (dsn : string)
  : State * option Error :=
  let from := Z.to_nat (posQuestion + 1) in
  match scanFor "?" dsn from (String.length dsn - from) with
  | (j, true) => parseDSNParams st (sliceFrom dsn (Z.of_nat j + 1))
  | (_, false) => (st, None)
  end.

(** [parseUserPassword]. *)
Definition parseUserPassword (posAt : nat) (dsn : string) : string * string :=
  match scanFor ":" dsn 0 posAt with
  | (k, true) =>
      (slice dsn 0 (Z.of_nat k), slice dsn (Z.of_nat k + 1) (Z.of_nat posAt))
  | (k, false) => (slice dsn 0 (Z.of_nat k), "")
  end.

(** [parseAccountHostPort]: region, account, host, port and error. *)
Definition parseAccountHostPort (posAt posSlash : Z) (dsn : string)
  : string * string * string * Z * option Error :=
  let from := Z.to_nat (posAt + 1) in
  let '(k, found) := scanFor ":" dsn from (Z.to_nat posSlash - from) in
  let '(port, perr) :=
    if found then Atoi (slice dsn (Z.of_nat k + 1) posSlash) else (0, None) in
  match perr with
  | Some _ =>
      ("", "", "", port,
       Some (ErrFailedToParsePort (slice dsn (Z.of_nat k + 1) posSlash)))
  | None =>
      let host := slice dsn (posAt + 1) (Z.of_nat k) in
      if (port =? 0) && negb (HasSuffix host "snowflakecomputing.com") then
        let account := host in
        let host := account +:+ ".snowflakecomputing.com" in
        let port := 443 in
        let posDot := Index account "." in
        if 0 <? posDot then
          (sliceFrom account (posDot + 1), slice account 0 posDot, host, port,
           None)
        else ("", account, host, port, None)
      else ("", "", host, port, None)
  end.

(** [cfg.Region, cfg.Account, cfg.Host, cfg.Port, err = parseAccountHostPort ..]. *)
Definition assignAccountHostPort (st : State)
    (r : string * string * string * Z * option Error) : State * option Error :=
  let '(region, account, host, port, err) := r in
  (onCfg (fun c =>
            setPort (setHost (setAccount (setRegion c region) account) host)
              port) st,
   err).

Section Driver.

(** The constant [clientType], the default application name, is declared in
    another file of the package. *)
Variable clientType : string.

(** ** Defaulting and validation *)

(** [fillMissingConfigParameters]: the [Config] as the call leaves it, and
    the error. *)
Definition fillMissingConfigParameters (c : Config) : Config * option Error :=
  if String.eqb (Account c) "" then (c, Some ErrEmptyAccount)
  else if String.eqb (User c) "" then (c, Some ErrEmptyUsername)
  else if String.eqb (Password c) "" then (c, Some ErrEmptyPassword)
  else
    let c := if String.eqb (Protocol c) "" then setProtocol c "https" else c in
    let c := if Port c =? 0 then setPort c 443 else c in
    let c :=
      if negb (String.eqb (Region c) "") then
        let i := Index (Host c) ".snowflakecomputing.com" in
        if 1 <=? i then
          let hostPrefix := slice (Host c) 0 i in
          if negb (HasSuffix hostPrefix (Region c)) then
            setHost c
              (hostPrefix +:+ "." +:+ Region c +:+ ".snowflakecomputing.com")
          else c
        else c
      else c in
    let c :=
      if LoginTimeout c =? 0 then setLoginTimeout c defaultLoginTimeout
      else c in
    let c :=
      if RequestTimeout c =? 0 then setRequestTimeout c defaultRequestTimeout
      else c in
    let c :=
      if String.eqb (Application c) "" then setApplication c clientType
      else c in
    let c :=
      if String.eqb (Authenticator c) "" then
        setAuthenticator c defaultAuthenticator
      else c in
    (c, None).

(** ** The serialiser *)

(** The query parameters that [DSN] adds, in the order of the code. *)
Definition dsnParams (c : Config) : Values :=
  let params : Values := ∅ in
  let params :=
    if negb (String.eqb (Database c) "") then Add params "database" (Database c)
    else params in
  let params :=
    if negb (String.eqb (Schema c) "") then Add params "schema" (Schema c)
    else params in
  let params :=
    if negb (String.eqb (Warehouse c) "") then
      Add params "warehouse" (Warehouse c)
    else params in
  let params :=
    if negb (String.eqb (Role c) "") then Add params "role" (Role c)
    else params in
  let params :=
    if negb (String.eqb (Region c) "") then Add params "region" (Region c)
    else params in
  let params :=
    if negb (String.eqb (Authenticator c) defaultAuthenticator) then
      Add params "authenticator" (Authenticator c)
    else params in
  let params :=
    if negb (String.eqb (Passcode c) "") then Add params "passcode" (Passcode c)
    else params in
  let params :=
    if PasscodeInPassword c then
      Add params "passcodeInPassword" (FormatBool (PasscodeInPassword c))
    else params in
  let params :=
    if negb (LoginTimeout c =? defaultLoginTimeout) then
      Add params "loginTimeout" (FormatInt (Z.quot (LoginTimeout c) second))
    else params in
  let params :=
    if negb (RequestTimeout c =? defaultRequestTimeout) then
      Add params "requestTimeout" (FormatInt (Z.quot (RequestTimeout c) second))
    else params in
  let params :=
    if negb (String.eqb (Application c) clientType) then
      Add params "application" (Application c)
    else params in
  params.

(** [DSN]: the [Config] behind the pointer as the call leaves it, the string
    and the error. *)
Definition DSN (c : Config) : Config * (string * option Error) :=
  let c :=
    if String.eqb (Host c) "" then
      if String.eqb (Region c) "" then
        setHost c (Account c +:+ ".snowflakecomputing.com")
      else
        setHost c
          (Account c +:+ "." +:+ Region c +:+ ".snowflakecomputing.com")
    else c in
  let posDot := Index (Account c) "." in
  let c :=
    if 0 <? posDot then
      setAccount (setRegion c (sliceFrom (Account c) (posDot + 1)))
        (slice (Account c) 0 posDot)
    else c in
  match fillMissingConfigParameters c with
  | (c, Some err) => (c, ("", Some err))
  | (c, None) =>
      let params := dsnParams c in
      let dsn :=
        User c +:+ ":" +:+ Password c +:+ "@" +:+ Host c +:+ ":" +:+
        FormatInt (Port c) in
      let dsn :=
        if negb (String.eqb (Encode params) "") then
          dsn +:+ "?" +:+ Encode params
        else dsn in
      (c, (dsn, None))
  end.

(** ** The parser *)

(** The inner scan [for j = i - 1; j >= 0; j--] of the slash case, started
    with [n = i]: it records every ['/'] it passes and stops at the first
    ['@'], where it reads the credentials.  It yields the final [j] (-1 when
    no ['@'] was met), the state, [secondSlash] and [posSecondSlash]. *)
Fixpoint scanSegment (dsn : string) (st : State) (secondSlash : bool)
    (posSecondSlash : Z) (n : nat) : Z * State * bool * Z :=
  match n with
  | O => (-1, st, secondSlash, posSecondSlash)
  | S j =>
      if byteIs dsn j "/" then scanSegment dsn st true (Z.of_nat j) j
      else if byteIs dsn j "@" then
        let '(user, password) := parseUserPassword j dsn in
        (Z.of_nat j,
         onCfg (fun c => setPassword (setUser c user) password) st,
         secondSlash, posSecondSlash)
      else scanSegment dsn st secondSlash posSecondSlash j
  end.

(** What the scans of [ParseDSN] hand on: either the function has returned
    (with its two results), or it goes on with the state, [foundSlash] and
    [posQuestion]. *)
Inductive Flow :=
| Returned (st : State) (ret : option Config) (err : Error)
| Running (st : State) (foundSlash : bool) (posQuestion : Z).

(** The case [dsn[i] == '/'] of the outer scan. *)
Definition slashCase (dsn : string) (st : State) (posQuestion : Z) (i : nat)
  : Flow :=
  let '(st, secondSlash, posSecondSlash, aerr) :=
    if (0 <? i)%nat then
      let '(j, st, secondSlash, posSecondSlash) :=
        scanSegment dsn st false (Z.of_nat i) i in
      let '(st, err) :=
        assignAccountHostPort st (parseAccountHostPort j posSecondSlash dsn) in
      (st, secondSlash, posSecondSlash, err)
    else (st, false, Z.of_nat i, None) in
  match aerr with
  | Some err => Returned st (Some (cfg st)) err
  | None =>
      match parseParams st (Z.of_nat i) dsn with
      | (st, Some err) => Returned st (Some (cfg st)) err
      | (st, None) =>
          let st :=
            if secondSlash then
              onCfg (fun c =>
                       setSchema
                         (setDatabase c
                            (slice dsn (posSecondSlash + 1) (Z.of_nat i)))
                         (slice dsn (Z.of_nat i + 1) posQuestion)) st
            else
              onCfg (fun c =>
                       setSchema
                         (setDatabase c
                            (slice dsn (posSecondSlash + 1) posQuestion))
                         "public") st in
          Running st true posQuestion
      end
  end.

(** The outer scan [for i = len(dsn) - 1; i >= 0; i--], started with
    [n = len(dsn)]: it notes each ['?'] and stops at the last ['/']. *)
Fixpoint scanDSN (dsn : string) (st : State) (posQuestion : Z) (n : nat)
  : Flow :=
  match n with
  | O => Running st false posQuestion
  | S i =>
      if byteIs dsn i "/" then slashCase dsn st posQuestion i
      else if byteIs dsn i "?" then scanDSN dsn st (Z.of_nat i) i
      else scanDSN dsn st posQuestion i
  end.

(** The scan [for j = len(dsn) - 1; j >= 0; j--] of the branch without a
    slash: the final [j], the state and [posQuestion]. *)
Fixpoint scanCredentials (dsn : string) (st : State) (posQuestion : Z)
    (n : nat) : Z * State * Z :=
  match n with
  | O => (-1, st, posQuestion)
  | S j =>
      if byteIs dsn j "@" then
        let '(user, password) := parseUserPassword j dsn in
        (Z.of_nat j,
         onCfg (fun c => setPassword (setUser c user) password) st,
         posQuestion)
      else if byteIs dsn j "?" then scanCredentials dsn st (Z.of_nat j) j
      else scanCredentials dsn st posQuestion j
  end.

(** The branch [if !foundSlash]. *)
Definition noSlashCase (dsn : string) (st : State) (posQuestion : Z) : Flow :=
  let '(j, st, posQuestion) :=
    scanCredentials dsn st posQuestion (String.length dsn) in
  match assignAccountHostPort st (parseAccountHostPort j posQuestion dsn) with
  | (st, Some err) => Returned st None err
  | (st, None) =>
      match parseParams st (posQuestion - 1) dsn with
      | (st, Some err) => Returned st (Some (cfg st)) err
      | (st, None) => Running st false posQuestion
      end
  end.

(** The [Config] that [ParseDSN] starts from. *)
Definition newConfig : Config :=
  mkConfig "" "" "" "" "" "" "" "" (Some ∅) "" "" 0 "" "" false 0 0 "" false.

(** The first half of [ParseDSN]: the scans, up to the point where the
    account is derived from the host. *)
Definition parseSegments (px : Proxy) (dsn : string) : Flow :=
  match scanDSN dsn (mkState newConfig px) (len dsn) (String.length dsn) with
  | Running st false posQuestion => noSlashCase dsn st posQuestion
  | r => r
  end.

(** [if cfg.Account == "" && strings.HasSuffix(cfg.Host, ...)]. *)
Definition deriveAccount (c : Config) : Config :=
  if String.eqb (Account c) "" && HasSuffix (Host c) ".snowflakecomputing.com"
  then
    let posDot := Index (Host c) "." in
    if 0 <? posDot then setAccount c (slice (Host c) 0 posDot) else c
  else c.

(** The final pass of [ParseDSN]: decode database, schema, role and
    warehouse once more. *)
Definition unescapeFields (c : Config) : Config * option Error :=
  match QueryUnescape (Database c) with
  | inr text => (c, Some (EscapeError text))
  | inl s =>
      let c := setDatabase c s in
      match QueryUnescape (Schema c) with
      | inr text => (c, Some (EscapeError text))
      | inl s =>
          let c := setSchema c s in
          match QueryUnescape (Role c) with
          | inr text => (c, Some (EscapeError text))
          | inl s =>
              let c := setRole c s in
              match QueryUnescape (Warehouse c) with
              | inr text => (c, Some (EscapeError text))
              | inl s => (setWarehouse c s, None)
              end
          end
      end
  end.

(** What a call of [ParseDSN] leaves: its two results and the package
    variables. *)
Record Parsed := mkParsed {
  result : option Config;
  failure : option Error;
  proxyAfter : Proxy
}.

(** [ParseDSN], called when the package variables hold [px]. *)
Definition ParseDSN (px : Proxy) (dsn : string) : Parsed :=
  match parseSegments px dsn with
  | Returned st ret err => mkParsed ret (Some err) (proxy st)
  | Running st _ _ =>
      let c := deriveAccount (cfg st) in
      match fillMissingConfigParameters c with
      | (_, Some err) => mkParsed None (Some err) (proxy st)
      | (c, None) =>
          match unescapeFields c with
          | (_, Some err) => mkParsed None (Some err) (proxy st)
          | (c, None) => mkParsed (Some c) None (proxy st)
          end
      end
  end.

End Driver.

(** ** Auxiliary definitions for the proofs *)

(** [lacks s c]: the byte [c] does not occur in [s]. *)
Fixpoint lacks (s : string) (c : ascii) : bool :=
  match s with
  | EmptyString => true
  | String x s' => negb (Ascii.eqb x c) && lacks s' c
  end.


(** The host after the region has been reconciled with it. *)
Definition reconciledHost (c : Config) : string :=
  if negb (String.eqb (Region c) "") then
    let i := Index (Host c) ".snowflakecomputing.com" in
    if 1 <=? i then
      let hostPrefix := slice (Host c) 0 i in
      if negb (HasSuffix hostPrefix (Region c)) then
        hostPrefix +:+ "." +:+ Region c +:+ ".snowflakecomputing.com"
      else Host c
    else Host c
  else Host c.

(** The [Config] that a successful defaulting pass leaves. *)
Definition defaulted (clientType : string) (c : Config) : Config :=
  mkConfig (Account c) (User c) (Password c) (Database c) (Schema c)
    (Warehouse c) (Role c) (Region c) (Params c)
    (if String.eqb (Protocol c) "" then "https" else Protocol c)
    (reconciledHost c)
    (if Port c =? 0 then 443 else Port c)
    (if String.eqb (Authenticator c) "" then defaultAuthenticator
     else Authenticator c)
    (Passcode c) (PasscodeInPassword c)
    (if LoginTimeout c =? 0 then defaultLoginTimeout else LoginTimeout c)
    (RequestTimeout c)
    (if String.eqb (Application c) "" then clientType else Application c)
    (InsecureMode c).

(** The [Config] as [DSN] hands it to the defaulting pass: the host derived
    when it is empty, then the region split off the account. *)
Definition beforeDefaulting (c : Config) : Config :=
  let c :=
    if String.eqb (Host c) "" then
      if String.eqb (Region c) "" then
        setHost c (Account c +:+ ".snowflakecomputing.com")
      else
        setHost c
          (Account c +:+ "." +:+ Region c +:+ ".snowflakecomputing.com")
    else c in
  let posDot := Index (Account c) "." in
  if 0 <? posDot then
    setAccount (setRegion c (sliceFrom (Account c) (posDot + 1)))
      (slice (Account c) 0 posDot)
  else c.

(** The string that [DSN] builds from the defaulted [Config]. *)
Definition dsnText (clientType : string) (c : Config) : string :=
  let dsn :=
    User c +:+ ":" +:+ Password c +:+ "@" +:+ Host c +:+ ":" +:+
    FormatInt (Port c) in
  if negb (String.eqb (Encode (dsnParams clientType c)) "") then
    dsn +:+ "?" +:+ Encode (dsnParams clientType c)
  else dsn.

(** [mentions s w]: the text [w] occurs in [s]. *)
Definition mentions (s w : string) : bool :=
  match String.index 0 w s with
  | Some _ => true
  | None => false
  end.

(** The state after the credentials have been read. *)
Definition withCredentials (st : State) (dsn : string) (posAt : nat) : State :=
  onCfg (fun cf => setPassword (setUser cf (fst (parseUserPassword posAt dsn)))
                     (snd (parseUserPassword posAt dsn))) st.

(** The state in which the query string of a serialised DSN is decoded. *)
Definition segmentsState (px : Proxy) (user password host : string) (port : Z)
  : State :=
  mkState
    (mkConfig "" user password "" "" "" "" "" (Some ∅) "" host port "" ""
       false 0 0 "" false)
    px.

(** The text after [host:port] of a serialised DSN. *)
Definition queryTail (query : option string) : string :=
  match query with
  | Some q => String "?" q
  | None => ""
  end.

(** [if b { params.Add(key, value) }]. *)
Definition condAdd (b : bool) (key value : string) (v : Values) : Values :=
  if b then Add v key value else v.

(** The piece that [Encode] writes for a key of the serialiser, when the key
    was added. *)
Definition optPiece (b : bool) (key value : string) : list string :=
  if b then [key +:+ "=" +:+ QueryEscape value] else [].

(** The pieces of the query string of [DSN], in the order of [Encode]. *)
Definition dsnPieces (clientType : string) (c : Config) : list string :=
  (optPiece (negb (String.eqb (Application c) clientType)) "application"
     (Application c) ++
   optPiece (negb (String.eqb (Authenticator c) defaultAuthenticator))
     "authenticator" (Authenticator c) ++
   optPiece (negb (String.eqb (Database c) "")) "database" (Database c) ++
   optPiece (negb (LoginTimeout c =? defaultLoginTimeout)) "loginTimeout"
     (FormatInt (Z.quot (LoginTimeout c) second)) ++
   optPiece (negb (String.eqb (Passcode c) "")) "passcode" (Passcode c) ++
   optPiece (PasscodeInPassword c) "passcodeInPassword"
     (FormatBool (PasscodeInPassword c)) ++
   optPiece (negb (String.eqb (Region c) "")) "region" (Region c) ++
   optPiece (negb (RequestTimeout c =? defaultRequestTimeout)) "requestTimeout"
     (FormatInt (Z.quot (RequestTimeout c) second)) ++
   optPiece (negb (String.eqb (Role c) "")) "role" (Role c) ++
   optPiece (negb (String.eqb (Schema c) "")) "schema" (Schema c) ++
   optPiece (negb (String.eqb (Warehouse c) "")) "warehouse" (Warehouse c))%list.

(** The keys that [DSN] can add, sorted. *)
Definition dsnKeys : list string :=
  ["application"; "authenticator"; "database"; "loginTimeout"; "passcode";
   "passcodeInPassword"; "region"; "requestTimeout"; "role"; "schema";
   "warehouse"].

(** [lacksAll s cs]: none of the bytes [cs] occurs in [s]. *)
Definition lacksAll (s : string) (cs : list ascii) : bool :=
  forallb (lacks s) cs.

(** The [Config]s that parsing reads back from their DSN: complete (a
    defaulting pass changes nothing), with credentials and host free of the
    bytes the scans look for, the account being the first label of a host
    under [.snowflakecomputing.com], and holding nothing that [DSN] does not
    write (protocol other than https, insecure mode, extension parameters: the
    mapping is [nil] or empty), or
    writes but the decoder does not read (request timeout), rounds (login
    timeout to whole seconds) or decodes twice (['%'] and ['+'] in database,
    schema, role and warehouse). *)
Definition readBack (clientType : string) (c : Config) : Prop :=
  fillMissingConfigParameters clientType c = (c, None) /\
  lacksAll (User c) [":"; "/"; "?"]%char = true /\
  lacksAll (Password c) ["/"; "?"]%char = true /\
  lacksAll (Host c) [":"; "/"; "?"; "@"]%char = true /\
  HasSuffix (Host c) ".snowflakecomputing.com" = true /\
  0 < Index (Host c) "." /\
  Account c = slice (Host c) 0 (Index (Host c) ".") /\
  - 2 ^ 63 <= Port c < 2 ^ 63 /\
  Protocol c = "https" /\ InsecureMode c = false /\
  (Params c = None \/ Params c = Some ∅) /\
  RequestTimeout c = 0 /\
  - 2 ^ 63 <= LoginTimeout c < 2 ^ 63 /\ Z.rem (LoginTimeout c) second = 0 /\
  lacksAll (Database c) ["%"; "+"]%char = true /\
  lacksAll (Schema c) ["%"; "+"]%char = true /\
  lacksAll (Role c) ["%"; "+"]%char = true /\
  lacksAll (Warehouse c) ["%"; "+"]%char = true.

(** The keys of the decoder whose decoded value is assigned as it is, each
    with the field it is assigned to. *)
Definition stringFields : list (string * (Config -> string -> Config)) :=
  [("account", setAccount); ("warehouse", setWarehouse);
   ("database", setDatabase); ("schema", setSchema); ("role", setRole);
   ("region", setRegion); ("protocol", setProtocol);
   ("passcode", setPasscode); ("application", setApplication);
   ("authenticator", setAuthenticator)].

(** The keys of the decoder that are assigned to the package variables. *)
Definition proxyKeys : list string :=
  ["proxyHost"; "proxyPort"; "proxyUser"; "proxyPassword"].

(** What the extension mapping holds for [key]; nothing when it is [nil]. *)
Definition lookupParam (cf : Config) (key : string) : option string :=
  default ∅ (Params cf) !! key.

(** The state that a scan hands on, whether [ParseDSN] has returned or goes
    on. *)
Definition flowState (f : Flow) : State :=
  match f with
  | Returned st _ _ => st
  | Running st _ _ => st
  end.

(** [sameTarget c c']: user, password, host, port and request timeout of
    [c'] are those of [c], and [c'] has an extension mapping if [c] has. *)
Definition sameTarget (c c' : Config) : Prop :=
  User c' = User c /\ Password c' = Password c /\ Host c' = Host c /\
  Port c' = Port c /\ RequestTimeout c' = RequestTimeout c /\
  (Params c <> None -> Params c' <> None).

(** The text starts with two hex digits. *)
Definition startsWithHexPair (s : string) : bool :=
  match s with
  | String h1 (String h2 _) => isHex h1 && isHex h2
  | _ => false
  end.

(** The keys whose field the final pass of [ParseDSN] decodes once more, and
    two of the keys whose field it leaves alone, each with its field. *)
Definition twiceDecoded : list (string * (Config -> string)) :=
  [("warehouse", Warehouse); ("role", Role)].
Definition onceDecoded : list (string * (Config -> string)) :=
  [("region", Region); ("passcode", Passcode)].

(** A DSN with a path: the text [head] up to its last slash, the last part
    [p] of the path and the query string. *)
Definition pathText (head p : string) (query : option string) : string :=
  head +:+ String "/" (p +:+ queryTail query).

(** None of the bytes [cs] occurs in the query string, if there is one. *)
Definition queryLacks (query : option string) (cs : list ascii) : bool :=
  match query with
  | Some q => lacksAll q cs
  | None => true
  end.

(** No piece of the query string is a pair with the key [account]. *)
Definition noAccountKey (query : string) : Prop :=
  Forall (fun p => forall raw, p <> "account" +:+ "=" +:+ raw) (Split query "&").

(** Reduce field reads of field assignments. *)
Ltac fields :=
  cbn [Account User Password Database Schema Warehouse Role Region Params Protocol Host Port Authenticator Passcode PasscodeInPassword LoginTimeout RequestTimeout Application InsecureMode
       setAccount setUser setPassword setDatabase setSchema setWarehouse setRole setRegion setParams setProtocol setHost setPort setAuthenticator setPasscode setPasscodeInPassword setLoginTimeout setRequestTimeout setApplication setInsecureMode cfg proxy onCfg] in *.

Ltac split_config c :=
  destruct c as [acc usr pwd db sch wh rl rg pm pr hs pt au pc pp lt rt ap im].

(** Name the value of the first [let] of the goal and enter its body. *)
Ltac head_let :=
  match goal with
  | |- (let x := ?v in @?f x) = ?r =>
      let c := fresh "c" in set (c := v); change (f c = r); cbv beta
  end.



(** ** Strings: positions, slices and scans *)

Section StringFacts.

Implicit Types (a b s : string) (c x : ascii) (i k m n : nat).

Lemma app_cons x a b : String x a +:+ b = String x (a +:+ b).
Proof. reflexivity. Qed.

Lemma app_nil_l a : "" +:+ a = a.
Proof. reflexivity. Qed.

(** Push the appends of the goal below the constructors. *)
Ltac norm := rewrite ?app_cons, ?app_nil_l; simpl.

Lemma length_app a b :
  String.length (a +:+ b) = (String.length a + String.length b)%nat.
Proof. induction a as [|x a IH]; norm; [reflexivity | now rewrite IH]. Qed.

Lemma app_assoc a b s : (a +:+ b) +:+ s = a +:+ (b +:+ s).
Proof. induction a as [|x a IH]; norm; [reflexivity | now rewrite IH]. Qed.

Lemma app_nil_r a : a +:+ "" = a.
Proof. induction a as [|x a IH]; norm; [reflexivity | now rewrite IH]. Qed.

Lemma lacks_app a b c : lacks (a +:+ b) c = lacks a c && lacks b c.
Proof.
  induction a as [|x a IH]; norm; [reflexivity|].
  now rewrite IH, andb_assoc.
Qed.

Lemma get_app_r a b m : String.get (String.length a + m) (a +:+ b) = String.get m b.
Proof. induction a as [|x a IH]; norm; [reflexivity | exact IH]. Qed.

Lemma get_app_l a b i :
  (i < String.length a)%nat -> String.get i (a +:+ b) = String.get i a.
Proof.
  revert i; induction a as [|x a IH]; norm; intros i Hi; [lia|].
  destruct i as [|i]; [reflexivity | apply IH; lia].
Qed.

Lemma byteIs_app_r a b m c : byteIs (a +:+ b) (String.length a + m) c = byteIs b m c.
Proof. unfold byteIs. now rewrite get_app_r. Qed.

Lemma byteIs_app_l a b i c :
  (i < String.length a)%nat -> byteIs (a +:+ b) i c = byteIs a i c.
Proof. intros Hi. unfold byteIs. now rewrite get_app_l. Qed.

Lemma byteIs_lacks s i c : lacks s c = true -> byteIs s i c = false.
Proof.
  unfold byteIs. revert i; induction s as [|x s IH]; simpl; intros i H.
  - now destruct i.
  - apply andb_true_iff in H as [Hx Hs].
    destruct i as [|i]; [now apply negb_true_iff in Hx | now apply IH].
Qed.

(** The byte right after the prefix [a]. *)
Lemma byteIs_at a x s c : byteIs (a +:+ String x s) (String.length a) c = Ascii.eqb x c.
Proof.
  rewrite <- (Nat.add_0_r (String.length a)). now rewrite byteIs_app_r.
Qed.

Lemma substring_0_app a b : String.substring 0 (String.length a) (a +:+ b) = a.
Proof. induction a as [|x a IH]; norm; [now destruct b | now rewrite IH]. Qed.

Lemma substring_all a : String.substring 0 (String.length a) a = a.
Proof. induction a as [|x a IH]; simpl; [reflexivity | now rewrite IH]. Qed.

Lemma substring_skip a b m n :
  String.substring (String.length a + m) n (a +:+ b) = String.substring m n b.
Proof. induction a as [|x a IH]; norm; [reflexivity | exact IH]. Qed.

Lemma substring_in a b k n :
  (k + n <= String.length a)%nat ->
  String.substring k n (a +:+ b) = String.substring k n a.
Proof.
  revert k n; induction a as [|x a IH]; norm; intros k n H.
  - assert (k = 0%nat) by lia. assert (n = 0%nat) by lia. subst.
    now destruct b.
  - destruct k as [|k].
    + destruct n as [|n]; [reflexivity|].
      f_equal. apply (IH 0%nat n). lia.
    + apply IH. lia.
Qed.

Lemma substring_nil s k : String.substring k 0 s = "".
Proof.
  revert k; induction s as [|x s IH]; intros [|k]; simpl; auto.
Qed.

Lemma length_substring_le s k n :
  (k + n <= String.length s)%nat -> String.length (String.substring k n s) = n.
Proof.
  revert k n; induction s as [|x s IH]; simpl; intros k n H.
  - assert (k = 0%nat) by lia. assert (n = 0%nat) by lia. now subst.
  - destruct k as [|k].
    + destruct n as [|n]; [reflexivity|]. simpl. f_equal. apply IH. lia.
    + apply IH. lia.
Qed.

(** [slice] and [sliceFrom] on a string cut in three. *)
Lemma slice_mid a b s lo hi :
  lo = len a -> hi = len a + len b -> slice (a +:+ b +:+ s) lo hi = b.
Proof.
  intros -> ->. unfold slice, len.
  replace (Z.to_nat (Z.of_nat (String.length a))) with (String.length a + 0)%nat by lia.
  replace (Z.to_nat _) with (String.length b) by lia.
  rewrite substring_skip. apply substring_0_app.
Qed.

Lemma slice_prefix a s hi : hi = len a -> slice (a +:+ s) 0 hi = a.
Proof.
  intros ->. unfold slice, len.
  replace (Z.to_nat (_ - 0)) with (String.length a) by lia.
  apply substring_0_app.
Qed.

Lemma sliceFrom_suffix a s lo : lo = len a -> sliceFrom (a +:+ s) lo = s.
Proof.
  intros ->. unfold sliceFrom, slice, len. rewrite length_app.
  replace (Z.to_nat (Z.of_nat (String.length a))) with (String.length a + 0)%nat by lia.
  replace (Z.to_nat _) with (String.length s) by lia.
  rewrite substring_skip. apply substring_all.
Qed.

(** The forward scan on the segment it runs over. *)
Lemma scanFor_miss c a b s k :
  k = String.length a -> lacks b c = true ->
  scanFor c (a +:+ b +:+ s) k (String.length b) =
  ((k + String.length b)%nat, false).
Proof.
  intros -> Hb. revert a; induction b as [|x b IH]; intros a; norm.
  - now rewrite Nat.add_0_r.
  - simpl in Hb. apply andb_true_iff in Hb as [Hx Hb].
    rewrite byteIs_at. apply negb_true_iff in Hx. rewrite Hx.
    specialize (IH Hb (a +:+ String x "")).
    rewrite !app_assoc in IH. rewrite app_cons, app_nil_l in IH.
    rewrite length_app in IH. simpl in IH.
    replace (S (String.length a)) with (String.length a + 1)%nat by lia.
    rewrite IH. f_equal. lia.
Qed.

Lemma scanFor_hit c a b s k n :
  k = String.length a -> lacks b c = true -> (String.length b < n)%nat ->
  scanFor c (a +:+ b +:+ String c s) k n = ((k + String.length b)%nat, true).
Proof.
  intros -> Hb. revert a n; induction b as [|x b IH]; intros a n Hn; norm.
  - destruct n as [|n]; [simpl in Hn; lia|]. simpl.
    rewrite byteIs_at, Ascii.eqb_refl. now rewrite Nat.add_0_r.
  - simpl in Hb. apply andb_true_iff in Hb as [Hx Hb].
    destruct n as [|n]; [simpl in Hn; lia|]. simpl.
    rewrite byteIs_at. apply negb_true_iff in Hx. rewrite Hx.
    specialize (IH Hb (a +:+ String x "") n).
    rewrite !app_assoc in IH. rewrite app_cons, app_nil_l in IH.
    rewrite length_app in IH. simpl in IH.
    replace (S (String.length a)) with (String.length a + 1)%nat by lia.
    rewrite IH; [f_equal; lia | simpl in Hn; lia].
Qed.

End StringFacts.

Section ScanFacts.

Implicit Types (a b s dsn : string) (c x : ascii) (i j k m n : nat).

(** A byte that lies in a part lacking [c] is not [c]. *)
Lemma byteIs_suffix_lacks a b k c :
  lacks b c = true -> (String.length a <= k)%nat -> byteIs (a +:+ b) k c = false.
Proof.
  intros Hb Hk.
  replace k with (String.length a + (k - String.length a))%nat by lia.
  rewrite byteIs_app_r. now apply byteIs_lacks.
Qed.

Lemma byteIs_prefix_lacks a b k c :
  lacks a c = true -> (k < String.length a)%nat -> byteIs (a +:+ b) k c = false.
Proof.
  intros Ha Hk. rewrite byteIs_app_l by exact Hk. now apply byteIs_lacks.
Qed.

(** The forward scan, by positions. *)
Lemma scanFor_none c dsn k n :
  (forall q, (k <= q < k + n)%nat -> byteIs dsn q c = false) ->
  scanFor c dsn k n = ((k + n)%nat, false).
Proof.
  revert k; induction n as [|n IH]; intros k H; simpl.
  - f_equal. lia.
  - rewrite H by lia. rewrite IH; [f_equal; lia|].
    intros q Hq. apply H. lia.
Qed.

Lemma scanFor_first c dsn k n p :
  (k <= p < k + n)%nat -> byteIs dsn p c = true ->
  (forall q, (k <= q < p)%nat -> byteIs dsn q c = false) ->
  scanFor c dsn k n = (p, true).
Proof.
  revert k; induction n as [|n IH]; intros k Hp Hc H; [lia|]. simpl.
  destruct (Nat.eq_dec k p) as [->|Hne]; [now rewrite Hc|].
  rewrite H by lia. apply IH; [lia | exact Hc |].
  intros q Hq. apply H. lia.
Qed.

End ScanFacts.


(** ** Defaulting, field by field *)

Section Defaulting.

Variable clientType : string.

Lemma setProtocol_if (b : bool) c v :
  (if b then setProtocol c v else c) = setProtocol c (if b then v else Protocol c).
Proof. split_config c; now destruct b. Qed.
Lemma setPort_if (b : bool) c v :
  (if b then setPort c v else c) = setPort c (if b then v else Port c).
Proof. split_config c; now destruct b. Qed.
Lemma setHost_if (b : bool) c v :
  (if b then setHost c v else c) = setHost c (if b then v else Host c).
Proof. split_config c; now destruct b. Qed.
Lemma setLoginTimeout_if (b : bool) c v :
  (if b then setLoginTimeout c v else c) =
  setLoginTimeout c (if b then v else LoginTimeout c).
Proof. split_config c; now destruct b. Qed.
Lemma setApplication_if (b : bool) c v :
  (if b then setApplication c v else c) =
  setApplication c (if b then v else Application c).
Proof. split_config c; now destruct b. Qed.
Lemma setAuthenticator_if (b : bool) c v :
  (if b then setAuthenticator c v else c) =
  setAuthenticator c (if b then v else Authenticator c).
Proof. split_config c; now destruct b. Qed.
Lemma setRequestTimeout_same c :
  (if RequestTimeout c =? 0 then setRequestTimeout c defaultRequestTimeout
   else c) = c.
Proof.
  destruct (RequestTimeout c =? 0) eqn:E; [|reflexivity].
  apply Z.eqb_eq in E. split_config c. fields. now subst.
Qed.
Lemma reconcile_if c :
  (if negb (String.eqb (Region c) "") then
     let i := Index (Host c) ".snowflakecomputing.com" in
     if 1 <=? i then
       let hostPrefix := slice (Host c) 0 i in
       if negb (HasSuffix hostPrefix (Region c)) then
         setHost c
           (hostPrefix +:+ "." +:+ Region c +:+ ".snowflakecomputing.com")
       else c
     else c
   else c) = setHost c (reconciledHost c).
Proof.
  unfold reconciledHost. cbv zeta.
  rewrite !setHost_if. reflexivity.
Qed.

Lemma fill_spec c :
  fillMissingConfigParameters clientType c =
  if String.eqb (Account c) "" then (c, Some ErrEmptyAccount)
  else if String.eqb (User c) "" then (c, Some ErrEmptyUsername)
  else if String.eqb (Password c) "" then (c, Some ErrEmptyPassword)
  else (defaulted clientType c, None).
Proof.
  cbv beta delta [fillMissingConfigParameters].
  destruct (String.eqb (Account c) ""); [reflexivity|].
  destruct (String.eqb (User c) ""); [reflexivity|].
  destruct (String.eqb (Password c) ""); [reflexivity|].
  rewrite (setProtocol_if _ c). head_let.
  rewrite (setPort_if _ c0). head_let.
  rewrite (reconcile_if c1). head_let.
  rewrite (setLoginTimeout_if _ c2). head_let.
  rewrite (setRequestTimeout_same c3). head_let.
  rewrite (setApplication_if _ c4). head_let.
  rewrite (setAuthenticator_if _ c5). head_let.
  reflexivity.
Qed.

End Defaulting.


(** ** The pieces of a query string *)

Section Pieces.

Implicit Types (a b s v : string) (c d x : ascii) (l : list string).

Lemma cut_lacks c v : lacks v c = true -> cut c v = None.
Proof.
  induction v as [|x v IH]; simpl; intros H; [reflexivity|].
  apply andb_true_iff in H as [Hx Hv]. apply negb_true_iff in Hx.
  now rewrite Hx, IH.
Qed.

Lemma cut_app c a b : lacks a c = true -> cut c (a +:+ String c b) = Some (a, b).
Proof.
  induction a as [|x a IH]; intros H.
  - rewrite app_nil_l. simpl. now rewrite Ascii.eqb_refl.
  - rewrite app_cons. simpl in *.
    apply andb_true_iff in H as [Hx Ha]. apply negb_true_iff in Hx.
    now rewrite Hx, IH.
Qed.

Lemma Split_cons x s c :
  Split (String x s) c =
  if Ascii.eqb x c then "" :: Split s c
  else match Split s c with
       | h :: t => String x h :: t
       | [] => [String x ""]
       end.
Proof.
  unfold Split. simpl. destruct (splitGo c s) as [h t].
  now destruct (Ascii.eqb x c).
Qed.

Lemma Split_not_nil s c : Split s c <> [].
Proof. unfold Split. now destruct (splitGo c s). Qed.

Lemma Split_lacks a c : lacks a c = true -> Split a c = [a].
Proof.
  induction a as [|x a IH]; intros H; [reflexivity|].
  simpl in H. apply andb_true_iff in H as [Hx Ha]. apply negb_true_iff in Hx.
  rewrite Split_cons, Hx, IH by exact Ha. reflexivity.
Qed.

(** Splitting distributes over a separator. *)
Lemma Split_app a b c : Split (a +:+ String c b) c = (Split a c ++ Split b c)%list.
Proof.
  induction a as [|x a IH].
  - rewrite app_nil_l, Split_cons, Ascii.eqb_refl. reflexivity.
  - rewrite app_cons, !Split_cons, IH.
    destruct (Ascii.eqb x c); [reflexivity|].
    destruct (Split a c) as [|h t] eqn:E; [now apply Split_not_nil in E|].
    reflexivity.
Qed.

Lemma Split_pieces_lack v c d :
  lacks v d = true -> Forall (fun p => lacks p d = true) (Split v c).
Proof.
  induction v as [|x v IH]; intros H.
  - repeat constructor.
  - simpl in H. apply andb_true_iff in H as [Hx Hv].
    rewrite Split_cons. specialize (IH Hv).
    destruct (Ascii.eqb x c); [now constructor|].
    destruct (Split v c) as [|h t]; [repeat constructor; simpl; now rewrite Hx|].
    inversion IH; subst. constructor; [simpl; now rewrite Hx, H1 | assumption].
Qed.

Lemma parseDSNParam_lacks st v : lacks v "=" = true -> parseDSNParam st v = (st, None).
Proof.
  intros H. unfold parseDSNParam, SplitN2. now rewrite cut_lacks.
Qed.

Lemma parsePieces_app st l1 l2 :
  parsePieces st (l1 ++ l2) =
  match parsePieces st l1 with
  | (st', None) => parsePieces st' l2
  | r => r
  end.
Proof.
  revert st; induction l1 as [|v l1 IH]; intros st; [reflexivity|].
  simpl. destruct (parseDSNParam st v) as [st' [e|]]; [reflexivity | apply IH].
Qed.

Lemma parsePieces_skip st l :
  Forall (fun p => lacks p "=" = true) l -> parsePieces st l = (st, None).
Proof.
  induction 1 as [|v l Hv _ IH]; [reflexivity|].
  simpl. now rewrite parseDSNParam_lacks.
Qed.

Lemma parseDSNParams_app st q rest :
  parseDSNParams st (q +:+ String "&" rest) =
  match parseDSNParams st q with
  | (st', None) => parseDSNParams st' rest
  | r => r
  end.
Proof. unfold parseDSNParams. now rewrite Split_app, parsePieces_app. Qed.

Lemma parseDSNParams_skip st v : lacks v "=" = true -> parseDSNParams st v = (st, None).
Proof.
  intros H. unfold parseDSNParams. apply parsePieces_skip.
  now apply Split_pieces_lack.
Qed.

End Pieces.

(** ** The slash case with an empty account segment *)

Section EmptyAccount.

Variable clientType : string.
Implicit Types (a b s dsn : string) (c x : ascii) (i j k m n : nat).

Lemma proxy_onCfg f st : proxy (onCfg f st) = proxy st.
Proof. reflexivity. Qed.

(** The outer scan stops at the last slash of a part without ['?']. *)
Lemma scanDSN_last_slash a t st pq n :
  lacks t "?" = true ->
  (String.length a < n <= String.length (a +:+ String "/" t))%nat ->
  exists i, (String.length a <= i < n)%nat /\
    byteIs (a +:+ String "/" t) i "/" = true /\
    scanDSN (a +:+ String "/" t) st pq n = slashCase (a +:+ String "/" t) st pq i.
Proof.
  intros Ht. induction n as [|m IH]; intros Hn; [lia|].
  simpl. destruct (byteIs (a +:+ String "/" t) m "/") eqn:Hs.
  - exists m. repeat split; [lia | lia | exact Hs].
  - assert (String.length a < m)%nat as Hm.
    { destruct (Nat.eq_dec m (String.length a)) as [->|]; [|lia].
      rewrite byteIs_at in Hs. discriminate. }
    assert (byteIs (a +:+ String "/" t) m "?" = false) as ->.
    { change (String "/" t) with ("/" +:+ t). rewrite <- app_assoc.
      apply byteIs_suffix_lacks; [exact Ht | rewrite length_app; simpl; lia]. }
    destruct IH as (i & Hi & Hb & E); [lia|].
    exists i. repeat split; [lia | lia | exact Hb | exact E].
Qed.

Lemma scanSegment_to_at a t st ss pss n :
  lacks t "@" = true ->
  let dsn := a +:+ String "@" (String "/" t) in
  let P := String.length a in
  (P + 1 <= n <= String.length dsn)%nat ->
  exists ss' pss',
    scanSegment dsn st ss pss n =
    (Z.of_nat P,
     onCfg (fun cf => setPassword (setUser cf (fst (parseUserPassword P dsn)))
                       (snd (parseUserPassword P dsn))) st,
     ss', pss') /\
    (n = (P + 1)%nat -> ss' = ss /\ pss' = pss) /\
    ((P + 1 < n)%nat -> ss' = true /\ pss' = Z.of_nat (P + 1)).
Proof.
  intros Ht dsn P. revert ss pss. induction n as [|m IH]; intros ss pss Hn; [lia|].
  simpl.
  destruct (Nat.eq_dec m P) as [->|HmP].
  - unfold dsn, P. rewrite !byteIs_at. simpl.
    fold P. fold dsn. destruct (parseUserPassword P dsn) as [u p]. simpl.
    exists ss, pss. repeat split; lia.
  - destruct (Nat.eq_dec m (P + 1)%nat) as [->|HmP1].
    + assert (byteIs dsn (P + 1)%nat "/" = true) as ->.
      { unfold dsn, P. change (String "@" (String "/" t)) with ("@" +:+ String "/" t).
        rewrite <- app_assoc.
        replace (String.length a + 1)%nat with (String.length (a +:+ "@"))
          by (rewrite length_app; reflexivity).
        now rewrite byteIs_at. }
      destruct (IH true (Z.of_nat (P + 1))) as (ss' & pss' & E & H1 & H2); [lia|].
      destruct (H1 eq_refl) as [-> ->].
      exists true, (Z.of_nat (P + 1)). repeat split; try lia. exact E.
    + assert (byteIs dsn m "@" = false) as Hat.
      { unfold dsn, P. change (String "@" (String "/" t)) with ("@/" +:+ t).
        rewrite <- app_assoc.
        apply byteIs_suffix_lacks; [exact Ht|]. rewrite length_app. simpl.
        unfold P in *. lia. }
      rewrite Hat.
      destruct (byteIs dsn m "/").
      * destruct (IH true (Z.of_nat m)) as (ss' & pss' & E & H1 & H2); [lia|].
        destruct H2 as [-> ->]; [lia|].
        exists true, (Z.of_nat (P + 1)). repeat split; try lia. exact E.
      * destruct (IH ss pss) as (ss' & pss' & E & H1 & H2); [lia|].
        destruct H2 as [-> ->]; [lia|].
        exists true, (Z.of_nat (P + 1)). repeat split; try lia. exact E.
Qed.

Lemma parseAccountHostPort_empty dsn posAt :
  -1 <= posAt ->
  parseAccountHostPort posAt (posAt + 1) dsn =
  ("", "", ".snowflakecomputing.com", 443, None).
Proof.
  intros H. unfold parseAccountHostPort.
  replace (Z.to_nat (posAt + 1) - Z.to_nat (posAt + 1))%nat with 0%nat by lia.
  simpl scanFor. cbv beta iota.
  unfold slice. replace (Z.to_nat (Z.of_nat (Z.to_nat (posAt + 1)) - (posAt + 1))) with 0%nat by lia.
  rewrite substring_nil. reflexivity.
Qed.

Lemma parseParams_none st pos dsn :
  (forall q, (Z.to_nat (pos + 1) <= q)%nat -> byteIs dsn q "?" = false) ->
  parseParams st pos dsn = (st, None).
Proof.
  intros H. unfold parseParams. rewrite scanFor_none; [reflexivity|].
  intros q Hq. apply H. lia.
Qed.


Lemma ParseDSN_empty_segment px creds tail :
  lacks tail "?" = true -> lacks tail "@" = true ->
  ParseDSN clientType px (creds +:+ "@/" +:+ tail) =
  mkParsed None (Some ErrEmptyAccount) px.
Proof.
  intros Hq Hat.
  change (creds +:+ "@/" +:+ tail) with (creds +:+ String "@" (String "/" tail)).
  set (dsn := creds +:+ String "@" (String "/" tail)).
  assert (dsn = (creds +:+ "@") +:+ String "/" tail) as Edsn.
  { unfold dsn. now rewrite app_assoc. }
  assert (String.length dsn = String.length creds + 2 + String.length tail)%nat as Hlen.
  { unfold dsn. rewrite length_app. simpl. lia. }
  unfold ParseDSN, parseSegments.
  destruct (scanDSN_last_slash (creds +:+ "@") tail (mkState newConfig px)
              (len dsn) (String.length dsn) Hq) as (i & Hi & Hb & E).
  { rewrite <- Edsn. rewrite length_app. simpl. lia. }
  rewrite <- Edsn in E, Hb. rewrite E. clear E.
  rewrite length_app in Hi. simpl in Hi.
  unfold slashCase.
  assert ((0 <? i)%nat = true) as -> by (apply Nat.ltb_lt; lia).
  destruct (scanSegment_to_at creds tail (mkState newConfig px) false (Z.of_nat i) i Hat)
    as (ss' & pss' & E & H1 & H2).
  { fold dsn. lia. }
  fold dsn in E. rewrite E. clear E.
  assert (pss' = Z.of_nat (String.length creds) + 1) as ->.
  { destruct (Nat.eq_dec i (String.length creds + 1)%nat) as [->|].
    - destruct (H1 eq_refl) as [_ ->]. lia.
    - destruct H2 as [_ ->]; lia. }
  rewrite parseAccountHostPort_empty by lia.
  unfold assignAccountHostPort. cbv beta iota zeta.
  rewrite parseParams_none.
  2:{ intros q Hqq. unfold dsn.
      change (String "@" (String "/" tail)) with ("@/" +:+ tail).
      rewrite <- app_assoc.
      apply byteIs_suffix_lacks; [exact Hq|]. rewrite length_app. simpl. lia. }
  destruct ss'; reflexivity.
Qed.

End EmptyAccount.

(** ** Where [ParseDSN] finds the query string *)

Section QueryPosition.

Implicit Types (a b s dsn head query : string) (c x : ascii) (i j k m n : nat).

Lemma scanDSN_skip dsn st pq n m :
  (forall q, (n <= q < n + m)%nat ->
             byteIs dsn q "/" = false /\ byteIs dsn q "?" = false) ->
  scanDSN dsn st pq (n + m) = scanDSN dsn st pq n.
Proof.
  induction m as [|m IH]; intros H.
  - now rewrite Nat.add_0_r.
  - replace (n + S m)%nat with (S (n + m)) by lia. simpl.
    destruct (H (n + m)%nat) as [-> ->]; [lia|].
    apply IH. intros q Hq. apply H. lia.
Qed.

(** Without a ['?'] in the part scanned, the outer scan either runs out or
    reaches the slash case with [posQuestion] as it was. *)
Lemma scanDSN_cases dsn st pq n :
  (forall q, (q < n)%nat -> byteIs dsn q "?" = false) ->
  scanDSN dsn st pq n = Running st false pq \/
  exists i, (i < n)%nat /\ byteIs dsn i "/" = true /\
            scanDSN dsn st pq n = slashCase dsn st pq i.
Proof.
  induction n as [|n IH]; intros H; [now left|]. simpl.
  destruct (byteIs dsn n "/") eqn:Hs.
  - right. exists n. repeat split; [lia | exact Hs].
  - rewrite H by lia.
    destruct IH as [E|(i & Hi & Hb & E)]; [intros q Hq; apply H; lia | now left |].
    right. exists i. repeat split; [lia | exact Hb | exact E].
Qed.

Lemma scanCredentials_skip dsn st pq n m :
  (forall q, (n <= q < n + m)%nat ->
             byteIs dsn q "@" = false /\ byteIs dsn q "?" = false) ->
  scanCredentials dsn st pq (n + m) = scanCredentials dsn st pq n.
Proof.
  induction m as [|m IH]; intros H.
  - now rewrite Nat.add_0_r.
  - replace (n + S m)%nat with (S (n + m)) by lia. simpl.
    destruct (H (n + m)%nat) as [-> ->]; [lia|].
    apply IH. intros q Hq. apply H. lia.
Qed.

(** The scans for the credentials touch user and password only. *)
Definition sameButCredentials (st st' : State) : Prop :=
  exists user password,
    st' = st \/ st' = onCfg (fun cf => setPassword (setUser cf user) password) st.

Lemma scanCredentials_result dsn st pq n :
  (forall q, (q < n)%nat -> byteIs dsn q "?" = false) ->
  exists (pos : Z) st',
    scanCredentials dsn st pq n = (pos, st', pq) /\ -1 <= pos < Z.of_nat n /\
    sameButCredentials st st'.
Proof.
  induction n as [|n IH]; intros H.
  - exists (-1), st. repeat split; try lia. exists "", "". now left.
  - simpl. destruct (byteIs dsn n "@").
    + destruct (parseUserPassword n dsn) as [u p].
      eexists _, _. split; [reflexivity|]. split; [lia|].
      exists u, p. now right.
    + rewrite H by lia.
      destruct IH as (pos & st' & E & Hj & Hst); [intros q Hq; apply H; lia|].
      exists pos, st'. repeat split; [exact E | lia | lia | exact Hst].
Qed.

Lemma scanSegment_result dsn st ss pss n :
  exists (pos : Z) st' ss' pss',
    scanSegment dsn st ss pss n = (pos, st', ss', pss') /\
    sameButCredentials st st'.
Proof.
  revert ss pss; induction n as [|n IH]; intros ss pss.
  - exists (-1), st, ss, pss. split; [reflexivity|]. exists "", "". now left.
  - simpl. destruct (byteIs dsn n "/"); [apply IH|].
    destruct (byteIs dsn n "@"); [|apply IH].
    destruct (parseUserPassword n dsn) as [u p].
    eexists _, _, _, _. split; [reflexivity|]. exists u, p. now right.
Qed.

(** The only error of segment parsing is the one for a bad port. *)
Lemma parseAccountHostPort_err posAt posSlash dsn region account host port e :
  parseAccountHostPort posAt posSlash dsn =
  (region, account, host, port, Some e) ->
  exists text, e = ErrFailedToParsePort text.
Proof.
  unfold parseAccountHostPort.
  destruct (scanFor _ _ _ _) as [k found].
  destruct (if found then _ else _) as [p [kind|]].
  - intros [= _ _ _ _ <-]. eauto.
  - destruct (_ && _); [destruct (0 <? _)|]; discriminate.
Qed.

(** [parseParams] started left of the first ['?'] decodes what follows it. *)
Lemma parseParams_query st pos head query :
  lacks head "?" = true -> -1 <= pos < len head ->
  parseParams st pos (head +:+ String "?" query) = parseDSNParams st query.
Proof.
  intros Hh Hpos. unfold parseParams, len in *.
  rewrite (scanFor_first "?" _ _ _ (String.length head)).
  - f_equal. change (String "?" query) with ("?" +:+ query).
    rewrite <- app_assoc. apply sliceFrom_suffix.
    unfold len. rewrite length_app. simpl. lia.
  - rewrite length_app. simpl. lia.
  - now rewrite byteIs_at.
  - intros q Hq. apply byteIs_prefix_lacks; [exact Hh | lia].
Qed.

(** What the scans do before they decode the query string does not depend on
    it: they fail on a bad port, or they hand a state [st0] with the
    segments parsed to [parseDSNParams], return its error, and otherwise go
    on, after assigning database and schema in the slash case. *)
Lemma parseSegments_query px head query :
  lacks head "?" = true -> lacks query "/" = true ->
  lacks query "@" = true -> lacks query "?" = true ->
  (exists st ret text,
     parseSegments px (head +:+ String "?" query) =
     Returned st ret (ErrFailedToParsePort text) /\ proxy st = px) \/
  (exists st0 (fin : State -> State) (found : bool),
     proxy st0 = px /\ Params (cfg st0) = Some ∅ /\
     (fin = (fun st => st) \/
      exists d s,
        fin = fun st => onCfg (fun cf => setSchema (setDatabase cf d) s) st) /\
     parseSegments px (head +:+ String "?" query) =
     match parseDSNParams st0 query with
     | (st, Some e) => Returned st (Some (cfg st)) e
     | (st, None) => Running (fin st) found (len head)
     end).
Proof.
  intros Hh Hqs Hqa Hqq.
  set (dsn := head +:+ String "?" query).
  assert (String.length dsn = (S (String.length head) + String.length query)%nat)
    as Hlen by (unfold dsn; rewrite length_app; simpl; lia).
  assert (forall q (c : ascii), (S (String.length head) <= q)%nat -> lacks query c = true ->
                      byteIs dsn q c = false) as Hin.
  { intros q c Hq Hc. unfold dsn. change (String "?" query) with ("?" +:+ query).
    rewrite <- app_assoc. apply byteIs_suffix_lacks; [exact Hc|].
    rewrite length_app. simpl. lia. }
  assert (forall q, (q < String.length head)%nat -> byteIs dsn q "?" = false)
    as Hhead.
  { intros q Hq. apply byteIs_prefix_lacks; [exact Hh | exact Hq]. }
  assert (forall c, byteIs dsn (String.length head) c = Ascii.eqb "?" c) as Hat.
  { intros c. unfold dsn. apply byteIs_at. }
  set (st := mkState newConfig px).
  assert (forall st', sameButCredentials st st' ->
            proxy st' = px /\ Params (cfg st') = Some ∅) as Hsame.
  { intros st' (u & p & [->| ->]); split; reflexivity. }
  unfold parseSegments. fold dsn st. rewrite Hlen.
  rewrite scanDSN_skip by (intros q Hq; split; apply Hin; (lia || assumption)).
  simpl scanDSN. rewrite !Hat. simpl Ascii.eqb. cbv iota.
  destruct (scanDSN_cases dsn st (Z.of_nat (String.length head))
              (String.length head) Hhead) as [E|(i & Hi & Hb & E)];
    rewrite E; clear E.
  - (* no slash *)
    unfold noSlashCase. rewrite Hlen.
    rewrite scanCredentials_skip
      by (intros q Hq; split; apply Hin; (lia || assumption)).
    simpl scanCredentials. rewrite !Hat. simpl Ascii.eqb. cbv iota.
    destruct (scanCredentials_result dsn st (Z.of_nat (String.length head))
                (String.length head) Hhead) as (pos & st' & E & Hpos & Hst).
    rewrite E. clear E. apply Hsame in Hst as [Hpx Hpm].
    destruct (parseAccountHostPort pos (Z.of_nat (String.length head)) dsn)
      as [[[[r a] h] p] [e|]] eqn:Ep.
    + apply parseAccountHostPort_err in Ep as [text ->]. left.
      eexists _, _, _. split; [reflexivity | exact Hpx].
    + right. unfold assignAccountHostPort.
      exists (onCfg (fun cf => setPort (setHost (setAccount (setRegion cf r) a) h) p)
                st'), (fun st => st), false.
      split; [exact Hpx|]. split; [exact Hpm|]. split; [now left|].
      unfold dsn. rewrite parseParams_query by (unfold len; (assumption || lia)).
      now destruct (parseDSNParams _ query) as [st2 [e|]].
  - (* the slash case *)
    unfold slashCase.
    assert (forall st1, parseParams st1 (Z.of_nat i) dsn = parseDSNParams st1 query)
      as Hpp.
    { intros st1. unfold dsn. apply parseParams_query; [exact Hh | unfold len; lia]. }
    destruct (0 <? i)%nat.
    + destruct (scanSegment_result dsn st false (Z.of_nat i) i)
        as (pos & st' & ss' & pss' & E & Hst).
      rewrite E. clear E. apply Hsame in Hst as [Hpx Hpm].
      destruct (parseAccountHostPort pos pss' dsn)
        as [[[[r a] h] p] [e|]] eqn:Ep.
      * apply parseAccountHostPort_err in Ep as [text ->]. left.
        eexists _, _, _. split; [reflexivity | exact Hpx].
      * right. unfold assignAccountHostPort. rewrite Hpp.
        destruct ss'.
        -- exists (onCfg (fun cf =>
                             setPort (setHost (setAccount (setRegion cf r) a) h) p)
                     st').
           eexists _, true.
           split; [exact Hpx|]. split; [exact Hpm|].
           split; [right; eexists _, _; reflexivity|].
           now destruct (parseDSNParams _ query) as [st2 [e|]].
        -- exists (onCfg (fun cf =>
                             setPort (setHost (setAccount (setRegion cf r) a) h) p)
                     st').
           eexists _, true.
           split; [exact Hpx|]. split; [exact Hpm|].
           split; [right; eexists _, _; reflexivity|].
           now destruct (parseDSNParams _ query) as [st2 [e|]].
    + right. rewrite Hpp.
      eexists st, _, true.
      split; [reflexivity|]. split; [reflexivity|].
      split; [right; eexists _, _; reflexivity|].
      now destruct (parseDSNParams _ query) as [st2 [e|]].
Qed.

End QueryPosition.
(** ** Errors and the extension mapping in the decoder *)

Section Decoder.

Implicit Types (a b s v key raw value : string) (c x : ascii) (l : list string).

Lemma cut_Some c s a b :
  cut c s = Some (a, b) -> s = a +:+ String c b /\ lacks a c = true.
Proof.
  revert a; induction s as [|x s IH]; intros a; simpl; [discriminate|].
  destruct (Ascii.eqb_spec x c) as [->|Hne].
  - intros [= <- <-]. now rewrite app_nil_l.
  - destruct (cut c s) as [[a' b']|]; [|discriminate].
    intros [= <- <-]. destruct (IH a' eq_refl) as [-> Ha].
    rewrite app_cons. split; [reflexivity|]. simpl.
    rewrite Ha. now apply Ascii.eqb_neq in Hne as ->.
Qed.

(** Destruct the tests of [dispatchParam] one after the other. *)
Ltac dispatch_cases :=
  repeat match goal with
    | |- context [if String.eqb ?k ?lit then _ else _] =>
        destruct (String.eqb_spec k lit)
    end.

(** Whether a piece is accepted does not depend on the state. *)
Lemma dispatchParam_error st st' key value :
  snd (dispatchParam st key value) = snd (dispatchParam st' key value).
Proof.
  unfold dispatchParam. dispatch_cases; try reflexivity;
    try (destruct (ParseBool value); reflexivity);
    destruct (ParseInt value) as [num [kd|]]; reflexivity.
Qed.

Lemma parseDSNParam_error st st' v :
  snd (parseDSNParam st v) = snd (parseDSNParam st' v).
Proof.
  unfold parseDSNParam. destruct (SplitN2 v "=") as [|k [|raw [|]]]; try reflexivity.
  destruct (QueryUnescape raw); [apply dispatchParam_error | reflexivity].
Qed.

Lemma parsePieces_error st st' l :
  snd (parsePieces st l) = snd (parsePieces st' l).
Proof.
  revert st st'; induction l as [|v l IH]; intros st st'; [reflexivity|].
  simpl. pose proof (parseDSNParam_error st st' v) as H.
  destruct (parseDSNParam st v) as [s1 [e1|]],
           (parseDSNParam st' v) as [s2 [e2|]]; simpl in H; try discriminate.
  - exact H.
  - apply IH.
Qed.

(** A piece that fails stops the loop, if the pieces before it pass. *)
Lemma parsePieces_fails st l1 v l2 e :
  snd (parsePieces st l1) = None -> snd (parseDSNParam st v) = Some e ->
  snd (parsePieces st (l1 ++ v :: l2)) = Some e.
Proof.
  intros H1 Hv. rewrite parsePieces_app.
  destruct (parsePieces st l1) as [st1 [e1|]]; [discriminate|].
  simpl. pose proof (parseDSNParam_error st1 st v) as H.
  rewrite Hv in H.
  destruct (parseDSNParam st1 v) as [st2 [e2|]]; simpl in *; congruence.
Qed.

(** Only a piece with the key itself changes what the mapping holds for it. *)
Lemma dispatchParam_other_key st st' k key value :
  k <> key -> dispatchParam st k value = (st', None) ->
  lookupParam (cfg st') key = lookupParam (cfg st) key.
Proof.
  intros Hk. unfold dispatchParam. dispatch_cases;
    try (intros [= <-]; reflexivity);
    try (destruct (ParseBool value); [intros [= <-]; reflexivity | discriminate]);
    try (destruct (ParseInt value) as [num [kd|]];
         [discriminate | intros [= <-]; reflexivity]).
  intros [= <-]. unfold lookupParam, putParam. fields. simpl.
  now rewrite lookup_insert_ne.
Qed.

Lemma parseDSNParam_other_key st st' v key :
  (forall raw, v <> key +:+ "=" +:+ raw) -> parseDSNParam st v = (st', None) ->
  lookupParam (cfg st') key = lookupParam (cfg st) key.
Proof.
  intros Hv. unfold parseDSNParam, SplitN2.
  destruct (cut "=" v) as [[k raw]|] eqn:E; [|intros [= <-]; reflexivity].
  apply cut_Some in E as [-> _].
  destruct (QueryUnescape raw) as [value|]; [|discriminate].
  apply dispatchParam_other_key. intros ->. now apply (Hv raw).
Qed.

Lemma parsePieces_other_key st st' l key :
  Forall (fun p => forall raw, p <> key +:+ "=" +:+ raw) l ->
  parsePieces st l = (st', None) ->
  lookupParam (cfg st') key = lookupParam (cfg st) key.
Proof.
  intros H. revert st; induction H as [|v l Hv _ IH]; intros st.
  - intros [= <-]. reflexivity.
  - simpl. destruct (parseDSNParam st v) as [st1 [e|]] eqn:E; [discriminate|].
    intros H1. rewrite (IH _ H1). now apply (parseDSNParam_other_key st st1 v).
Qed.

(** A pair with a key that has no case goes to the extension mapping,
    decoded. *)
Lemma dispatchParam_default st key value :
  ~ In key recognizedKeys ->
  dispatchParam st key value = (onCfg (fun cf => putParam cf key value) st, None).
Proof.
  intros Hk. unfold dispatchParam. dispatch_cases; try reflexivity;
    exfalso; apply Hk; subst key; simpl; tauto.
Qed.

Lemma parseDSNParam_default st key raw :
  ~ In key recognizedKeys -> lacks key "=" = true ->
  parseDSNParam st (key +:+ "=" +:+ raw) =
  match QueryUnescape raw with
  | inl value => (onCfg (fun cf => putParam cf key value) st, None)
  | inr text => (st, Some (EscapeError text))
  end.
Proof.
  intros Hk Hl. unfold parseDSNParam, SplitN2.
  change (key +:+ "=" +:+ raw) with (key +:+ String "=" raw).
  rewrite cut_app by exact Hl.
  destruct (QueryUnescape raw); [now apply dispatchParam_default | reflexivity].
Qed.

(** Text without ['%'] and ['+'] decodes to itself. *)
Lemma QueryUnescape_plain s :
  lacks s "%" = true -> lacks s "+" = true -> QueryUnescape s = inl s.
Proof.
  induction s as [|x s IH]; [reflexivity|]. simpl.
  intros H1 H2. apply andb_true_iff in H1 as [Hx1 H1].
  apply andb_true_iff in H2 as [Hx2 H2].
  apply negb_true_iff in Hx1, Hx2. rewrite Hx1, Hx2, IH by assumption.
  reflexivity.
Qed.

End Decoder.
(** ** What the last passes of [ParseDSN] keep *)

Section LastPasses.

Variable clientType : string.

Lemma length_substring s k n :
  String.length (String.substring k n s) = Nat.min n (String.length s - k).
Proof.
  revert k n; induction s as [|x s IH]; intros k n.
  - destruct k, n; reflexivity.
  - destruct k as [|k]; simpl.
    + destruct n as [|n]; simpl; [reflexivity | now rewrite IH, Nat.sub_0_r].
    + apply IH.
Qed.

(** A position that [strings.Index] reports leaves room for the text. *)
Lemma Index_bound s sub :
  (0 < String.length sub)%nat -> 0 <= Index s sub ->
  Index s sub + len sub <= len s.
Proof.
  unfold Index, len. intros Hsub.
  destruct (String.index 0 sub s) as [p|] eqn:E; [|lia].
  intros _. apply String.index_correct1 in E.
  apply (f_equal String.length) in E. rewrite length_substring in E. lia.
Qed.

Lemma length_slice_prefix s p :
  0 <= p <= len s -> String.length (slice s 0 p) = Z.to_nat p.
Proof.
  unfold slice, len. intros H. rewrite length_substring.
  replace (Z.to_nat 0) with 0%nat by reflexivity. lia.
Qed.

Lemma eqb_empty_length s : String.eqb s "" = false <-> (0 < String.length s)%nat.
Proof. destruct s; simpl; split; intros; (reflexivity || lia || discriminate). Qed.

(** A successful defaulting pass yields [defaulted]. *)
Lemma fill_ok c c' :
  fillMissingConfigParameters clientType c = (c', None) ->
  c' = defaulted clientType c /\
  String.eqb (Account c) "" = false /\ String.eqb (User c) "" = false /\
  String.eqb (Password c) "" = false.
Proof.
  rewrite fill_spec.
  destruct (String.eqb (Account c) ""); [discriminate|].
  destruct (String.eqb (User c) ""); [discriminate|].
  destruct (String.eqb (Password c) ""); [discriminate|].
  intros [= <-]. repeat split.
Qed.

Lemma fill_err c c' e :
  fillMissingConfigParameters clientType c = (c', Some e) ->
  c' = c /\
  ((e = ErrEmptyAccount /\ Account c = "") \/
   (e = ErrEmptyUsername /\ User c = "") \/
   (e = ErrEmptyPassword /\ Password c = "")).
Proof.
  rewrite fill_spec.
  destruct (String.eqb_spec (Account c) ""); [intros [= <- <-]; auto|].
  destruct (String.eqb_spec (User c) ""); [intros [= <- <-]; auto|].
  destruct (String.eqb_spec (Password c) ""); [intros [= <- <-]; auto 6|].
  discriminate.
Qed.

(** The final decoding pass assigns database, schema, role and warehouse
    only. *)
Lemma unescapeFields_ok c c' :
  unescapeFields c = (c', None) ->
  exists d s r w,
    QueryUnescape (Database c) = inl d /\ QueryUnescape (Schema c) = inl s /\
    QueryUnescape (Role c) = inl r /\ QueryUnescape (Warehouse c) = inl w /\
    c' = setWarehouse (setRole (setSchema (setDatabase c d) s) r) w.
Proof.
  unfold unescapeFields.
  destruct (QueryUnescape (Database c)) as [d|]; [|discriminate].
  fields.
  destruct (QueryUnescape (Schema c)) as [s|]; [|discriminate].
  destruct (QueryUnescape (Role c)) as [r|]; [|discriminate].
  destruct (QueryUnescape (Warehouse c)) as [w|]; [|discriminate].
  intros [= <-]. now exists d, s, r, w.
Qed.

Lemma unescapeFields_err c c' e :
  unescapeFields c = (c', Some e) -> exists text, e = EscapeError text.
Proof.
  unfold unescapeFields.
  destruct (QueryUnescape (Database c)) as [d|t]; [|intros [= _ <-]; eauto].
  fields.
  destruct (QueryUnescape (Schema c)) as [s|t]; [|intros [= _ <-]; eauto].
  destruct (QueryUnescape (Role c)) as [r|t]; [|intros [= _ <-]; eauto].
  destruct (QueryUnescape (Warehouse c)) as [w|t]; [|intros [= _ <-]; eauto].
  discriminate.
Qed.

End LastPasses.
(** ** The query string of a parsed DSN *)

Section ParsedQuery.

Variable clientType : string.

Lemma deriveAccount_cases (cf : Config) :
  deriveAccount cf = cf \/ exists account, deriveAccount cf = setAccount cf account.
Proof.
  unfold deriveAccount. destruct (_ && _); [|now left].
  destruct (0 <? _); [right; eauto | now left].
Qed.

(** An error of the decoder is the error of [ParseDSN], unless the port was
    bad already. *)
Lemma ParseDSN_query_error px head query e :
  lacks head "?" = true -> lacks query "/" = true ->
  lacks query "@" = true -> lacks query "?" = true ->
  snd (parseDSNParams (mkState newConfig px) query) = Some e ->
  failure (ParseDSN clientType px (head +:+ String "?" query)) = Some e \/
  exists text,
    failure (ParseDSN clientType px (head +:+ String "?" query)) =
    Some (ErrFailedToParsePort text).
Proof.
  intros Hh H1 H2 H3 He. unfold ParseDSN.
  destruct (parseSegments_query px head query Hh H1 H2 H3)
    as [(st & ret & text & -> & _)|(st0 & fin & b & _ & _ & _ & ->)].
  - right. now exists text.
  - left. unfold parseDSNParams in *.
    rewrite (parsePieces_error _ st0) in He.
    destruct (parsePieces st0 _) as [st [e'|]]; simpl in He; [|discriminate].
    now injection He as ->.
Qed.

(** A successful parse has decoded the query string from a state with an
    empty extension mapping, and returns the mapping the decoder left. *)
Lemma ParseDSN_query_ok px head query cf px' :
  lacks head "?" = true -> lacks query "/" = true ->
  lacks query "@" = true -> lacks query "?" = true ->
  ParseDSN clientType px (head +:+ String "?" query) = mkParsed (Some cf) None px' ->
  exists st0 st,
    Params (cfg st0) = Some ∅ /\ proxy st0 = px /\
    parseDSNParams st0 query = (st, None) /\
    Params cf = Params (cfg st) /\ px' = proxy st.
Proof.
  intros Hh H1 H2 H3. unfold ParseDSN.
  destruct (parseSegments_query px head query Hh H1 H2 H3)
    as [(st & ret & text & -> & _)|(st0 & fin & b & Hpx & Hpm & Hfin & ->)];
    [discriminate|].
  destruct (parseDSNParams st0 query) as [st [e|]] eqn:E; [discriminate|].
  destruct (fillMissingConfigParameters _ _) as [c1 [e|]] eqn:Ef; [discriminate|].
  apply fill_ok in Ef as [-> _].
  destruct (unescapeFields _) as [c2 [e|]] eqn:Eu; [discriminate|].
  apply unescapeFields_ok in Eu as (d & s & r & w & _ & _ & _ & _ & ->).
  intros [= <- <-]. exists st0, st.
  split; [exact Hpm|]. split; [exact Hpx|]. split; [exact E|].
  assert (Params (cfg (fin st)) = Params (cfg st) /\ proxy (fin st) = proxy st)
    as [Hp1 Hp2].
  { destruct Hfin as [->|(d' & s' & ->)]; split; reflexivity. }
  split; [|exact Hp2]. rewrite <- Hp1.
  destruct (deriveAccount_cases (cfg (fin st))) as [->|[a ->]]; reflexivity.
Qed.

End ParsedQuery.
(** ** The serialiser, step by step *)

Section Serialiser.

Variable clientType : string.

Lemma DSN_spec (c : Config) :
  DSN clientType c =
  match fillMissingConfigParameters clientType (beforeDefaulting c) with
  | (c', Some err) => (c', ("", Some err))
  | (c', None) => (c', (dsnText clientType c', None))
  end.
Proof. reflexivity. Qed.

(** The [Config] that [DSN] leaves behind the pointer. *)
Lemma DSN_config (c : Config) :
  fst (DSN clientType c) =
  fst (fillMissingConfigParameters clientType (beforeDefaulting c)).
Proof.
  rewrite DSN_spec.
  now destruct (fillMissingConfigParameters _ _) as [c' [e|]].
Qed.

Lemma beforeDefaulting_cases (c : Config) :
  exists host, let c1 := setHost c host in
    beforeDefaulting c = c1 \/
    exists region account,
      beforeDefaulting c = setAccount (setRegion c1 region) account.
Proof.
  cbv beta delta [beforeDefaulting].
  assert (exists host,
            (if String.eqb (Host c) ""
             then
               if String.eqb (Region c) ""
               then setHost c (Account c +:+ ".snowflakecomputing.com")
               else
                 setHost c
                   (Account c +:+ "." +:+ Region c +:+ ".snowflakecomputing.com")
             else c) = setHost c host) as [host ->].
  { destruct (String.eqb (Host c) "");
      [destruct (String.eqb (Region c) ""); eexists; reflexivity|].
    exists (Host c). now split_config c. }
  exists host. cbv zeta.
  destruct (0 <? _); [right; eexists _, _; reflexivity | left; reflexivity].
Qed.

Lemma fill_config_cases (c : Config) :
  fst (fillMissingConfigParameters clientType c) = c \/
  fst (fillMissingConfigParameters clientType c) = defaulted clientType c.
Proof.
  rewrite fill_spec.
  destruct (String.eqb _ _); [now left|].
  destruct (String.eqb _ _); [now left|].
  destruct (String.eqb _ _); [now left | now right].
Qed.

End Serialiser.
(** ** The host after a second defaulting pass *)

Section Reconciled.

Implicit Types (a b s hp region : string) (k m n p : nat).

Lemma substring_substring s m n (i j : nat) :
  (i + j <= n)%nat ->
  String.substring i j (String.substring m n s) = String.substring (m + i) j s.
Proof.
  intros H. apply String.get_correct. intros k.
  destruct (Nat.lt_ge_cases k j) as [Hk|Hk].
  - rewrite !String.substring_correct1 by lia. f_equal. lia.
  - now rewrite !String.substring_correct2 by lia.
Qed.

Lemma not_mentions s w p :
  w <> "" -> mentions s w = false ->
  String.substring p (String.length w) s <> w.
Proof.
  unfold mentions. intros Hw H.
  destruct (String.index 0 w s) eqn:E; [discriminate|].
  apply (String.index_correct3 0 p w s E Hw). lia.
Qed.

Lemma mentions_false s w :
  (forall p, String.substring p (String.length w) s <> w) -> mentions s w = false.
Proof.
  unfold mentions. intros H. destruct (String.index 0 w s) as [m|] eqn:E; [|reflexivity].
  apply String.index_correct1 in E. now apply H in E.
Qed.

(** A word without dots that occurs in [a.b] occurs in [a] or in [b]. *)
Lemma mentions_join a b w :
  w <> "" -> lacks w "." = true ->
  mentions a w = false -> mentions b w = false ->
  mentions (a +:+ String "." b) w = false.
Proof.
  intros Hw Hdot Ha Hb. apply mentions_false. intros p E.
  destruct (Nat.le_gt_cases (p + String.length w) (String.length a)) as [H1|H1].
  - rewrite substring_in in E by exact H1. exact (not_mentions a w p Hw Ha E).
  - destruct (Nat.le_gt_cases p (String.length a)) as [H2|H2].
    + (* the word would cover the dot *)
      assert (String.get (String.length a - p) w = Some "."%char) as Hg.
      { rewrite <- E at 1. rewrite String.substring_correct1 by lia.
        replace (String.length a - p + p)%nat with (String.length a + 0)%nat by lia.
        now rewrite get_app_r. }
      pose proof (byteIs_lacks w (String.length a - p) "." Hdot) as Hn.
      unfold byteIs in Hn. rewrite Hg in Hn. discriminate.
    + change (String "." b) with ("." +:+ b) in E. rewrite <- app_assoc in E.
      replace p with (String.length (a +:+ ".") + (p - S (String.length a)))%nat
        in E by (rewrite length_app; simpl; lia).
      rewrite substring_skip in E. exact (not_mentions b w _ Hw Hb E).
Qed.

(** After a text that does not mention [snowflakecomputing], the domain
    suffix is found where it was appended. *)
Lemma Index_appended a :
  mentions a "snowflakecomputing" = false ->
  Index (a +:+ ".snowflakecomputing.com") ".snowflakecomputing.com" = len a.
Proof.
  intros Ha. unfold Index, len.
  set (S := ".snowflakecomputing.com").
  assert (String.substring (String.length a) (String.length S) (a +:+ S) = S) as Hat.
  { replace (String.length a) with (String.length a + 0)%nat at 1 by lia.
    rewrite substring_skip. apply substring_all. }
  destruct (String.index 0 S (a +:+ S)) as [m|] eqn:E.
  2:{ exfalso. apply (String.index_correct3 0 (String.length a) S _ E);
        [discriminate | lia | exact Hat]. }
  destruct (Nat.lt_trichotomy m (String.length a)) as [Hlt|[->|Hgt]];
    [|reflexivity|].
  2:{ exfalso. apply (String.index_correct2 0 m S _ E (String.length a));
        [lia | exact Hgt | exact Hat]. }
  exfalso. apply String.index_correct1 in E.
  assert (String.substring (m + 1) 18 (a +:+ S) = "snowflakecomputing") as Hw.
  { rewrite <- (substring_substring _ m (String.length S)) by (simpl; lia).
    now rewrite E. }
  destruct (Nat.le_gt_cases (m + 1 + 18) (String.length a)) as [H1|H1].
  - rewrite substring_in in Hw by exact H1.
    exact (not_mentions a "snowflakecomputing" (m + 1)%nat ltac:(discriminate) Ha Hw).
  - assert (String.get (String.length a - (m + 1)) "snowflakecomputing" =
            Some "."%char) as Hg.
    { rewrite <- Hw at 1. rewrite String.substring_correct1 by lia.
      replace (String.length a - (m + 1) + (m + 1))%nat
        with (String.length a + 0)%nat by lia.
      now rewrite get_app_r. }
    pose proof (byteIs_lacks "snowflakecomputing" (String.length a - (m + 1)) "."
                  eq_refl) as Hn.
    unfold byteIs in Hn. rewrite Hg in Hn. discriminate.
Qed.

Lemma HasSuffix_app a b : HasSuffix (a +:+ b) b = true.
Proof.
  unfold HasSuffix. rewrite length_app.
  apply andb_true_iff. split; [apply Nat.leb_le; lia|].
  replace (String.length a + String.length b - String.length b)%nat
    with (String.length a + 0)%nat by lia.
  rewrite substring_skip, substring_all. apply String.eqb_refl.
Qed.

(** The reconciled host is a fixed point of the reconciliation. *)
Lemma reconciledHost_stable (c c' : Config) :
  Region c' = Region c -> Host c' = reconciledHost c ->
  Region c = "" \/ reconciledHost c = Host c \/
  (mentions (Region c) "snowflakecomputing" = false /\
   mentions (slice (Host c) 0 (Index (Host c) ".snowflakecomputing.com"))
     "snowflakecomputing" = false) ->
  reconciledHost c' = Host c'.
Proof.
  intros Hr Hh Hc.
  assert (reconciledHost c = Host c -> reconciledHost c' = Host c') as Hsame.
  { intros E. rewrite Hh, E. unfold reconciledHost in *. now rewrite Hr, Hh, E. }
  destruct Hc as [E|[E|[HR Hp]]]; [|now apply Hsame|].
  { unfold reconciledHost. now rewrite Hr, E. }
  unfold reconciledHost in Hh, Hsame.
  destruct (negb (String.eqb (Region c) "")); [|now apply Hsame].
  cbv zeta in Hh, Hsame.
  destruct (1 <=? Index (Host c) ".snowflakecomputing.com"); [|now apply Hsame].
  set (hp := slice (Host c) 0 (Index (Host c) ".snowflakecomputing.com")) in *.
  destruct (negb (HasSuffix hp (Region c))) eqn:Hs; [|now apply Hsame].
  clear Hsame.
  assert (Host c' = (hp +:+ String "." (Region c)) +:+ ".snowflakecomputing.com")
    as Hh'.
  { rewrite Hh. now rewrite app_assoc. }
  assert (mentions (hp +:+ String "." (Region c)) "snowflakecomputing" = false)
    as Hm by (apply mentions_join; (discriminate || reflexivity || assumption)).
  unfold reconciledHost. rewrite Hr.
  destruct (negb (String.eqb (Region c) "")); [|reflexivity].
  cbv zeta. rewrite Hh'. rewrite (Index_appended _ Hm).
  assert ((1 <=? len (hp +:+ String "." (Region c))) = true) as ->.
  { apply Z.leb_le. unfold len. rewrite length_app. simpl. lia. }
  rewrite slice_prefix by reflexivity.
  change (hp +:+ String "." (Region c)) with (hp +:+ "." +:+ Region c).
  rewrite <- (app_assoc hp "." (Region c)) at 1.
  now rewrite HasSuffix_app.
Qed.

End Reconciled.
(** ** Decimal numbers: printing and reading back *)

Section Numbers.

Import DecimalPos.Unsigned.

Lemma of_lu_revapp_ge (d r : Decimal.uint) :
  (of_lu r <= of_lu (Decimal.revapp d r))%N.
Proof.
  rewrite of_lu_revapp.
  assert (1 <= 10 ^ usize d)%N.
  { change 1%N with (10 ^ 0)%N. apply N.pow_le_mono_r; lia. }
  nia.
Qed.

(** One turn of the digit loop on a digit that fits. *)
Lemma parseUintFrom_step (c : ascii) (k n : Z) (s : string) :
  isDigit c = true -> digitVal c = k -> 0 <= k <= 9 -> 0 <= n ->
  n * 10 + k <= maxUint64 ->
  parseUintFrom n (String c s) = parseUintFrom (n * 10 + k) s.
Proof.
  intros Hd Hv Hk Hn Hmax. cbn [parseUintFrom]. rewrite Hd, Hv. simpl negb. cbv iota.
  unfold maxUint64 in *.
  assert (((2 ^ 64 - 1) / 10 + 1 <=? n) = false) as ->.
  { apply Z.leb_gt. 
    assert (n <= (2 ^ 64 - 1) / 10); [|lia].
    apply Z.div_le_lower_bound; lia. }
  cbv zeta.
  rewrite (Z.mod_small (n * 10 + k)) by lia.
  assert ((n * 10 + k <? n * 10) = false) as -> by (apply Z.ltb_ge; lia).
  assert ((2 ^ 64 - 1 <? n * 10 + k) = false) as -> by (apply Z.ltb_ge; lia).
  reflexivity.
Qed.

Lemma parseUintFrom_digits (d r : Decimal.uint) :
  Z.of_N (of_lu (Decimal.revapp d r)) <= maxUint64 ->
  parseUintFrom (Z.of_N (of_lu r)) (NilEmpty.string_of_uint d) =
  (Z.of_N (of_lu (Decimal.revapp d r)), None).
Proof.
  revert r.
  induction d as [|d IH|d IH|d IH|d IH|d IH|d IH|d IH|d IH|d IH|d IH];
    intros r Hmax; [reflexivity|..];
    simpl Decimal.revapp in *; simpl NilEmpty.string_of_uint;
    match goal with
    | H : context [Decimal.revapp d ?r'] |- _ =>
        pose proof (of_lu_revapp_ge d r') as Hge;
        specialize (IH r' Hmax);
        cbn [of_lu] in Hge, IH
    end;
    rewrite <- IH;
    (erewrite parseUintFrom_step; cycle 1;
     [reflexivity | vm_compute; reflexivity | lia | lia | lia | f_equal; lia]).
Qed.

Lemma parseUint_digits (p : positive) :
  Z.pos p <= maxUint64 ->
  ParseUint (NilEmpty.string_of_uint (Pos.to_uint p)) = (Z.pos p, None).
Proof.
  intros Hmax.
  pose proof (parseUintFrom_digits (Pos.to_uint p) Decimal.Nil) as H.
  change (Decimal.revapp (Pos.to_uint p) Decimal.Nil)
    with (Decimal.rev (Pos.to_uint p)) in H.
  rewrite <- of_uint_alt, of_to in H. specialize (H Hmax).
  unfold ParseUint.
  destruct (NilEmpty.string_of_uint (Pos.to_uint p)) eqn:E; [|exact H].
  simpl in H. discriminate.
Qed.

(** The text of a positive number starts with a digit. *)
Lemma string_of_uint_head (d : Decimal.uint) :
  d <> Decimal.Nil ->
  exists c s, NilEmpty.string_of_uint d = String c s /\
              Ascii.eqb c "-" = false /\ Ascii.eqb c "+" = false.
Proof.
  destruct d; [congruence|..]; intros _; eexists _, _; repeat split.
Qed.

(** [strconv.ParseInt] reads back what [strconv.FormatInt] prints. *)
Lemma ParseInt_FormatInt (z : Z) :
  - 2 ^ 63 <= z < 2 ^ 63 -> ParseInt (FormatInt z) = (z, None).
Proof.
  intros Hz. unfold FormatInt. destruct z as [|p|p]; [reflexivity|..];
    cbn [Z.to_int NilZero.string_of_int];
    pose proof (to_uint_nonnil p) as Hn.
  - assert (NilZero.string_of_uint (Pos.to_uint p) =
            NilEmpty.string_of_uint (Pos.to_uint p)) as ->
      by (unfold NilZero.string_of_uint; now destruct (Pos.to_uint p)).
    destruct (string_of_uint_head _ Hn) as (c & s & E & Hm & Hp).
    pose proof (parseUint_digits p ltac:(unfold maxUint64; lia)) as H.
    rewrite E in *. unfold ParseInt. rewrite Hm, Hp. simpl orb. cbv iota.
    rewrite H. simpl negb. 
    assert ((2 ^ 63 <=? Z.pos p) = false) as -> by (apply Z.leb_gt; lia).
    reflexivity.
  - assert (NilZero.string_of_uint (Pos.to_uint p) =
            NilEmpty.string_of_uint (Pos.to_uint p)) as ->
      by (unfold NilZero.string_of_uint; now destruct (Pos.to_uint p)).
    pose proof (parseUint_digits p ltac:(unfold maxUint64; lia)) as H.
    unfold ParseInt. simpl Ascii.eqb. simpl orb. cbv iota. rewrite H.
    simpl negb. simpl andb.
    assert ((2 ^ 63 <? Z.pos p) = false) as -> by (apply Z.ltb_ge; lia).
    reflexivity.
Qed.

(** Printed numbers consist of digits and a sign. *)
Lemma string_of_uint_lacks (d : Decimal.uint) (c : ascii) :
  isDigit c = false -> lacks (NilEmpty.string_of_uint d) c = true.
Proof.
  intros Hc. induction d; cbn [lacks NilEmpty.string_of_uint];
    [reflexivity|..]; rewrite IHd, andb_true_r;
    apply negb_true_iff, Ascii.eqb_neq; intros <-; discriminate.
Qed.

Lemma FormatInt_lacks (z : Z) (c : ascii) :
  isDigit c = false -> c <> "-"%char -> lacks (FormatInt z) c = true.
Proof.
  intros Hc Hm. unfold FormatInt.
  assert (forall d, lacks (NilZero.string_of_uint d) c = true) as H.
  { intros d. unfold NilZero.string_of_uint.
    destruct d; try apply (string_of_uint_lacks _ c Hc).
    cbn [lacks]. rewrite andb_true_r. apply negb_true_iff, Ascii.eqb_neq.
    intros <-. discriminate. }
  destruct z as [|p|p]; cbn [Z.to_int NilZero.string_of_int]; try apply H.
  cbn [lacks]. rewrite H, andb_true_r.
  apply negb_true_iff, Ascii.eqb_neq. congruence.
Qed.

End Numbers.
(** ** Percent-encoding: escaping and decoding back *)

Section Escaping.

Implicit Types (s : string) (c x : ascii).

(** Decoding the escape of one byte gives the byte back. *)
Lemma QueryUnescape_escape_cons c s :
  QueryUnescape (QueryEscape (String c s)) =
  match QueryUnescape (QueryEscape s) with
  | inl r => inl (String c r)
  | inr e => inr e
  end.
Proof.
  destruct c as [[] [] [] [] [] [] [] []]; reflexivity.
Qed.

(** [url.QueryUnescape] undoes [url.QueryEscape]. *)
Lemma QueryUnescape_QueryEscape s : QueryUnescape (QueryEscape s) = inl s.
Proof.
  induction s as [|c s IH]; [reflexivity|].
  now rewrite QueryUnescape_escape_cons, IH.
Qed.

Lemma hexDigit_kept (n : N) : shouldEscape (hexDigit n) = false.
Proof.
  unfold hexDigit.
  destruct (N.to_nat n) as [|[|[|[|[|[|[|[|[|[|[|[|[|[|[|[|k]]]]]]]]]]]]]]]];
    reflexivity.
Qed.

(** A byte that would itself be escaped, other than ['%'] and ['+'], does
    not occur in escaped text. *)
Lemma QueryEscape_lacks s x :
  shouldEscape x = true -> x <> "%"%char -> x <> "+"%char ->
  lacks (QueryEscape s) x = true.
Proof.
  intros Hx Hpc Hpl.
  assert (forall c, shouldEscape c = false -> negb (Ascii.eqb c x) = true) as Hk.
  { intros c Hc. apply negb_true_iff, Ascii.eqb_neq. intros ->. congruence. }
  induction s as [|c s IH]; [reflexivity|].
  cbn [QueryEscape].
  destruct (Ascii.eqb c " ").
  - cbn [lacks]. rewrite IH, andb_true_r.
    apply negb_true_iff, Ascii.eqb_neq. congruence.
  - destruct (shouldEscape c) eqn:Hc; cbn [lacks]; rewrite IH, ?andb_true_r.
    + rewrite (Hk (hexDigit _)), (Hk (hexDigit _)) by apply hexDigit_kept.
      rewrite andb_true_r. apply negb_true_iff, Ascii.eqb_neq. congruence.
    + now apply Hk.
Qed.

End Escaping.

(** ** The encoded query of the serialiser *)

Section EncodeFacts.

Lemma StronglySorted_filter {A} (R : relation A) (P : A -> Prop)
    `{forall x, Decision (P x)} (l : list A) :
  StronglySorted R l -> StronglySorted R (filter P l).
Proof.
  induction 1 as [|x l Hl IH Hx]; [constructor|].
  rewrite filter_cons. destruct (decide (P x)); [|exact IH].
  constructor; [exact IH|].
  apply Forall_forall. intros y Hy. apply list_elem_of_filter in Hy as [_ Hy].
  rewrite Forall_forall in Hx. now apply Hx.
Qed.

(** [Encode] visits the keys in sorted order; a key without values adds
    nothing, so any sorted list that covers the keys of the map will do. *)
Lemma Encode_keys (v : Values) (keys : list string) :
  StronglySorted String.le keys -> NoDup keys ->
  (forall k, k ∈ dom v -> k ∈ keys) ->
  Encode v = String.concat "&" (concat (encodeKey v <$> keys)).
Proof.
  intros Hs Hn Hk. unfold Encode.
  assert (merge_sort String.le (elements (dom v)) =
          filter (fun k => k ∈ dom v) keys) as ->.
  { apply (StronglySorted_unique String.le).
    - apply StronglySorted_merge_sort; apply _.
    - now apply StronglySorted_filter.
    - etransitivity; [apply merge_sort_Permutation|].
      apply NoDup_Permutation.
      + apply NoDup_elements.
      + now apply NoDup_filter.
      + intros k. rewrite elem_of_elements, list_elem_of_filter.
        split; [intros Hd; split; auto | now intros [Hd _]]. }
  f_equal. clear Hs Hn Hk. induction keys as [|k keys IH]; [reflexivity|].
  rewrite filter_cons. destruct (decide (k ∈ dom v)) as [Hin|Hout].
  - rewrite !fmap_cons. simpl. now rewrite IH.
  - rewrite fmap_cons. simpl. rewrite <- IH.
    apply not_elem_of_dom in Hout. unfold encodeKey. now rewrite Hout.
Qed.

End EncodeFacts.

(** ** The scans on a DSN without a slash *)

Section NoSlash.

Implicit Types (a b s t dsn : string) (c x : ascii) (i j k m n : nat).

Lemma scanDSN_noslash dsn st pq n :
  lacks dsn "/" = true ->
  exists pq',
    scanDSN dsn st pq n = Running st false pq' /\
    (lacks dsn "?" = true -> pq' = pq).
Proof.
  intros Hs. revert pq. induction n as [|n IH]; intros pq.
  - exists pq. now split.
  - simpl. rewrite (byteIs_lacks dsn n "/" Hs).
    destruct (byteIs dsn n "?") eqn:Hq.
    + destruct (IH (Z.of_nat n)) as (pq' & E & _). exists pq'. split; [exact E|].
      intros H. rewrite (byteIs_lacks dsn n "?" H) in Hq. discriminate.
    + apply IH.
Qed.

Lemma scanCredentials_at a t st pq :
  scanCredentials (a +:+ String "@" t) st pq (S (String.length a)) =
  (Z.of_nat (String.length a),
   withCredentials st (a +:+ String "@" t) (String.length a), pq).
Proof.
  simpl. rewrite byteIs_at. simpl. unfold withCredentials.
  now destruct (parseUserPassword _ _).
Qed.

Lemma scanCredentials_tail a t st pq :
  lacks t "@" = true -> lacks t "?" = true ->
  scanCredentials (a +:+ String "@" t) st pq
    (String.length (a +:+ String "@" t)) =
  (Z.of_nat (String.length a),
   withCredentials st (a +:+ String "@" t) (String.length a), pq).
Proof.
  intros H1 H2. rewrite length_app. simpl String.length.
  replace (String.length a + S (String.length t))%nat
    with (S (String.length a) + String.length t)%nat by lia.
  rewrite scanCredentials_skip; [apply scanCredentials_at|].
  intros q Hq. change (String "@" t) with ("@" +:+ t). rewrite <- app_assoc.
  split; apply byteIs_suffix_lacks; try assumption;
    rewrite length_app; simpl; lia.
Qed.

Lemma scanCredentials_tail_query a t q st pq :
  lacks t "@" = true -> lacks t "?" = true ->
  lacks q "@" = true -> lacks q "?" = true ->
  scanCredentials (a +:+ String "@" (t +:+ String "?" q)) st pq
    (String.length (a +:+ String "@" (t +:+ String "?" q))) =
  (Z.of_nat (String.length a),
   withCredentials st (a +:+ String "@" (t +:+ String "?" q)) (String.length a),
   Z.of_nat (String.length (a +:+ String "@" t))).
Proof.
  intros H1 H2 H3 H4.
  set (dsn := a +:+ String "@" (t +:+ String "?" q)).
  assert (dsn = (a +:+ String "@" t) +:+ String "?" q) as E.
  { unfold dsn. now rewrite app_assoc, app_cons. }
  assert (String.length dsn =
          (S (String.length (a +:+ String "@" t)) + String.length q)%nat) as ->.
  { rewrite E, length_app. simpl. lia. }
  rewrite scanCredentials_skip.
  2:{ intros p Hp. rewrite E. change (String "?" q) with ("?" +:+ q).
      rewrite <- app_assoc.
      split; apply byteIs_suffix_lacks; try assumption;
        rewrite length_app; simpl; lia. }
  assert (forall c, byteIs dsn (String.length (a +:+ String "@" t)) c =
                    Ascii.eqb "?" c) as Hat.
  { intros c. rewrite E. apply byteIs_at. }
  cbn [scanCredentials]. rewrite !Hat. simpl Ascii.eqb. cbv iota.
  rewrite length_app. simpl String.length.
  replace (String.length a + S (String.length t))%nat
    with (S (String.length a) + String.length t)%nat by lia.
  rewrite scanCredentials_skip.
  2:{ intros p Hp. unfold dsn.
      change (String "@" (t +:+ String "?" q)) with ("@" +:+ (t +:+ String "?" q)).
      rewrite <- app_assoc.
      replace p with (String.length (a +:+ "@") + (p - S (String.length a)))%nat
        by (rewrite length_app; simpl; lia).
      rewrite !byteIs_app_r.
      split; apply byteIs_prefix_lacks; (assumption || lia). }
  unfold dsn. now rewrite scanCredentials_at.
Qed.

Lemma parseUserPassword_split user password rest :
  lacks user ":" = true ->
  parseUserPassword (String.length (user +:+ String ":" password))
    (user +:+ String ":" (password +:+ rest)) = (user, password).
Proof.
  intros Hu. unfold parseUserPassword.
  change (user +:+ String ":" (password +:+ rest))
    with ("" +:+ user +:+ String ":" (password +:+ rest)) at 1.
  rewrite scanFor_hit;
    [| reflexivity | exact Hu | rewrite length_app; simpl; lia].
  f_equal.
  - apply slice_prefix. unfold len. simpl. lia.
  - change (String ":" (password +:+ rest)) with (":" +:+ password +:+ rest).
    rewrite <- app_assoc. apply slice_mid.
    + unfold len. rewrite length_app. simpl. lia.
    + unfold len. rewrite !length_app. simpl. lia.
Qed.

Lemma parseAccountHostPort_hostport before host number rest port :
  lacks host ":" = true -> Atoi number = (port, None) -> port <> 0 ->
  parseAccountHostPort (len before)
    (len (before +:+ String "@" (host +:+ String ":" number)))
    (before +:+ String "@" (host +:+ String ":" (number +:+ rest))) =
  ("", "", host, port, None).
Proof.
  intros Hh Hn Hp. unfold parseAccountHostPort, len.
  set (dsn := before +:+ String "@" (host +:+ String ":" (number +:+ rest))).
  assert (dsn = (before +:+ "@") +:+ host +:+ String ":" (number +:+ rest)) as E1.
  { unfold dsn. now rewrite app_assoc. }
  assert (dsn = (before +:+ "@" +:+ host +:+ ":") +:+ number +:+ rest) as E2.
  { unfold dsn. now rewrite !app_assoc. }
  assert (String.length (before +:+ "@") = S (String.length before)) as L1
    by (rewrite length_app; simpl; lia).
  assert (String.length (before +:+ "@" +:+ host +:+ ":") =
          (String.length before + String.length host + 2)%nat) as L2
    by (rewrite !length_app; simpl; lia).
  assert (String.length (before +:+ String "@" (host +:+ String ":" number)) =
          (String.length before + String.length host + String.length number + 2)%nat)
    as L3 by (rewrite !length_app; simpl; rewrite length_app; simpl; lia).
  rewrite L3.
  rewrite E1 at 1. rewrite scanFor_hit; [| lia | exact Hh | lia].
  assert (slice dsn
            (Z.of_nat (Z.to_nat (Z.of_nat (String.length before) + 1) +
                       String.length host) + 1)
            (Z.of_nat (String.length before + String.length host +
                       String.length number + 2)) = number) as ->.
  { rewrite E2. apply slice_mid; unfold len; lia. }
  rewrite Hn.
  assert (slice dsn (Z.of_nat (String.length before) + 1)
            (Z.of_nat (Z.to_nat (Z.of_nat (String.length before) + 1) +
                       String.length host)) = host) as ->.
  { rewrite E1. apply slice_mid; unfold len; lia. }
  apply Z.eqb_neq in Hp. now rewrite Hp.
Qed.

Lemma byteIs_beyond s i c : (String.length s <= i)%nat -> byteIs s i c = false.
Proof.
  unfold byteIs. revert i; induction s as [|x s IH]; intros i H.
  - now destruct i.
  - destruct i as [|i]; simpl in *; [lia | apply IH; lia].
Qed.

Lemma parseSegments_hostport px user password host number port query :
  lacks user ":" = true -> lacks user "/" = true -> lacks user "?" = true ->
  lacks password "/" = true -> lacks password "?" = true ->
  lacks host ":" = true -> lacks host "/" = true -> lacks host "?" = true ->
  lacks host "@" = true ->
  lacks number "/" = true -> lacks number "?" = true ->
  lacks number "@" = true ->
  Atoi number = (port, None) -> port <> 0 ->
  match query with
  | Some q => lacks q "/" = true /\ lacks q "@" = true /\ lacks q "?" = true
  | None => True
  end ->
  parseSegments px
    (user +:+ String ":" (password +:+ String "@"
       (host +:+ String ":" (number +:+ queryTail query)))) =
  match
    match query with
    | Some q => parseDSNParams (segmentsState px user password host port) q
    | None => (segmentsState px user password host port, None)
    end
  with
  | (st, Some e) => Returned st (Some (cfg st)) e
  | (st, None) =>
      Running st false
        (len (user +:+ String ":" (password +:+ String "@"
                (host +:+ String ":" number))))
  end.
Proof.
  intros Hu1 Hu2 Hu3 Hp2 Hp3 Hh1 Hh2 Hh3 Hh4 Hn2 Hn3 Hn4 Hat Hport Hq.
  set (tail := queryTail query).
  set (dsn := user +:+ String ":" (password +:+ String "@"
                (host +:+ String ":" (number +:+ tail)))).
  set (creds := user +:+ String ":" password).
  set (base := user +:+ String ":" (password +:+ String "@"
                 (host +:+ String ":" number))).
  assert (dsn = creds +:+ String "@" (host +:+ String ":" (number +:+ tail))) as E1.
  { unfold dsn, creds. now rewrite app_assoc, app_cons. }
  assert (base = creds +:+ String "@" (host +:+ String ":" number)) as Eb.
  { unfold base, creds. now rewrite app_assoc, app_cons. }
  assert (dsn = base +:+ tail) as E2.
  { rewrite E1, Eb. now rewrite !app_assoc, !app_cons, !app_assoc, !app_cons. }
  assert (lacks tail "/" = true) as Ht.
  { unfold tail. destruct query as [q|]; [|reflexivity]. simpl. now destruct Hq. }
  assert (lacks dsn "/" = true) as Hs.
  { unfold dsn. rewrite !lacks_app. simpl.
    rewrite !lacks_app. simpl. rewrite !lacks_app. simpl. rewrite !lacks_app.
    now rewrite Hu2, Hp2, Hh2, Hn2, Ht. }
  assert (lacks base "?" = true) as Hbq.
  { unfold base. rewrite !lacks_app. simpl.
    rewrite !lacks_app. simpl. rewrite !lacks_app. simpl.
    now rewrite Hu3, Hp3, Hh3, Hn3. }
  unfold parseSegments.
  destruct (scanDSN_noslash dsn (mkState newConfig px) (len dsn)
              (String.length dsn) Hs) as (pq' & E & Hpq).
  rewrite E. clear E. unfold noSlashCase.
  assert (scanCredentials dsn (mkState newConfig px) pq' (String.length dsn) =
          (len creds, withCredentials (mkState newConfig px) dsn (String.length creds),
           len base)) as ->.
  { unfold tail in *. destruct query as [q|]; simpl queryTail in *.
    - destruct Hq as (Hq1 & Hq2 & Hq3).
      assert (dsn = creds +:+ String "@" ((host +:+ String ":" number) +:+ String "?" q))
        as E3 by (rewrite E1; now rewrite !app_assoc, !app_cons).
      rewrite E3, Eb. apply scanCredentials_tail_query; try assumption;
        rewrite lacks_app; simpl; now rewrite ?Hh4, ?Hn4, ?Hh3, ?Hn3.
    - rewrite app_nil_r in E2. rewrite Hpq.
      + rewrite E2 at 2 3. rewrite E2, Eb.
        apply scanCredentials_tail;
          rewrite lacks_app; simpl; now rewrite ?Hh4, ?Hn4, ?Hh3, ?Hn3.
      + now rewrite E2. }
  unfold withCredentials.
  assert (parseUserPassword (String.length creds) dsn = (user, password)) as ->.
  { unfold dsn, creds. now apply parseUserPassword_split. }
  cbn [fst snd].
  rewrite E1 at 1. rewrite Eb.
  rewrite (parseAccountHostPort_hostport creds host number tail port Hh1 Hat Hport).
  unfold assignAccountHostPort. 
  change (onCfg _ (onCfg _ (mkState newConfig px)))
    with (segmentsState px user password host port).
  rewrite <- Eb.
  unfold tail in *. destruct query as [q|]; simpl queryTail in *.
  - rewrite E2. rewrite parseParams_query by (unfold len; (assumption || lia)).
    now destruct (parseDSNParams _ q) as [st [e|]].
  - rewrite parseParams_none; [reflexivity|].
    intros p Hp. apply byteIs_beyond. rewrite E2, app_nil_r. unfold len in Hp. lia.
Qed.

End NoSlash.

(** ** The query string that [DSN] writes *)

Section SerialisedQuery.

Variable clientType : string.

Lemma dsnParams_condAdd (c : Config) :
  dsnParams clientType c =
  condAdd (negb (String.eqb (Application c) clientType)) "application"
    (Application c)
  (condAdd (negb (RequestTimeout c =? defaultRequestTimeout)) "requestTimeout"
    (FormatInt (Z.quot (RequestTimeout c) second))
  (condAdd (negb (LoginTimeout c =? defaultLoginTimeout)) "loginTimeout"
    (FormatInt (Z.quot (LoginTimeout c) second))
  (condAdd (PasscodeInPassword c) "passcodeInPassword"
    (FormatBool (PasscodeInPassword c))
  (condAdd (negb (String.eqb (Passcode c) "")) "passcode" (Passcode c)
  (condAdd (negb (String.eqb (Authenticator c) defaultAuthenticator))
    "authenticator" (Authenticator c)
  (condAdd (negb (String.eqb (Region c) "")) "region" (Region c)
  (condAdd (negb (String.eqb (Role c) "")) "role" (Role c)
  (condAdd (negb (String.eqb (Warehouse c) "")) "warehouse" (Warehouse c)
  (condAdd (negb (String.eqb (Schema c) "")) "schema" (Schema c)
  (condAdd (negb (String.eqb (Database c) "")) "database" (Database c)
     ∅)))))))))).
Proof. reflexivity. Qed.

Lemma lookup_condAdd_ne b key value (v : Values) k :
  k <> key -> condAdd b key value v !! k = v !! k.
Proof.
  intros H. unfold condAdd, Add. destruct b; [|reflexivity].
  now rewrite lookup_insert_ne.
Qed.

Lemma lookup_condAdd_eq b key value (v : Values) :
  v !! key = None ->
  condAdd b key value v !! key = if b then Some [value] else None.
Proof.
  intros H. unfold condAdd, Add. destruct b; [|exact H].
  now rewrite lookup_insert_eq, H.
Qed.

Lemma dom_condAdd b key value (v : Values) k :
  k ∈ dom (condAdd b key value v) -> k = key \/ k ∈ dom v.
Proof.
  unfold condAdd, Add. destruct b; [|now right].
  rewrite dom_insert_L, elem_of_union, elem_of_singleton. tauto.
Qed.

(** Look a key of the serialiser up, layer by layer. *)
Ltac lookup_key :=
  repeat (rewrite lookup_condAdd_ne by discriminate);
  rewrite lookup_condAdd_eq
    by (repeat (rewrite lookup_condAdd_ne by discriminate); apply lookup_empty).

Lemma encodeKey_dsnParams (c : Config) :
  concat (encodeKey (dsnParams clientType c) <$> dsnKeys) =
  dsnPieces clientType c.
Proof.
  rewrite dsnParams_condAdd. unfold dsnKeys, dsnPieces.
  rewrite !fmap_cons, fmap_nil. cbn [concat]. rewrite List.app_nil_r.
  unfold encodeKey.
  repeat (f_equal; [lookup_key; unfold optPiece;
                    match goal with |- context [if ?b then _ else _] =>
                      now destruct b end|]).
  lookup_key. unfold optPiece. now destruct (negb _).
Qed.

Lemma dsnParams_Encode (c : Config) :
  Encode (dsnParams clientType c) = String.concat "&" (dsnPieces clientType c).
Proof.
  rewrite <- encodeKey_dsnParams. apply Encode_keys.
  - apply (bool_decide_unpack (StronglySorted String.le dsnKeys)).
    vm_compute. exact I.
  - apply (bool_decide_unpack (NoDup dsnKeys)). vm_compute. exact I.
  - intros k. rewrite dsnParams_condAdd. intros H.
    repeat (apply dom_condAdd in H as [->|H];
            [unfold dsnKeys; rewrite !elem_of_cons; tauto|]).
    rewrite dom_empty_L in H. now apply elem_of_empty in H.
Qed.

End SerialisedQuery.

(** ** Decoding the query string that [DSN] wrote *)

Section DecodeSerialised.

Variable clientType : string.
Implicit Types (st : State) (l : list string) (c : ascii).

Lemma concat_cons_cons sep (x y : string) l :
  String.concat sep (x :: y :: l) = x +:+ sep +:+ String.concat sep (y :: l).
Proof. reflexivity. Qed.

Lemma Split_concat l :
  l <> [] -> Forall (fun p => lacks p "&" = true) l ->
  Split (String.concat "&" l) "&" = l.
Proof.
  induction l as [|x [|y l] IH]; intros Hne Hl; [congruence|..].
  - simpl. inversion Hl; subst. now apply Split_lacks.
  - rewrite concat_cons_cons. inversion Hl; subst.
    change ("&" +:+ String.concat "&" (y :: l))
      with (String "&" (String.concat "&" (y :: l))).
    rewrite Split_app, Split_lacks by assumption.
    rewrite IH by (congruence || assumption). reflexivity.
Qed.

Lemma parseDSNParams_concat st l :
  Forall (fun p => lacks p "&" = true) l ->
  parseDSNParams st (String.concat "&" l) = parsePieces st l.
Proof.
  intros Hl. unfold parseDSNParams. destruct l as [|x l]; [reflexivity|].
  now rewrite Split_concat.
Qed.

Lemma concat_lacks l c :
  c <> "&"%char -> Forall (fun p => lacks p c = true) l ->
  lacks (String.concat "&" l) c = true.
Proof.
  intros Hc. induction l as [|x [|y l] IH]; intros Hl; [reflexivity|..].
  - now inversion Hl.
  - rewrite concat_cons_cons. inversion Hl; subst.
    rewrite !lacks_app, IH by assumption. rewrite H1. cbn [lacks andb].
    rewrite !andb_true_r.
    apply negb_true_iff, Ascii.eqb_neq. congruence.
Qed.

Lemma optPiece_lacks (b : bool) key value c :
  shouldEscape c = true -> c <> "%"%char -> c <> "+"%char -> c <> "="%char ->
  lacks key c = true ->
  Forall (fun p => lacks p c = true) (optPiece b key value).
Proof.
  intros H1 H2 H3 H4 Hk. unfold optPiece. destruct b; constructor; [|constructor].
  rewrite !lacks_app, Hk, QueryEscape_lacks by assumption. cbn [lacks andb].
  rewrite !andb_true_r. apply negb_true_iff, Ascii.eqb_neq. congruence.
Qed.

(** No piece of the query string holds a byte that [ParseDSN] scans for. *)
Lemma dsnPieces_lack (cf : Config) c :
  In c ["/"; "@"; "?"; "&"]%char ->
  Forall (fun p => lacks p c = true) (dsnPieces clientType cf).
Proof.
  intros Hc. unfold dsnPieces.
  repeat (apply Forall_app; split);
    apply optPiece_lacks;
    simpl in Hc; repeat (destruct Hc as [<-|Hc]; [try reflexivity; discriminate|]);
    contradiction.
Qed.

Lemma parseDSNParam_escaped st key value :
  lacks key "=" = true ->
  parseDSNParam st (key +:+ "=" +:+ QueryEscape value) =
  dispatchParam st key value.
Proof.
  intros Hk. unfold parseDSNParam, SplitN2.
  change (key +:+ "=" +:+ QueryEscape value)
    with (key +:+ String "=" (QueryEscape value)).
  now rewrite cut_app, QueryUnescape_QueryEscape.
Qed.

(** One optional piece: decode it if it is there. *)
Lemma parsePieces_optPiece st st1 st2 (b : bool) key value rest :
  lacks key "=" = true ->
  dispatchParam st key value = (st1, None) ->
  (if b then st1 else st) = st2 ->
  parsePieces st (optPiece b key value ++ rest) = parsePieces st2 rest.
Proof.
  intros Hk Hd <-. unfold optPiece. destruct b; [|reflexivity].
  simpl. now rewrite parseDSNParam_escaped, Hd.
Qed.

Lemma parsePieces_optPiece_same st st1 (b : bool) key value rest :
  lacks key "=" = true ->
  dispatchParam st key value = (st1, None) ->
  (b = false -> st1 = st) ->
  parsePieces st (optPiece b key value ++ rest) = parsePieces st1 rest.
Proof.
  intros Hk Hd Hb. apply (parsePieces_optPiece st st1); [exact Hk | exact Hd |].
  destruct b; [reflexivity | symmetry; now apply Hb].
Qed.

Lemma negb_eqb_false (a b : string) : negb (String.eqb a b) = false -> a = b.
Proof. intros H. apply negb_false_iff in H. now apply String.eqb_eq. Qed.

Lemma wrap64_small (z : Z) : - 2 ^ 63 <= z < 2 ^ 63 -> wrap64 z = z.
Proof. intros H. unfold wrap64. rewrite Z.mod_small; lia. Qed.

(** Whole seconds of a duration, and the duration they make. *)
Lemma quot_second_bounds (z : Z) :
  - 2 ^ 63 <= z < 2 ^ 63 ->
  - 2 ^ 63 <= Z.quot z second < 2 ^ 63 /\
  - 2 ^ 63 <= Z.quot z second * second < 2 ^ 63.
Proof.
  intros H. pose proof (Z.quot_rem' z second) as E. unfold second in *.
  destruct (Z.le_gt_cases 0 z) as [Hz|Hz].
  - pose proof (Z.rem_bound_pos_pos z 1000000000 ltac:(lia) Hz). lia.
  - pose proof (Z.rem_bound_pos_neg z 1000000000 ltac:(lia) ltac:(lia)).
    lia.
Qed.

Lemma dispatch_loginTimeout st (z : Z) :
  - 2 ^ 63 <= z < 2 ^ 63 ->
  dispatchParam st "loginTimeout" (FormatInt (Z.quot z second)) =
  (onCfg (fun cf => setLoginTimeout cf (Z.quot z second * second)) st, None).
Proof.
  intros H. destruct (quot_second_bounds z H) as [H1 H2].
  unfold dispatchParam. simpl String.eqb. cbv iota.
  now rewrite ParseInt_FormatInt, wrap64_small.
Qed.

Lemma dispatch_passcodeInPassword st (b : bool) :
  dispatchParam st "passcodeInPassword" (FormatBool b) =
  (onCfg (fun cf => setPasscodeInPassword cf b) st, None).
Proof. now destruct b. Qed.

(** The decoder on the pieces [DSN] wrote: every field that was written is
    read back; the request timeout must be zero, since the decoder has no
    case for its key. *)
Lemma parsePieces_dsnPieces px (cf : Config) :
  RequestTimeout cf = 0 ->
  - 2 ^ 63 <= LoginTimeout cf < 2 ^ 63 ->
  parsePieces (segmentsState px (User cf) (Password cf) (Host cf) (Port cf))
    (dsnPieces clientType cf) =
  (mkState
     (mkConfig "" (User cf) (Password cf) (Database cf) (Schema cf)
        (Warehouse cf) (Role cf) (Region cf) (Some ∅) "" (Host cf) (Port cf)
        (if negb (String.eqb (Authenticator cf) defaultAuthenticator)
         then Authenticator cf else "")
        (Passcode cf) (PasscodeInPassword cf)
        (if negb (LoginTimeout cf =? defaultLoginTimeout)
         then Z.quot (LoginTimeout cf) second * second else 0)
        0
        (if negb (String.eqb (Application cf) clientType)
         then Application cf else "")
        false)
     px, None).
Proof.
  split_config cf. fields. intros -> Hlt.
  unfold dsnPieces, segmentsState. fields.
  set (bap := negb (String.eqb ap clientType)).
  set (bau := negb (String.eqb au defaultAuthenticator)).
  set (blt := negb (lt =? defaultLoginTimeout)).
  (* application *)
  erewrite parsePieces_optPiece; [| reflexivity | reflexivity | reflexivity].
  (* authenticator *)
  erewrite parsePieces_optPiece; [| reflexivity | reflexivity | reflexivity].
  (* database *)
  erewrite parsePieces_optPiece_same; [| reflexivity | reflexivity |].
  2:{ intros ->%negb_eqb_false. now destruct bap, bau. }
  (* loginTimeout *)
  erewrite parsePieces_optPiece;
    [| reflexivity | now apply dispatch_loginTimeout | reflexivity].
  (* passcode *)
  erewrite parsePieces_optPiece_same; [| reflexivity | reflexivity |].
  2:{ intros ->%negb_eqb_false. now destruct bap, bau, blt. }
  (* passcodeInPassword *)
  erewrite parsePieces_optPiece_same;
    [| reflexivity | apply dispatch_passcodeInPassword |].
  2:{ intros ->. now destruct bap, bau, blt. }
  (* region *)
  erewrite parsePieces_optPiece_same; [| reflexivity | reflexivity |].
  2:{ intros ->%negb_eqb_false. now destruct bap, bau, blt. }
  (* requestTimeout: never written *)
  change (optPiece (negb (0 =? defaultRequestTimeout)) "requestTimeout"
            (FormatInt (Z.quot 0 second))) with (@nil string).
  rewrite List.app_nil_l.
  (* role *)
  erewrite parsePieces_optPiece_same; [| reflexivity | reflexivity |].
  2:{ intros ->%negb_eqb_false. now destruct bap, bau, blt. }
  (* schema *)
  erewrite parsePieces_optPiece_same; [| reflexivity | reflexivity |].
  2:{ intros ->%negb_eqb_false. now destruct bap, bau, blt. }
  (* warehouse *)
  rewrite <- (List.app_nil_r (optPiece _ "warehouse" wh)).
  erewrite parsePieces_optPiece_same; [| reflexivity | reflexivity |].
  2:{ intros ->%negb_eqb_false. now destruct bap, bau, blt. }
  cbn [parsePieces]. now destruct bap, bau, blt.
Qed.

End DecodeSerialised.

(** ** Parsing what the serialiser wrote *)

Section RoundTrip.

Variable clientType : string.

Lemma concat_empty (l : list string) :
  String.concat "&" l = "" -> Forall (fun p => p <> "") l -> l = [].
Proof.
  destruct l as [|x [|y l]]; [reflexivity|..]; intros E Hl; exfalso.
  - simpl in E. inversion Hl; subst. congruence.
  - inversion Hl; subst. apply (f_equal String.length) in E.
    change (String.concat "&" (x :: y :: l))
      with (x +:+ "&" +:+ String.concat "&" (y :: l)) in E.
    rewrite !length_app in E. simpl in E. lia.
Qed.

Lemma dsnPieces_nonempty (cf : Config) :
  Forall (fun p => p <> "") (dsnPieces clientType cf).
Proof.
  assert (forall (b : bool) key value,
            Forall (fun p => p <> "") (optPiece b key value)) as H.
  { intros b key value. unfold optPiece. destruct b; constructor; [|constructor].
    intros E. apply (f_equal String.length) in E.
    rewrite !length_app in E. simpl in E. lia. }
  unfold dsnPieces. repeat (apply Forall_app; split); apply H.
Qed.

Lemma lacksAll_cons s c cs :
  lacksAll s (c :: cs) = true -> lacks s c = true /\ lacksAll s cs = true.
Proof. unfold lacksAll. simpl. apply andb_true_iff. Qed.

(** The scans and the decoder on the text of a complete [Config]. *)
Lemma parseSegments_dsnText px (cf : Config) :
  readBack clientType cf ->
  exists pq,
    parseSegments px (dsnText clientType cf) =
    Running
      (mkState
         (mkConfig "" (User cf) (Password cf) (Database cf) (Schema cf)
            (Warehouse cf) (Role cf) (Region cf) (Some ∅) "" (Host cf) (Port cf)
            (if negb (String.eqb (Authenticator cf) defaultAuthenticator)
             then Authenticator cf else "")
            (Passcode cf) (PasscodeInPassword cf)
            (if negb (LoginTimeout cf =? defaultLoginTimeout)
             then Z.quot (LoginTimeout cf) second * second else 0)
            0
            (if negb (String.eqb (Application cf) clientType)
             then Application cf else "")
            false)
         px) false pq.
Proof.
  intros (Hfill & Hu & Hp & Hh & _ & _ & _ & Hport & _ & _ & _ & Hrt & Hlt & _).
  apply lacksAll_cons in Hu as [Hu1 Hu]. apply lacksAll_cons in Hu as [Hu2 Hu].
  apply lacksAll_cons in Hu as [Hu3 _].
  apply lacksAll_cons in Hp as [Hp2 Hp]. apply lacksAll_cons in Hp as [Hp3 _].
  apply lacksAll_cons in Hh as [Hh1 Hh]. apply lacksAll_cons in Hh as [Hh2 Hh].
  apply lacksAll_cons in Hh as [Hh3 Hh]. apply lacksAll_cons in Hh as [Hh4 _].
  apply fill_ok in Hfill as (Hdef & _).
  assert (Port cf <> 0) as Hp0.
  { intros E. apply (f_equal Port) in Hdef. unfold defaulted in Hdef. fields.
    rewrite E in Hdef. discriminate. }
  pose proof (parsePieces_dsnPieces clientType px cf Hrt Hlt) as Hpieces.
  unfold dsnText. rewrite dsnParams_Encode.
  set (pieces := dsnPieces clientType cf) in *.
  set (q := String.concat "&" pieces).
  assert (forall query,
    query = None \/ query = Some q ->
    parseSegments px
      (User cf +:+ String ":" (Password cf +:+ String "@"
         (Host cf +:+ String ":" (FormatInt (Port cf) +:+ queryTail query)))) =
    match
      match query with
      | Some q =>
          parseDSNParams
            (segmentsState px (User cf) (Password cf) (Host cf) (Port cf)) q
      | None =>
          (segmentsState px (User cf) (Password cf) (Host cf) (Port cf), None)
      end
    with
    | (st, Some e) => Returned st (Some (cfg st)) e
    | (st, None) =>
        Running st false
          (len (User cf +:+ String ":" (Password cf +:+ String "@"
                  (Host cf +:+ String ":" (FormatInt (Port cf))))))
    end) as Hseg.
  { intros query Hq.
    apply parseSegments_hostport; try assumption;
      try (apply FormatInt_lacks; [reflexivity | discriminate]).
    - unfold Atoi. now apply ParseInt_FormatInt.
    - destruct Hq as [-> | ->]; [exact I|].
      repeat split; apply concat_lacks; try discriminate;
        apply dsnPieces_lack; simpl; tauto. }
  destruct (String.eqb_spec q "") as [Eq|Nq]; cbn [negb].
  - eexists. rewrite <- (app_nil_r (FormatInt (Port cf))).
    change (User cf +:+ ":" +:+ Password cf +:+ "@" +:+ Host cf +:+ ":" +:+
            FormatInt (Port cf) +:+ "")
      with (User cf +:+ String ":" (Password cf +:+ String "@"
              (Host cf +:+ String ":" (FormatInt (Port cf) +:+ queryTail None)))).
    rewrite (Hseg None) by now left.
    apply concat_empty in Eq; [|apply dsnPieces_nonempty].
    rewrite Eq in Hpieces. cbn [parsePieces] in Hpieces.
    apply (f_equal fst) in Hpieces. cbn [fst] in Hpieces.
    now rewrite <- Hpieces.
  - eexists.
    replace ((User cf +:+ ":" +:+ Password cf +:+ "@" +:+ Host cf +:+ ":" +:+
              FormatInt (Port cf)) +:+ "?" +:+ q)
      with (User cf +:+ String ":" (Password cf +:+ String "@"
              (Host cf +:+ String ":" (FormatInt (Port cf) +:+ queryTail (Some q)))))
      by (now rewrite !app_assoc).
    rewrite (Hseg (Some q)) by now right.
    unfold q. rewrite parseDSNParams_concat by (apply dsnPieces_lack; simpl; tauto).
    fold pieces. rewrite Hpieces. reflexivity.
Qed.

Lemma lacksAll_plain s :
  lacksAll s ["%"; "+"]%char = true -> QueryUnescape s = inl s.
Proof.
  intros H. apply lacksAll_cons in H as [H1 H]. apply lacksAll_cons in H as [H2 _].
  now apply QueryUnescape_plain.
Qed.

(** [ParseDSN] reads a complete [Config] back from its text, with the
    extension mapping it has made. *)
Lemma ParseDSN_dsnText px (cf : Config) :
  readBack clientType cf ->
  ParseDSN clientType px (dsnText clientType cf) =
  mkParsed (Some (setParams cf (Some ∅))) None px.
Proof.
  intros H. destruct (parseSegments_dsnText px cf H) as [pq E].
  unfold ParseDSN. rewrite E. clear E.
  destruct H as (Hfill & _ & _ & _ & Hsuf & Hdot & Hacc & _ & Hpr & Him & Hpm &
                 Hrt & Hlt & Hrem & Hdb & Hsch & Hrl & Hwh).
  apply fill_ok in Hfill as (Hdef & Ha & Hu & Hp).
  apply lacksAll_plain in Hdb, Hsch, Hrl, Hwh.
  cbn [cfg proxy].
  (* the account comes from the host *)
  unfold deriveAccount. fields. rewrite Hsuf. apply Z.ltb_lt in Hdot.
  rewrite Hdot. cbn [String.eqb andb]. fields. rewrite <- Hacc.
  (* defaulting *)
  rewrite fill_spec. fields. rewrite Ha, Hu, Hp. unfold setAccount. fields.
  assert (defaulted clientType
            (mkConfig (Account cf) (User cf) (Password cf) (Database cf)
               (Schema cf) (Warehouse cf) (Role cf) (Region cf) (Some ∅) ""
               (Host cf) (Port cf)
               (if negb (String.eqb (Authenticator cf) defaultAuthenticator)
                then Authenticator cf else "")
               (Passcode cf) (PasscodeInPassword cf)
               (if negb (LoginTimeout cf =? defaultLoginTimeout)
                then Z.quot (LoginTimeout cf) second * second else 0)
               0
               (if negb (String.eqb (Application cf) clientType)
                then Application cf else "")
               false) = setParams cf (Some ∅)) as ->.
  { transitivity (setParams (defaulted clientType cf) (Some ∅));
      [|now rewrite <- Hdef].
    unfold defaulted, setParams. fields. rewrite Hpr, Him, Hrt.
    f_equal.
    - destruct (String.eqb_spec (Authenticator cf) defaultAuthenticator) as [E|N];
        cbn [negb]; [now rewrite E | reflexivity].
    - assert (Z.quot (LoginTimeout cf) second * second = LoginTimeout cf) as ->.
      { pose proof (Z.quot_rem' (LoginTimeout cf) second). lia. }
      destruct (Z.eqb_spec (LoginTimeout cf) defaultLoginTimeout) as [E|N];
        cbn [negb]; [now rewrite E | reflexivity].
    - destruct (String.eqb_spec (Application cf) clientType) as [E|N];
        cbn [negb]; [|reflexivity].
      rewrite E. cbn [String.eqb]. now destruct (String.eqb clientType ""). }
  (* the second decoding *)
  unfold unescapeFields, setParams. fields. rewrite Hdb. fields. rewrite Hsch. fields.
  rewrite Hrl. fields. rewrite Hwh. fields.
  reflexivity.
Qed.

End RoundTrip.

(** ** An empty account segment before a query string *)

Section EmptySegmentQuery.

Variable clientType : string.
Implicit Types (s dsn creds tail query : string) (i k n : nat).

(** The outer scan cannot pass a slash: started above one, it stops at one
    that is not below it. *)
Lemma scanDSN_cases_from dsn st pq k n :
  byteIs dsn k "/" = true -> (k < n)%nat ->
  (forall q, (k <= q < n)%nat -> byteIs dsn q "?" = false) ->
  exists i, (k <= i < n)%nat /\ byteIs dsn i "/" = true /\
            scanDSN dsn st pq n = slashCase dsn st pq i.
Proof.
  intros Hk. induction n as [|n IH]; intros Hn Hq; [lia|]. simpl.
  destruct (byteIs dsn n "/") eqn:Hs.
  - exists n. repeat split; [lia | lia | exact Hs].
  - rewrite Hq by lia.
    assert (k < n)%nat as Hlt.
    { destruct (Nat.eq_dec k n) as [->|]; [congruence | lia]. }
    destruct (IH Hlt) as (i & Hi & Hb & E); [intros q Hqq; apply Hq; lia|].
    exists i. repeat split; [lia | lia | exact Hb | exact E].
Qed.

(** [parseParams] decodes what follows the first ['?'] after its start. *)
Lemma parseParams_at st (pos : Z) dsn k :
  (Z.to_nat (pos + 1) <= k < String.length dsn)%nat ->
  byteIs dsn k "?" = true ->
  (forall q, (Z.to_nat (pos + 1) <= q < k)%nat -> byteIs dsn q "?" = false) ->
  parseParams st pos dsn = parseDSNParams st (sliceFrom dsn (Z.of_nat k + 1)).
Proof.
  intros Hk Hb Hq. unfold parseParams.
  rewrite (scanFor_first "?" _ _ _ k); [reflexivity | lia | exact Hb | exact Hq].
Qed.

Lemma dispatchParam_keeps_account st (key value : string) :
  key <> "account" ->
  Account (cfg (fst (dispatchParam st key value))) = Account (cfg st) /\
  Host (cfg (fst (dispatchParam st key value))) = Host (cfg st).
Proof.
  intros Hk. unfold dispatchParam.
  destruct (String.eqb_spec key "account") as [E|_]; [contradiction|].
  repeat match goal with
    | |- context [if String.eqb key ?lit then _ else _] =>
        destruct (String.eqb key lit)
    end;
    try (destruct (ParseBool value));
    try (destruct (ParseInt value) as [num [kd|]]);
    split; reflexivity.
Qed.

Lemma parsePieces_keeps_account st l :
  Forall (fun p => forall raw, p <> "account" +:+ "=" +:+ raw) l ->
  Account (cfg (fst (parsePieces st l))) = Account (cfg st) /\
  Host (cfg (fst (parsePieces st l))) = Host (cfg st).
Proof.
  intros H. revert st; induction H as [|v l Hv _ IH]; intros st; [now split|].
  simpl.
  assert (Account (cfg (fst (parseDSNParam st v))) = Account (cfg st) /\
          Host (cfg (fst (parseDSNParam st v))) = Host (cfg st)) as [H1 H2].
  { unfold parseDSNParam, SplitN2.
    destruct (cut "=" v) as [[key raw]|] eqn:E; [|now split].
    apply cut_Some in E as [-> _].
    destruct (QueryUnescape raw) as [value|]; [|now split].
    apply dispatchParam_keeps_account. intros ->. now apply (Hv raw). }
  destruct (parseDSNParam st v) as [st1 [e|]]; [now split|].
  simpl in H1, H2. destruct (IH st1) as [-> ->]. now split.
Qed.

(** The scans of [creds@/tail?query]: the account stays empty and the host
    is the bare domain when the query string is decoded. *)
Lemma parseSegments_empty_segment_query px creds tail query :
  lacks tail "?" = true -> lacks tail "@" = true ->
  lacks query "/" = true -> lacks query "?" = true -> lacks query "@" = true ->
  exists st0 (fin : State -> State) (pq : Z),
    Account (cfg st0) = "" /\ Host (cfg st0) = ".snowflakecomputing.com" /\
    (forall st, Account (cfg (fin st)) = Account (cfg st) /\
                Host (cfg (fin st)) = Host (cfg st) /\
                proxy (fin st) = proxy st) /\
    parseSegments px (creds +:+ "@/" +:+ tail +:+ "?" +:+ query) =
    match parseDSNParams st0 query with
    | (st, Some e) => Returned st (Some (cfg st)) e
    | (st, None) => Running (fin st) true pq
    end.
Proof.
  intros Ht1 Ht2 Hq1 Hq2 Hq3.
  set (t := tail +:+ String "?" query).
  change (creds +:+ "@/" +:+ tail +:+ "?" +:+ query)
    with (creds +:+ String "@" (String "/" t)).
  set (dsn := creds +:+ String "@" (String "/" t)).
  set (P := String.length creds).
  set (Q := (P + 2 + String.length tail)%nat).
  assert (lacks t "@" = true) as Hta.
  { unfold t. change (String "?" query) with ("?" +:+ query).
    now rewrite !lacks_app, Ht2, Hq3. }
  assert (dsn = (creds +:+ "@/" +:+ tail) +:+ String "?" query) as E1.
  { unfold dsn, t. change (String "@" (String "/" (tail +:+ String "?" query)))
      with ("@/" +:+ tail +:+ String "?" query).
    now rewrite !app_assoc. }
  assert (String.length (creds +:+ "@/" +:+ tail) = Q) as LQ.
  { rewrite !length_app. simpl. unfold Q, P. lia. }
  assert (String.length dsn = (Q + 1 + String.length query)%nat) as Hlen.
  { rewrite E1, length_app, LQ. simpl. lia. }
  assert (forall c, byteIs dsn Q c = Ascii.eqb "?" c) as HQ.
  { intros c. rewrite E1, <- LQ. apply byteIs_at. }
  assert (forall k (c : ascii), (Q < k)%nat -> lacks query c = true ->
                                byteIs dsn k c = false) as Hquery.
  { intros k c Hk Hc. rewrite E1.
    change (String "?" query) with ("?" +:+ query). rewrite <- app_assoc.
    apply byteIs_suffix_lacks; [exact Hc|]. rewrite length_app, LQ. simpl. lia. }
  assert (forall k, (P + 2 <= k < Q)%nat -> byteIs dsn k "?" = false) as Htail.
  { intros k Hk. rewrite E1. rewrite byteIs_app_l by (rewrite LQ; lia).
    replace (creds +:+ "@/" +:+ tail) with ((creds +:+ "@/") +:+ tail)
      by (now rewrite app_assoc).
    apply byteIs_suffix_lacks; [exact Ht1|]. rewrite length_app. simpl.
    unfold P in Hk. lia. }
  assert (forall c, byteIs dsn (P + 1) c = Ascii.eqb "/" c) as Hslash.
  { intros c. unfold dsn.
    replace (creds +:+ String "@" (String "/" t))
      with ((creds +:+ "@") +:+ String "/" t) by (now rewrite app_assoc).
    replace (P + 1)%nat with (String.length (creds +:+ "@"))
      by (rewrite length_app; reflexivity).
    apply byteIs_at. }
  set (st := mkState newConfig px).
  unfold parseSegments. fold st. rewrite Hlen.
  replace (Q + 1 + String.length query)%nat with (S Q + String.length query)%nat
    by lia.
  rewrite scanDSN_skip by (intros k Hk; split; apply Hquery; (lia || assumption)).
  simpl scanDSN. rewrite !HQ. simpl Ascii.eqb. cbv iota.
  destruct (scanDSN_cases_from dsn st (Z.of_nat Q) (P + 1) Q)
    as (i & Hi & Hb & E).
  { now rewrite Hslash. }
  { unfold Q. lia. }
  { intros k Hk. destruct (Nat.eq_dec k (P + 1)%nat) as [->|Hne].
    - now rewrite Hslash.
    - apply Htail. lia. }
  rewrite E. clear E. unfold slashCase.
  assert ((0 <? i)%nat = true) as -> by (apply Nat.ltb_lt; lia).
  destruct (scanSegment_to_at creds t st false (Z.of_nat i) i Hta)
    as (ss' & pss' & E & H1 & H2).
  { fold dsn. fold P. lia. }
  fold dsn P in E. rewrite E. clear E.
  assert (pss' = Z.of_nat P + 1) as ->.
  { destruct (Nat.eq_dec i (P + 1)%nat) as [->|].
    - destruct (H1 eq_refl) as [_ ->]. lia.
    - destruct H2 as [_ ->]; unfold P in *; lia. }
  rewrite parseAccountHostPort_empty by lia.
  unfold assignAccountHostPort. cbv beta iota zeta.
  set (st0 := onCfg _ _).
  assert (parseParams st0 (Z.of_nat i) dsn = parseDSNParams st0 query) as ->.
  { rewrite (parseParams_at st0 (Z.of_nat i) dsn Q).
    - f_equal. rewrite E1.
      change (String "?" query) with ("?" +:+ query). rewrite <- app_assoc.
      apply sliceFrom_suffix. unfold len. rewrite length_app, LQ. simpl. lia.
    - lia.
    - now rewrite HQ.
    - intros k Hk. apply Htail. lia. }
  exists st0.
  destruct ss'; cbv iota.
  - exists (onCfg (fun c =>
                     setSchema
                       (setDatabase c
                          (slice dsn (Z.of_nat P + 1 + 1) (Z.of_nat i)))
                       (slice dsn (Z.of_nat i + 1) (Z.of_nat Q)))),
      (Z.of_nat Q).
    split; [reflexivity|]. split; [reflexivity|].
    split; [intros st1; repeat split|].
    now destruct (parseDSNParams st0 query) as [st2 [e|]].
  - exists (onCfg (fun c =>
                     setSchema
                       (setDatabase c
                          (slice dsn (Z.of_nat P + 1 + 1) (Z.of_nat Q)))
                       "public")),
      (Z.of_nat Q).
    split; [reflexivity|]. split; [reflexivity|].
    split; [intros st1; repeat split|].
    now destruct (parseDSNParams st0 query) as [st2 [e|]].
Qed.

(** An empty account segment before a query string that decodes and has no
    pair for the account: [ParseDSN] fails on the account; when the query
    string does not decode, with the decoder's error. *)
Lemma ParseDSN_empty_segment_query px creds tail query :
  lacks tail "?" = true -> lacks tail "@" = true ->
  lacks query "/" = true -> lacks query "?" = true -> lacks query "@" = true ->
  noAccountKey query ->
  match snd (parseDSNParams (mkState newConfig px) query) with
  | Some e =>
      failure (ParseDSN clientType px (creds +:+ "@/" +:+ tail +:+ "?" +:+ query)) =
      Some e
  | None =>
      result (ParseDSN clientType px (creds +:+ "@/" +:+ tail +:+ "?" +:+ query)) =
      None /\
      failure (ParseDSN clientType px (creds +:+ "@/" +:+ tail +:+ "?" +:+ query)) =
      Some ErrEmptyAccount
  end.
Proof.
  intros Ht1 Ht2 Hq1 Hq2 Hq3 Hk.
  destruct (parseSegments_empty_segment_query px creds tail query Ht1 Ht2 Hq1 Hq2 Hq3)
    as (st0 & fin & pq & Ha & Hh & Hfin & E).
  unfold ParseDSN. rewrite E. clear E.
  unfold parseDSNParams in *.
  rewrite (parsePieces_error (mkState newConfig px) st0).
  destruct (parsePieces_keeps_account st0 _ Hk) as [Ka Kh].
  destruct (parsePieces st0 (Split query "&")) as [st [e|]]; [reflexivity|].
  cbn [fst snd] in *.
  destruct (Hfin st) as (Fa & Fh & _).
  assert (deriveAccount (cfg (fin st)) = cfg (fin st)) as ->.
  { unfold deriveAccount. rewrite Fa, Fh, Ka, Kh, Ha, Hh. reflexivity. }
  rewrite fill_spec, Fa, Ka, Ha. cbn [String.eqb]. now split.
Qed.

End EmptySegmentQuery.
(** * The specification, claim by claim *)

(** ** Segment parsing *)

(** C7: the account/host segment ["ab.us-east-1"], wherever it sits in a DSN
    (after the ['@'] at [posAt], or at the start when there is none, and up
    to [posSlash]), has no port and no domain suffix, so
    [parseAccountHostPort] takes it for an account name and splits it at the
    first dot: region ["us-east-1"], account ["ab"], host
    ["ab.us-east-1.snowflakecomputing.com"], port 443.  [ParseDSN] keeps that
    split. *)
Theorem parseAccountHostPort_embedded_region :
  (forall before after : string,
     parseAccountHostPort (len before - 1) (len before + 12)
       (before +:+ "ab.us-east-1" +:+ after) =
     ("us-east-1", "ab", "ab.us-east-1.snowflakecomputing.com", 443, None)) /\
  (forall (clientType : string) (px : Proxy),
     exists c,
       ParseDSN clientType px "user:pass@ab.us-east-1/db" =
       mkParsed (Some c) None px /\
       Account c = "ab" /\ Region c = "us-east-1" /\
       Host c = "ab.us-east-1.snowflakecomputing.com" /\ Port c = 443).
Proof.
  split.
  - intros before after. unfold parseAccountHostPort.
    replace (Z.to_nat (len before - 1 + 1)) with (String.length before)
      by (unfold len; lia).
    replace (Z.to_nat (len before + 12) - String.length before)%nat
      with (String.length "ab.us-east-1") by (unfold len; simpl; lia).
    rewrite scanFor_miss by reflexivity.
    cbv beta iota.
    rewrite (slice_mid before "ab.us-east-1" after)
      by (unfold len; simpl; lia).
    reflexivity.
  - intros clientType px. eexists. split; [vm_compute; reflexivity|].
    repeat split.
Qed.

(** ** Parsing a complete DSN *)

(** C2: [ParseDSN] on ["user:pass@acc/db/sch?warehouse=wh"] succeeds, with
    user, password, account, derived host, port 443, database, schema and
    warehouse as written in the DSN. *)
Theorem ParseDSN_example (clientType : string) (px : Proxy) :
  exists c,
    ParseDSN clientType px "user:pass@acc/db/sch?warehouse=wh" =
    mkParsed (Some c) None px /\
    User c = "user" /\ Password c = "pass" /\ Account c = "acc" /\
    Host c = "acc.snowflakecomputing.com" /\ Port c = 443 /\
    Database c = "db" /\ Schema c = "sch" /\ Warehouse c = "wh".
Proof.
  eexists. split; [vm_compute; reflexivity|]. repeat split.
Qed.


(** ** Query pairs *)

(** C6: a piece of the query string without ['='] is skipped without an
    error and leaves the state as it was, so the other pieces of the same
    query string are decoded as if it were absent, wherever it stands; the
    DSN ["user:pass@acc?foo&warehouse=wh"] parses like
    ["user:pass@acc?warehouse=wh"], with warehouse ["wh"]. *)
Theorem malformed_pairs_skipped :
  (forall st v, lacks v "=" = true -> parseDSNParams st v = (st, None)) /\
  (forall st v rest, lacks v "=" = true ->
     parseDSNParams st (v +:+ "&" +:+ rest) = parseDSNParams st rest) /\
  (forall st q v, lacks v "=" = true ->
     parseDSNParams st (q +:+ "&" +:+ v) = parseDSNParams st q) /\
  (forall st q v rest, lacks v "=" = true ->
     parseDSNParams st (q +:+ "&" +:+ v +:+ "&" +:+ rest) =
     parseDSNParams st (q +:+ "&" +:+ rest)) /\
  (forall clientType px,
     ParseDSN clientType px "user:pass@acc?foo&warehouse=wh" =
     ParseDSN clientType px "user:pass@acc?warehouse=wh" /\
     exists c,
       ParseDSN clientType px "user:pass@acc?foo&warehouse=wh" =
       mkParsed (Some c) None px /\ Warehouse c = "wh").
Proof.
  split; [exact parseDSNParams_skip|].
  split.
  { intros st v rest H. change (v +:+ "&" +:+ rest) with (v +:+ String "&" rest).
    now rewrite parseDSNParams_app, parseDSNParams_skip. }
  split.
  { intros st q v H. change (q +:+ "&" +:+ v) with (q +:+ String "&" v).
    rewrite parseDSNParams_app.
    destruct (parseDSNParams st q) as [st' [e|]]; [reflexivity|].
    now apply parseDSNParams_skip. }
  split.
  { intros st q v rest H.
    change (q +:+ "&" +:+ v +:+ "&" +:+ rest)
      with (q +:+ String "&" (v +:+ String "&" rest)).
    change (q +:+ "&" +:+ rest) with (q +:+ String "&" rest).
    rewrite !parseDSNParams_app.
    destruct (parseDSNParams st q) as [st' [e|]]; [reflexivity|].
    now rewrite parseDSNParams_app, parseDSNParams_skip. }
  intros clientType px. split; [vm_compute; reflexivity|].
  eexists. split; [vm_compute; reflexivity | reflexivity].
Qed.

Lemma malformed_pairs_skipped_witness :
  parseDSNParams (mkState newConfig (mkProxy "" 0 "" "")) "foo&&bar" =
  (mkState newConfig (mkProxy "" 0 "" ""), None) /\
  parseDSNParams (mkState newConfig (mkProxy "" 0 "" ""))
    ("role=r" +:+ "&" +:+ "foo" +:+ "&" +:+ "schema=s") =
  parseDSNParams (mkState newConfig (mkProxy "" 0 "" ""))
    ("role=r" +:+ "&" +:+ "schema=s").
Proof.
  destruct malformed_pairs_skipped as (H1 & _ & _ & H4 & _).
  split; [apply H1 | apply H4]; reflexivity.
Defined.

(** ** Mandatory fields *)

(** C3 as the code has it: with an empty [Account] the defaulting pass fails
    with [ErrEmptyAccount] whatever the other fields hold (the account is
    checked first, before user and password), and it leaves the [Config] as
    it was.  Hence [ParseDSN] fails with [ErrEmptyAccount] on every DSN
    [creds@/tail] whose account segment is empty and that has no query
    string, ["user:pass@/db"] among them, and on every DSN
    [creds@/tail?query] whose query string decodes and has no pair with the
    key [account]; when the query string does not decode, [ParseDSN] fails
    with the error of the decoder. *)
Theorem empty_account_rejected :
  (forall (clientType : string) (c : Config),
     Account c = "" ->
     fillMissingConfigParameters clientType c = (c, Some ErrEmptyAccount)) /\
  (forall (clientType : string) (px : Proxy) (creds tail : string),
     lacks tail "?" = true -> lacks tail "@" = true ->
     ParseDSN clientType px (creds +:+ "@/" +:+ tail) =
     mkParsed None (Some ErrEmptyAccount) px) /\
  (forall (clientType : string) (px : Proxy),
     ParseDSN clientType px "user:pass@/db" =
     mkParsed None (Some ErrEmptyAccount) px) /\
  (forall (clientType : string) (px : Proxy) (creds tail query : string),
     lacks tail "?" = true -> lacks tail "@" = true ->
     lacks query "/" = true -> lacks query "?" = true ->
     lacks query "@" = true -> noAccountKey query ->
     (snd (parseDSNParams (mkState newConfig px) query) = None ->
      result
        (ParseDSN clientType px (creds +:+ "@/" +:+ tail +:+ "?" +:+ query)) =
      None /\
      failure
        (ParseDSN clientType px (creds +:+ "@/" +:+ tail +:+ "?" +:+ query)) =
      Some ErrEmptyAccount) /\
     (forall e : Error,
        snd (parseDSNParams (mkState newConfig px) query) = Some e ->
        failure
          (ParseDSN clientType px (creds +:+ "@/" +:+ tail +:+ "?" +:+ query)) =
        Some e)).
Proof.
  split; [|split; [|split]].
  - intros clientType c H. rewrite fill_spec, H. reflexivity.
  - exact ParseDSN_empty_segment.
  - intros clientType px.
    exact (ParseDSN_empty_segment clientType px "user:pass" "db" eq_refl eq_refl).
  - intros clientType px creds tail query Ht1 Ht2 Hq1 Hq2 Hq3 Hk.
    pose proof (ParseDSN_empty_segment_query clientType px creds tail query
                  Ht1 Ht2 Hq1 Hq2 Hq3 Hk) as H.
    destruct (snd (parseDSNParams (mkState newConfig px) query)) as [e|].
    + split; [discriminate|]. now intros e' [= <-].
    + split; [intros _; exact H | discriminate].
Qed.

Lemma empty_account_rejected_witness :
  fillMissingConfigParameters "Go"
    (mkConfig "" "user" "" "" "" "" "" "" None "" "" 0 "" "" false 0 0 "" false) =
  (mkConfig "" "user" "" "" "" "" "" "" None "" "" 0 "" "" false 0 0 "" false,
   Some ErrEmptyAccount) /\
  ParseDSN "Go" (mkProxy "" 0 "" "") ("u" +:+ "@/" +:+ "db/sch") =
  mkParsed None (Some ErrEmptyAccount) (mkProxy "" 0 "" "") /\
  (result
     (ParseDSN "Go" (mkProxy "" 0 "" "")
        ("u:p" +:+ "@/" +:+ "db" +:+ "?" +:+ "role=r&accounts=acc")) = None /\
   failure
     (ParseDSN "Go" (mkProxy "" 0 "" "")
        ("u:p" +:+ "@/" +:+ "db" +:+ "?" +:+ "role=r&accounts=acc")) =
   Some ErrEmptyAccount).
Proof.
  destruct empty_account_rejected as (H1 & H2 & _ & H4).
  split; [|split].
  - apply H1. reflexivity.
  - apply H2; reflexivity.
  - apply (proj1 (H4 "Go" (mkProxy "" 0 "" "") "u:p" "db" "role=r&accounts=acc"
                    eq_refl eq_refl eq_refl eq_refl eq_refl
                    ltac:(unfold noAccountKey;
                          repeat (constructor; [intros raw; discriminate|]);
                          constructor))).
    reflexivity.
Defined.

(** C3 as the spec words it fails: the account segment of
    ["user:pass@/db?account=acc"] is empty, but the query string supplies
    the account before it is checked, and [ParseDSN] accepts the DSN. *)
Lemma empty_segment_account_from_query :
  ParseDSN "Go" (mkProxy "" 0 "" "") "user:pass@/db?account=acc" =
  mkParsed
    (Some
       (mkConfig "acc" "user" "pass" "db" "public" "" "" "" (Some ∅) "https"
          ".snowflakecomputing.com" 443 "snowflake" "" false 60000000000 0
          "Go" false))
    None (mkProxy "" 0 "" "") /\
  failure (ParseDSN "Go" (mkProxy "" 0 "" "") "user:pass@/db?account=acc") <>
  Some ErrEmptyAccount.
Proof.
  assert (ParseDSN "Go" (mkProxy "" 0 "" "") "user:pass@/db?account=acc" =
          mkParsed
            (Some
               (mkConfig "acc" "user" "pass" "db" "public" "" "" "" (Some ∅)
                  "https" ".snowflakecomputing.com" 443 "snowflake" "" false
                  60000000000 0 "Go" false))
            None (mkProxy "" 0 "" "")) as E by (vm_compute; reflexivity).
  split; [exact E|]. rewrite E. discriminate.
Qed.

(** C9: when the scans leave [Account] empty and a [Host] that ends in
    [".snowflakecomputing.com"] and whose first dot is not at position 0,
    [ParseDSN] takes the text of [Host] before its first dot as [Account]:
    the parse does not fail with [ErrEmptyAccount], and a [Config] it returns
    has that account.  So ["user:pass@ab.snowflakecomputing.com:443"] parses
    with account ["ab"]. *)
Theorem account_derived_from_host :
  (forall c : Config,
     Account c = "" ->
     HasSuffix (Host c) ".snowflakecomputing.com" = true ->
     0 < Index (Host c) "." ->
     deriveAccount c = setAccount c (slice (Host c) 0 (Index (Host c) "."))) /\
  (forall (clientType : string) (px : Proxy) (dsn : string) (st : State)
          (b : bool) (q : Z),
     parseSegments px dsn = Running st b q ->
     Account (cfg st) = "" ->
     HasSuffix (Host (cfg st)) ".snowflakecomputing.com" = true ->
     0 < Index (Host (cfg st)) "." ->
     failure (ParseDSN clientType px dsn) <> Some ErrEmptyAccount /\
     forall c, result (ParseDSN clientType px dsn) = Some c ->
               Account c = slice (Host (cfg st)) 0 (Index (Host (cfg st)) ".")) /\
  (forall (clientType : string) (px : Proxy),
     exists c,
       ParseDSN clientType px "user:pass@ab.snowflakecomputing.com:443" =
       mkParsed (Some c) None px /\ Account c = "ab").
Proof.
  assert (forall c : Config,
     Account c = "" ->
     HasSuffix (Host c) ".snowflakecomputing.com" = true ->
     0 < Index (Host c) "." ->
     deriveAccount c = setAccount c (slice (Host c) 0 (Index (Host c) "."))) as D.
  { intros c Ha Hs Hd. unfold deriveAccount. rewrite Ha, Hs.
    apply Z.ltb_lt in Hd. now rewrite Hd. }
  split; [exact D|]. split.
  - intros clientType px dsn st b q Hseg Ha Hs Hd.
    unfold ParseDSN. rewrite Hseg, (D _ Ha Hs Hd).
    set (acc := slice (Host (cfg st)) 0 (Index (Host (cfg st)) ".")).
    assert (String.eqb acc "" = false) as Hacc.
    { apply eqb_empty_length. unfold acc. rewrite length_slice_prefix; [lia|].
      pose proof (Index_bound (Host (cfg st)) "." ltac:(simpl; lia) ltac:(lia)).
      unfold len in *. simpl in *. lia. }
    destruct (fillMissingConfigParameters clientType (setAccount (cfg st) acc))
      as [c1 [e|]] eqn:Ef.
    + apply fill_err in Ef as [_ Hc]. fields. split; [|discriminate].
      simpl. intros [= ->].
      destruct Hc as [[_ H]|[[H _]|[H _]]]; try discriminate.
      rewrite H in Hacc. discriminate.
    + apply fill_ok in Ef as [-> _].
      destruct (unescapeFields _) as [c2 [e|]] eqn:Eu; simpl.
      * apply unescapeFields_err in Eu as [t ->]. split; discriminate.
      * apply unescapeFields_ok in Eu as (d & s & r & w & _ & _ & _ & _ & ->).
        split; [discriminate|]. intros c [= <-]. reflexivity.
  - intros clientType px. eexists. split; [vm_compute; reflexivity | reflexivity].
Qed.

Lemma account_derived_from_host_witness :
  deriveAccount
    (mkConfig "" "u" "p" "" "" "" "" "" None "" "ab.snowflakecomputing.com"
       443 "" "" false 0 0 "" false) =
  mkConfig "ab" "u" "p" "" "" "" "" "" None "" "ab.snowflakecomputing.com"
    443 "" "" false 0 0 "" false.
Proof.
  apply (proj1 account_derived_from_host); reflexivity.
Defined.

(** C10 as the code has it: a pair with the key [passcodeInPassword] or
    [insecureMode] whose decoded value is not a boolean, or with the key
    [loginTimeout] or [proxyPort] whose decoded value is not a decimal 64-bit
    integer, makes the decoder stop with the conversion error and the state
    untouched; it is never passed over as a piece without ['='] is.  In a
    DSN [head?query] whose query string holds such a pair after pieces that
    decode, [ParseDSN] fails: with that conversion error, or with the error
    for a bad port, which is found before the query string is decoded. *)
Theorem conversion_errors_abort :
  (forall (st : State) (key raw value : string),
     key = "passcodeInPassword" \/ key = "insecureMode" ->
     QueryUnescape raw = inl value -> ParseBool value = None ->
     parseDSNParam st (key +:+ "=" +:+ raw) =
     (st, Some (NumError "ParseBool" value ErrSyntax))) /\
  (forall (st : State) (key raw value : string) (n : Z) (kind : NumErrKind),
     key = "loginTimeout" \/ key = "proxyPort" ->
     QueryUnescape raw = inl value -> ParseInt value = (n, Some kind) ->
     parseDSNParam st (key +:+ "=" +:+ raw) =
     (st, Some (NumError "ParseInt" value kind))) /\
  (forall (clientType : string) (px : Proxy) (head query : string)
          (before after : list string) (piece : string) (st : State)
          (e : Error),
     lacks head "?" = true -> lacks query "/" = true ->
     lacks query "@" = true -> lacks query "?" = true ->
     Split query "&" = (before ++ piece :: after)%list ->
     snd (parsePieces st before) = None ->
     snd (parseDSNParam st piece) = Some e ->
     failure (ParseDSN clientType px (head +:+ "?" +:+ query)) = Some e \/
     exists text,
       failure (ParseDSN clientType px (head +:+ "?" +:+ query)) =
       Some (ErrFailedToParsePort text)) /\
  (forall (clientType : string) (px : Proxy),
     failure (ParseDSN clientType px "user:pass@acc?insecureMode=maybe") =
     Some (NumError "ParseBool" "maybe" ErrSyntax) /\
     failure (ParseDSN clientType px "user:pass@acc/db?loginTimeout=1m") =
     Some (NumError "ParseInt" "1m" ErrSyntax)).
Proof.
  split; [|split; [|split]].
  - intros st key raw value Hk Hu Hb. unfold parseDSNParam, SplitN2.
    change (key +:+ "=" +:+ raw) with (key +:+ String "=" raw).
    rewrite cut_app by (destruct Hk; subst; reflexivity).
    rewrite Hu. destruct Hk; subst key; unfold dispatchParam; simpl;
      now rewrite Hb.
  - intros st key raw value n kind Hk Hu Hi. unfold parseDSNParam, SplitN2.
    change (key +:+ "=" +:+ raw) with (key +:+ String "=" raw).
    rewrite cut_app by (destruct Hk; subst; reflexivity).
    rewrite Hu. destruct Hk; subst key; unfold dispatchParam; simpl;
      now rewrite Hi.
  - intros clientType px head query before after piece st e Hh H1 H2 H3 Hs Hb Hp.
    apply ParseDSN_query_error; try assumption.
    unfold parseDSNParams. rewrite Hs.
    rewrite (parsePieces_error _ st). now apply parsePieces_fails.
  - intros clientType px. split; vm_compute; reflexivity.
Qed.

Lemma conversion_errors_abort_witness :
  parseDSNParam (mkState newConfig (mkProxy "" 0 "" ""))
    ("insecureMode" +:+ "=" +:+ "%79es") =
  (mkState newConfig (mkProxy "" 0 "" ""),
   Some (NumError "ParseBool" "yes" ErrSyntax)) /\
  parseDSNParam (mkState newConfig (mkProxy "" 0 "" ""))
    ("proxyPort" +:+ "=" +:+ "99999999999999999999") =
  (mkState newConfig (mkProxy "" 0 "" ""),
   Some (NumError "ParseInt" "99999999999999999999" ErrRange)) /\
  (failure
     (ParseDSN "Go" (mkProxy "" 0 "" "")
        ("u:p@acc/db" +:+ "?" +:+ "role=r&loginTimeout=soon&x=y")) =
   Some (NumError "ParseInt" "soon" ErrSyntax) \/
   exists text,
     failure
       (ParseDSN "Go" (mkProxy "" 0 "" "")
          ("u:p@acc/db" +:+ "?" +:+ "role=r&loginTimeout=soon&x=y")) =
     Some (ErrFailedToParsePort text)).
Proof.
  destruct conversion_errors_abort as (Hb & Hi & Hd & _).
  split; [|split].
  - apply Hb; [now right | reflexivity | reflexivity].
  - apply (Hi _ _ _ _ (2 ^ 63 - 1)); [now right | reflexivity | reflexivity].
  - apply (Hd "Go" (mkProxy "" 0 "" "") "u:p@acc/db"
             "role=r&loginTimeout=soon&x=y" ["role=r"] ["x=y"]
             "loginTimeout=soon" (mkState newConfig (mkProxy "" 0 "" "")));
      reflexivity.
Defined.

(** C10 as the spec words it fails: the conversion error is not what
    [ParseDSN] returns when something fails before the pair is reached, a
    bad port or an earlier pair whose value does not decode. *)
Lemma conversion_error_not_reached :
  failure
    (ParseDSN "Go" (mkProxy "" 0 "" "") "user:pass@acc:x?insecureMode=maybe") =
  Some (ErrFailedToParsePort "x") /\
  failure
    (ParseDSN "Go" (mkProxy "" 0 "" "") "user:pass@acc?a=%zz&insecureMode=maybe") =
  Some (EscapeError "%zz") /\
  failure
    (ParseDSN "Go" (mkProxy "" 0 "" "") "user:pass@acc:x?insecureMode=maybe") <>
  Some (NumError "ParseBool" "maybe" ErrSyntax) /\
  failure
    (ParseDSN "Go" (mkProxy "" 0 "" "") "user:pass@acc?a=%zz&insecureMode=maybe") <>
  Some (NumError "ParseBool" "maybe" ErrSyntax).
Proof.
  assert (failure
            (ParseDSN "Go" (mkProxy "" 0 "" "")
               "user:pass@acc:x?insecureMode=maybe") =
          Some (ErrFailedToParsePort "x")) as E1 by (vm_compute; reflexivity).
  assert (failure
            (ParseDSN "Go" (mkProxy "" 0 "" "")
               "user:pass@acc?a=%zz&insecureMode=maybe") =
          Some (EscapeError "%zz")) as E2 by (vm_compute; reflexivity).
  split; [exact E1|]. split; [exact E2|].
  rewrite E1, E2. split; discriminate.
Qed.

(** C8 as the code has it: a pair whose key has no case is stored in
    [Params] under that key with its value percent-decoded (['+'] becomes a
    space, [%XX] a byte), which is the text after ['='] itself when that text
    has no ['%'] and no ['+'].  The entry is still there when decoding ends,
    and in the [Config] that [ParseDSN] returns, unless a later pair with the
    same key has replaced it. *)
Theorem unrecognized_params_decoded :
  (forall (st : State) (key raw value : string),
     ~ In key recognizedKeys -> lacks key "=" = true ->
     QueryUnescape raw = inl value ->
     parseDSNParam st (key +:+ "=" +:+ raw) =
     (onCfg (fun cf => putParam cf key value) st, None)) /\
  (forall raw : string,
     lacks raw "%" = true -> lacks raw "+" = true ->
     QueryUnescape raw = inl raw) /\
  (forall (st st' : State) (query : string) (before after : list string)
          (key raw : string),
     ~ In key recognizedKeys -> lacks key "=" = true ->
     Split query "&" = (before ++ (key +:+ "=" +:+ raw) :: after)%list ->
     Forall (fun p => forall r, p <> key +:+ "=" +:+ r) after ->
     parseDSNParams st query = (st', None) ->
     exists m value,
       QueryUnescape raw = inl value /\
       Params (cfg st') = Some m /\ m !! key = Some value) /\
  (forall (clientType : string) (px px' : Proxy) (head query : string)
          (before after : list string) (key raw : string) (cf : Config),
     lacks head "?" = true -> lacks query "/" = true ->
     lacks query "@" = true -> lacks query "?" = true ->
     ~ In key recognizedKeys -> lacks key "=" = true ->
     Split query "&" = (before ++ (key +:+ "=" +:+ raw) :: after)%list ->
     Forall (fun p => forall r, p <> key +:+ "=" +:+ r) after ->
     ParseDSN clientType px (head +:+ "?" +:+ query) =
     mkParsed (Some cf) None px' ->
     exists m value,
       QueryUnescape raw = inl value /\
       Params cf = Some m /\ m !! key = Some value).
Proof.
  assert (forall (st st' : State) (query : string) (before after : list string)
          (key raw : string),
     ~ In key recognizedKeys -> lacks key "=" = true ->
     Split query "&" = (before ++ (key +:+ "=" +:+ raw) :: after)%list ->
     Forall (fun p => forall r, p <> key +:+ "=" +:+ r) after ->
     parseDSNParams st query = (st', None) ->
     exists m value,
       QueryUnescape raw = inl value /\
       Params (cfg st') = Some m /\ m !! key = Some value) as Hq.
  { intros st st' query before after key raw Hk Hl Hs Ha.
    unfold parseDSNParams. rewrite Hs, parsePieces_app.
    destruct (parsePieces st before) as [st1 [e|]]; [discriminate|].
    simpl. rewrite parseDSNParam_default by assumption.
    destruct (QueryUnescape raw) as [value|]; [|discriminate].
    intros Hp. apply (parsePieces_other_key _ _ _ key Ha) in Hp.
    unfold lookupParam, putParam in Hp. fields. simpl in Hp.
    rewrite lookup_insert_eq in Hp.
    destruct (Params (cfg st')) as [m|]; simpl in Hp.
    - now exists m, value.
    - rewrite lookup_empty in Hp. discriminate. }
  split; [|split; [exact QueryUnescape_plain | split; [exact Hq|]]].
  - intros st key raw value Hk Hl Hu.
    now rewrite parseDSNParam_default, Hu.
  - intros clientType px px' head query before after key raw cf
           Hh H1 H2 H3 Hk Hl Hs Ha Hp.
    apply ParseDSN_query_ok in Hp
      as (st0 & st & _ & _ & Hp & -> & _); try assumption.
    exact (Hq st0 st query before after key raw Hk Hl Hs Ha Hp).
Qed.

Lemma unrecognized_params_decoded_witness :
  parseDSNParam (mkState newConfig (mkProxy "" 0 "" ""))
    ("tracing" +:+ "=" +:+ "a+b%21") =
  (onCfg (fun cf => putParam cf "tracing" "a b!")
     (mkState newConfig (mkProxy "" 0 "" "")), None) /\
  QueryUnescape "debug" = inl "debug" /\
  exists m value,
    QueryUnescape "1%2F2" = inl value /\
    Params
      (cfg (fst (parseDSNParams (mkState newConfig (mkProxy "" 0 "" ""))
                   "k=0&k=1%2F2&role=r"))) = Some m /\
    m !! "k" = Some value.
Proof.
  destruct unrecognized_params_decoded as (H1 & H2 & H3 & _).
  split; [|split].
  - apply H1; [|reflexivity|reflexivity].
    simpl. intros H. repeat (destruct H as [H|H]; [discriminate|]). exact H.
  - apply H2; reflexivity.
  - apply (H3 (mkState newConfig (mkProxy "" 0 "" "")) _ "k=0&k=1%2F2&role=r"
             ["k=0"] ["role=r"] "k" "1%2F2").
    + simpl. intros H. repeat (destruct H as [H|H]; [discriminate|]). exact H.
    + reflexivity.
    + reflexivity.
    + repeat constructor. intros r. discriminate.
    + vm_compute. reflexivity.
Defined.

(** C8 as the spec words it fails: the value is not kept verbatim.  For the
    query ["foo=a+b"] the mapping holds ["a b"], not the text ["a+b"] of the
    DSN. *)
Lemma param_value_not_verbatim :
  exists cf m,
    ParseDSN "Go" (mkProxy "" 0 "" "") "user:pass@acc?foo=a+b" =
    mkParsed (Some cf) None (mkProxy "" 0 "" "") /\
    ~ In "foo" recognizedKeys /\
    Params cf = Some m /\ m !! "foo" = Some "a b" /\ m !! "foo" <> Some "a+b".
Proof.
  eexists _, _. split; [vm_compute; reflexivity|].
  split.
  { simpl. intros H. repeat (destruct H as [H|H]; [discriminate|]). exact H. }
  split; [reflexivity|]. split; [reflexivity | discriminate].
Qed.

(** ** The serialiser and its argument *)

(** C4 as the code has it: [DSN] works on the [Config] behind the pointer,
    not on a copy.  It leaves user, password, database, schema, warehouse,
    role, the extension mapping, passcode, the passcode flag, the request
    timeout and the insecure-mode flag as they were, and it may assign host,
    account, region, protocol, port, login timeout, application and
    authenticator.  The whole [Config] is left as it was when the host is
    set, the account has no region embedded and the defaulting pass finds
    nothing to fill. *)
Theorem DSN_updates_config_in_place (clientType : string) (c : Config) :
  (User (fst (DSN clientType c)) = User c /\
   Password (fst (DSN clientType c)) = Password c /\
   Database (fst (DSN clientType c)) = Database c /\
   Schema (fst (DSN clientType c)) = Schema c /\
   Warehouse (fst (DSN clientType c)) = Warehouse c /\
   Role (fst (DSN clientType c)) = Role c /\
   Params (fst (DSN clientType c)) = Params c /\
   Passcode (fst (DSN clientType c)) = Passcode c /\
   PasscodeInPassword (fst (DSN clientType c)) = PasscodeInPassword c /\
   RequestTimeout (fst (DSN clientType c)) = RequestTimeout c /\
   InsecureMode (fst (DSN clientType c)) = InsecureMode c) /\
  (Host c <> "" -> Index (Account c) "." <= 0 ->
   fst (fillMissingConfigParameters clientType c) = c ->
   fst (DSN clientType c) = c).
Proof.
  split.
  - rewrite DSN_config.
    destruct (beforeDefaulting_cases c) as (host & [E|(region & account & E)]);
      rewrite E;
      match goal with
      | |- context [fillMissingConfigParameters clientType ?b] =>
          destruct (fill_config_cases clientType b) as [-> | ->]
      end; repeat split.
  - intros Hh Hd Hf. rewrite DSN_config.
    assert (beforeDefaulting c = c) as ->; [|exact Hf].
    unfold beforeDefaulting.
    apply String.eqb_neq in Hh. rewrite Hh.
    assert ((0 <? Index (Account c) ".") = false) as -> by (apply Z.ltb_ge; lia).
    reflexivity.
Qed.

Lemma DSN_updates_config_in_place_witness :
  fst (DSN "Go"
         (mkConfig "acc" "u" "p" "db" "" "" "" "" None "https"
            "acc.snowflakecomputing.com" 443 "snowflake" "" false
            60000000000 0 "Go" false)) =
  mkConfig "acc" "u" "p" "db" "" "" "" "" None "https"
    "acc.snowflakecomputing.com" 443 "snowflake" "" false 60000000000 0 "Go"
    false.
Proof.
  apply (proj2 (DSN_updates_config_in_place "Go" _));
    [discriminate | vm_compute; discriminate | reflexivity].
Defined.

(** C4 as the spec words it fails: after [DSN] on a [Config] with account,
    user and password only, the [Config] holds the derived host, port 443 and
    the other defaults. *)
Lemma DSN_changes_its_argument :
  let c :=
    mkConfig "acc" "user" "pass" "" "" "" "" "" None "" "" 0 "" "" false 0 0
      "" false in
  DSN "Go" c =
  (mkConfig "acc" "user" "pass" "" "" "" "" "" None "https"
     "acc.snowflakecomputing.com" 443 "snowflake" "" false 60000000000 0 "Go"
     false,
   ("user:pass@acc.snowflakecomputing.com:443", None)) /\
  fst (DSN "Go" c) <> c /\
  Host (fst (DSN "Go" c)) <> Host c /\ Port (fst (DSN "Go" c)) <> Port c /\
  Protocol (fst (DSN "Go" c)) <> Protocol c.
Proof.
  cbv zeta. split; [vm_compute; reflexivity|].
  repeat split; vm_compute; discriminate.
Qed.

(** ** Defaulting twice *)

(** X21: when the defaulting pass succeeds, a second pass on its result
    succeeds too and changes no field, provided the region is empty, or the
    first pass left the host as it was, or neither the region nor the part
    of the host before [".snowflakecomputing.com"] mentions
    [snowflakecomputing]. *)
Theorem defaulting_idempotent (clientType : string) (c c1 : Config) :
  fillMissingConfigParameters clientType c = (c1, None) ->
  Region c = "" \/ Host c1 = Host c \/
  (mentions (Region c) "snowflakecomputing" = false /\
   mentions (slice (Host c) 0 (Index (Host c) ".snowflakecomputing.com"))
     "snowflakecomputing" = false) ->
  fillMissingConfigParameters clientType c1 = (c1, None).
Proof.
  intros Hf Hc. apply fill_ok in Hf as (-> & Ha & Hu & Hp).
  rewrite fill_spec.
  change (Account (defaulted clientType c)) with (Account c).
  change (User (defaulted clientType c)) with (User c).
  change (Password (defaulted clientType c)) with (Password c).
  rewrite Ha, Hu, Hp. f_equal.
  assert (reconciledHost (defaulted clientType c) = reconciledHost c) as Hh.
  { apply (reconciledHost_stable c (defaulted clientType c));
      [reflexivity | reflexivity | exact Hc]. }
  unfold defaulted at 1. rewrite Hh. unfold defaulted. fields. f_equal.
  - now destruct (String.eqb (Protocol c) "") eqn:E; [|rewrite E].
  - destruct (Port c =? 0) eqn:E; [reflexivity | now rewrite E].
  - now destruct (String.eqb (Authenticator c) "") eqn:E; [|rewrite E].
  - destruct (LoginTimeout c =? 0) eqn:E; [reflexivity | now rewrite E].
  - destruct (String.eqb (Application c) "") eqn:E; [|now rewrite E].
    now destruct (String.eqb clientType "").
Qed.

Lemma defaulting_idempotent_witness :
  fillMissingConfigParameters "Go"
    (mkConfig "ab" "u" "p" "" "" "" "" "us-east-1" None "https"
       "ab.us-east-1.snowflakecomputing.com" 443 "snowflake" "" false
       60000000000 0 "Go" false) =
  (mkConfig "ab" "u" "p" "" "" "" "" "us-east-1" None "https"
     "ab.us-east-1.snowflakecomputing.com" 443 "snowflake" "" false
     60000000000 0 "Go" false, None).
Proof.
  apply (defaulting_idempotent "Go"
           (mkConfig "ab" "u" "p" "" "" "" "" "us-east-1" None "" 
              "ab.snowflakecomputing.com" 0 "" "" false 0 0 "" false)).
  - reflexivity.
  - right. right. split; reflexivity.
Defined.

(** C5: the defaulting pass is not idempotent.  With the region
    ["eu.snowflakecomputing.com"] and the host ["a.snowflakecomputing.com"]
    the first pass inserts the region into the host, and the second pass,
    which cuts the host at its first [".snowflakecomputing.com"], now
    inside the region, inserts the region once more. *)
Lemma defaulting_not_idempotent :
  let c :=
    mkConfig "a" "u" "p" "" "" "" "" "eu.snowflakecomputing.com" None "" 
      "a.snowflakecomputing.com" 0 "" "" false 0 0 "" false in
  exists c1 c2,
    fillMissingConfigParameters "Go" c = (c1, None) /\
    fillMissingConfigParameters "Go" c1 = (c2, None) /\
    Host c1 = "a.eu.snowflakecomputing.com.snowflakecomputing.com" /\
    Host c2 = "a.eu.eu.snowflakecomputing.com.snowflakecomputing.com" /\
    c2 <> c1.
Proof.
  cbv zeta. eexists _, _.
  split; [vm_compute; reflexivity|]. split; [vm_compute; reflexivity|].
  split; [reflexivity|]. split; [reflexivity | discriminate].
Qed.

(** ** Serialising and parsing back *)

(** C1 as the code has it: when [DSN] succeeds on a [Config], returning the
    text [s] and leaving the [Config] [c'] behind the pointer, [ParseDSN]
    succeeds on [s], leaves the proxy settings as they were and returns [c']
    with the extension mapping it has made, which is empty and not [nil]: so
    it returns exactly [c'] when the mapping of [c'] is empty and not [nil],
    and [c'] in every field but [Params] when that is [nil].  This holds
    provided [c'] is one of the [Config]s that are read back ([readBack]):
    complete, with user, password and host free of the bytes the scans look
    for, the account being the first label of a host under
    [.snowflakecomputing.com], protocol https, no insecure mode, an extension
    mapping that is [nil] or empty, no request timeout, a login timeout of
    whole seconds, and no ['%'] or ['+'] in database, schema, role and
    warehouse. *)
Theorem DSN_ParseDSN_roundtrip (clientType : string) (px : Proxy)
    (c c' : Config) (s : string) :
  DSN clientType c = (c', (s, None)) ->
  readBack clientType c' ->
  ParseDSN clientType px s = mkParsed (Some (setParams c' (Some ∅))) None px /\
  (Params c' = Some ∅ ->
   ParseDSN clientType px s = mkParsed (Some c') None px).
Proof.
  rewrite DSN_spec.
  destruct (fillMissingConfigParameters clientType (beforeDefaulting c))
    as [c1 [e|]]; [discriminate|].
  intros [= -> <-] H.
  pose proof (ParseDSN_dsnText clientType px c' H) as E.
  split; [exact E|].
  intros Hp. rewrite E. f_equal. f_equal.
  split_config c'. cbn [Params] in Hp. now subst pm.
Qed.

Lemma DSN_ParseDSN_roundtrip_witness :
  ParseDSN "Go" (mkProxy "proxy.local" 8080 "" "")
    "user:p@ss:word@ab.us-east-1.snowflakecomputing.com:443?application=app%2F1&database=my+db&loginTimeout=30&passcode=12%263&passcodeInPassword=true&region=us-east-1" =
  mkParsed
    (Some
       (mkConfig "ab" "user" "p@ss:word" "my db" "" "" "" "us-east-1" (Some ∅)
          "https" "ab.us-east-1.snowflakecomputing.com" 443 "snowflake" "12&3"
          true 30000000000 0 "app/1" false))
    None (mkProxy "proxy.local" 8080 "" "").
Proof.
  assert (DSN "Go"
            (mkConfig "ab.us-east-1" "user" "p@ss:word" "my db" "" "" "" "" None
               "" "" 0 "" "12&3" true 30000000000 0 "app/1" false) =
          (mkConfig "ab" "user" "p@ss:word" "my db" "" "" "" "us-east-1" None
             "https" "ab.us-east-1.snowflakecomputing.com" 443 "snowflake"
             "12&3" true 30000000000 0 "app/1" false,
           ("user:p@ss:word@ab.us-east-1.snowflakecomputing.com:443?application=app%2F1&database=my+db&loginTimeout=30&passcode=12%263&passcodeInPassword=true&region=us-east-1",
            None))) as E by (vm_compute; reflexivity).
  assert (readBack "Go"
            (mkConfig "ab" "user" "p@ss:word" "my db" "" "" "" "us-east-1" None
               "https" "ab.us-east-1.snowflakecomputing.com" 443 "snowflake"
               "12&3" true 30000000000 0 "app/1" false)) as H.
  { unfold readBack. cbn [Account User Password Database Schema Warehouse Role
      Region Params Protocol Host Port Authenticator Passcode
      PasscodeInPassword LoginTimeout RequestTimeout Application InsecureMode].
    repeat match goal with |- _ /\ _ => split end;
      try (vm_compute; reflexivity); try (now left);
      try (vm_compute; discriminate); lia. }
  exact (proj1 (DSN_ParseDSN_roundtrip "Go" (mkProxy "proxy.local" 8080 "" "")
                  _ _ _ E H)).
Defined.

(** C1 as the spec words it fails: [DSN] does not write the protocol, so a
    [Config] with protocol ["http"] comes back with ["https"], also after
    defaulting both sides. *)
Lemma roundtrip_loses_protocol :
  let c :=
    mkConfig "acc" "user" "pass" "" "" "" "" "" (Some ∅) "http" "" 0 "" ""
      false 0 0 "" false in
  exists c' s r,
    DSN "Go" c = (c', (s, None)) /\
    ParseDSN "Go" (mkProxy "" 0 "" "") s =
    mkParsed (Some r) None (mkProxy "" 0 "" "") /\
    Protocol (fst (fillMissingConfigParameters "Go" c)) = "http" /\
    Protocol (fst (fillMissingConfigParameters "Go" r)) = "https" /\
    fst (fillMissingConfigParameters "Go" r) <>
    fst (fillMissingConfigParameters "Go" c).
Proof.
  cbv zeta. eexists _, _, _.
  split; [vm_compute; reflexivity|]. split; [vm_compute; reflexivity|].
  split; [reflexivity|]. split; [reflexivity|]. vm_compute. discriminate.
Qed.
(** * Further properties of the code *)

(** ** Helper facts *)

Section MoreFacts.

Implicit Types (a b s : string) (c x : ascii).

Lemma defaulted_complete (clientType : string) (cf : Config) :
  String.eqb (Account cf) "" = false -> String.eqb (User cf) "" = false ->
  String.eqb (Password cf) "" = false ->
  let c' := defaulted clientType cf in
  Account c' <> "" /\ User c' <> "" /\ Password c' <> "" /\
  Protocol c' <> "" /\ Port c' <> 0 /\ LoginTimeout c' <> 0 /\
  Authenticator c' <> "" /\ (clientType <> "" -> Application c' <> "").
Proof.
  intros Ha Hu Hp. apply String.eqb_neq in Ha, Hu, Hp. unfold defaulted. fields.
  repeat split; try assumption.
  - destruct (String.eqb_spec (Protocol cf) ""); [discriminate | assumption].
  - destruct (Z.eqb_spec (Port cf) 0); [discriminate | assumption].
  - destruct (Z.eqb_spec (LoginTimeout cf) 0); [discriminate | assumption].
  - destruct (String.eqb_spec (Authenticator cf) ""); [discriminate | assumption].
  - intros Hc. destruct (String.eqb_spec (Application cf) ""); assumption.
Qed.

(** [strings.Index] for a single byte. *)
Lemma index_byte_lacks s c : lacks s c = true -> String.index 0 (String c "") s = None.
Proof.
  induction s as [|x s IH]; intros H; [reflexivity|].
  cbn [lacks] in H. apply andb_true_iff in H as [Hx Hs].
  apply negb_true_iff, Ascii.eqb_neq in Hx.
  cbn [String.index String.prefix].
  destruct (ascii_dec c x) as [E|_]; [congruence|]. now rewrite IH.
Qed.

Lemma Index_byte_lacks s c : lacks s c = true -> Index s (String c "") = -1.
Proof. intros H. unfold Index. now rewrite index_byte_lacks. Qed.

Lemma prefix_nil s : String.prefix "" s = true.
Proof. now destruct s. Qed.

Lemma index_byte_first a b c :
  lacks a c = true ->
  String.index 0 (String c "") (a +:+ String c b) = Some (String.length a).
Proof.
  induction a as [|x a IH]; intros H.
  - rewrite app_nil_l. cbn [String.index String.prefix].
    destruct (ascii_dec c c); [|congruence]. now rewrite prefix_nil.
  - cbn [lacks] in H. apply andb_true_iff in H as [Hx Ha].
    apply negb_true_iff, Ascii.eqb_neq in Hx. rewrite app_cons.
    cbn [String.index String.prefix].
    destruct (ascii_dec c x) as [E|_]; [congruence|]. now rewrite IH.
Qed.

Lemma Index_byte_first a b c :
  lacks a c = true -> Index (a +:+ String c b) (String c "") = len a.
Proof. intros H. unfold Index. now rewrite index_byte_first. Qed.

End MoreFacts.

(** ** The defaulting pass *)

(** X1: the defaulting pass checks account, user and password in that
    order: with an account but no user it fails with [ErrEmptyUsername], with
    account and user but no password with [ErrEmptyPassword]; it succeeds
    exactly when all three are non-empty, and when it fails it has assigned
    nothing. *)
Theorem defaulting_validates_in_order (clientType : string) (c : Config) :
  (Account c <> "" -> User c = "" ->
   fillMissingConfigParameters clientType c = (c, Some ErrEmptyUsername)) /\
  (Account c <> "" -> User c <> "" -> Password c = "" ->
   fillMissingConfigParameters clientType c = (c, Some ErrEmptyPassword)) /\
  (snd (fillMissingConfigParameters clientType c) = None <->
   Account c <> "" /\ User c <> "" /\ Password c <> "") /\
  (forall e, snd (fillMissingConfigParameters clientType c) = Some e ->
             fst (fillMissingConfigParameters clientType c) = c).
Proof.
  rewrite fill_spec.
  destruct (String.eqb_spec (Account c) "") as [Ea|Na];
    [|destruct (String.eqb_spec (User c) "") as [Eu|Nu];
      [|destruct (String.eqb_spec (Password c) "") as [Ep|Np]]];
    cbn [fst snd]; repeat split; try congruence; try discriminate;
    try tauto; try (intros (H1 & H2 & H3); congruence).
Qed.

Lemma defaulting_validates_in_order_witness :
  fillMissingConfigParameters "Go"
    (mkConfig "acc" "" "secret" "" "" "" "" "" None "" "" 0 "" "" false 0 0 ""
       false) =
  (mkConfig "acc" "" "secret" "" "" "" "" "" None "" "" 0 "" "" false 0 0 ""
     false, Some ErrEmptyUsername) /\
  fillMissingConfigParameters "Go"
    (mkConfig "acc" "user" "" "" "" "" "" "" None "" "" 0 "" "" false 0 0 ""
       false) =
  (mkConfig "acc" "user" "" "" "" "" "" "" None "" "" 0 "" "" false 0 0 ""
     false, Some ErrEmptyPassword).
Proof.
  split.
  - apply (proj1 (defaulting_validates_in_order "Go" _)); [discriminate | reflexivity].
  - apply (proj1 (proj2 (defaulting_validates_in_order "Go" _)));
      [discriminate | discriminate | reflexivity].
Defined.

(** X2: after a successful defaulting pass nothing mandatory or defaulted is
    unset: account, user, password, protocol and authenticator are non-empty,
    port and login timeout are non-zero, and the application name is
    non-empty unless the client type itself is empty. *)
Theorem defaulting_leaves_nothing_unset (clientType : string) (c c' : Config) :
  fillMissingConfigParameters clientType c = (c', None) ->
  Account c' <> "" /\ User c' <> "" /\ Password c' <> "" /\
  Protocol c' <> "" /\ Port c' <> 0 /\ LoginTimeout c' <> 0 /\
  Authenticator c' <> "" /\ (clientType <> "" -> Application c' <> "").
Proof.
  intros H. apply fill_ok in H as (-> & Ha & Hu & Hp).
  now apply defaulted_complete.
Qed.

Lemma defaulting_leaves_nothing_unset_witness :
  Protocol
    (mkConfig "acc" "user" "pw" "" "" "" "" "" None "https" "" 443 "snowflake"
       "" false 60000000000 0 "Go" false) <> "" /\
  Port
    (mkConfig "acc" "user" "pw" "" "" "" "" "" None "https" "" 443 "snowflake"
       "" false 60000000000 0 "Go" false) <> 0.
Proof.
  assert (fillMissingConfigParameters "Go"
            (mkConfig "acc" "user" "pw" "" "" "" "" "" None "" "" 0 "" "" false
               0 0 "" false) =
          (mkConfig "acc" "user" "pw" "" "" "" "" "" None "https" "" 443
             "snowflake" "" false 60000000000 0 "Go" false, None)) as E
    by (vm_compute; reflexivity).
  pose proof (defaulting_leaves_nothing_unset "Go" _ _ E) as H.
  split; [exact (proj1 (proj2 (proj2 (proj2 H)))) |
          exact (proj1 (proj2 (proj2 (proj2 (proj2 H)))))].
Defined.

(** ** Results are complete *)

(** X3: a [Config] that [ParseDSN] returns without an error, and the
    [Config] that a successful [DSN] leaves behind its pointer, have passed
    validation and defaulting: account, user, password, protocol and
    authenticator are non-empty, port and login timeout non-zero. *)
Theorem results_are_complete (clientType : string) :
  (forall (px px' : Proxy) (dsn : string) (c : Config),
     ParseDSN clientType px dsn = mkParsed (Some c) None px' ->
     Account c <> "" /\ User c <> "" /\ Password c <> "" /\
     Protocol c <> "" /\ Port c <> 0 /\ LoginTimeout c <> 0 /\
     Authenticator c <> "") /\
  (forall (c c' : Config) (s : string),
     DSN clientType c = (c', (s, None)) ->
     Account c' <> "" /\ User c' <> "" /\ Password c' <> "" /\
     Protocol c' <> "" /\ Port c' <> 0 /\ LoginTimeout c' <> 0 /\
     Authenticator c' <> "").
Proof.
  split.
  - intros px px' dsn c. unfold ParseDSN.
    destruct (parseSegments px dsn) as [st ret err|st b q]; [discriminate|].
    destruct (fillMissingConfigParameters _ _) as [c1 [e|]] eqn:Ef; [discriminate|].
    apply fill_ok in Ef as (-> & Ha & Hu & Hp).
    destruct (unescapeFields _) as [c2 [e|]] eqn:Eu; [discriminate|].
    apply unescapeFields_ok in Eu as (d & s & r & w & _ & _ & _ & _ & ->).
    intros [= <- _].
    destruct (defaulted_complete clientType _ Ha Hu Hp)
      as (H1 & H2 & H3 & H4 & H5 & H6 & H7 & _).
    now repeat split.
  - intros c c' s. rewrite DSN_spec.
    destruct (fillMissingConfigParameters _ _) as [c1 [e|]] eqn:Ef; [discriminate|].
    apply fill_ok in Ef as (-> & Ha & Hu & Hp). intros [= <- _].
    destruct (defaulted_complete clientType _ Ha Hu Hp)
      as (H1 & H2 & H3 & H4 & H5 & H6 & H7 & _).
    now repeat split.
Qed.

Lemma results_are_complete_witness :
  Port
    (mkConfig "acc" "u" "p" "" "" "" "" "" (Some ∅) "https"
       "acc.snowflakecomputing.com" 443 "snowflake" "" false 60000000000 0
       "Go" false) <> 0.
Proof.
  assert (ParseDSN "Go" (mkProxy "" 0 "" "") "u:p@acc" =
          mkParsed
            (Some
               (mkConfig "acc" "u" "p" "" "" "" "" "" (Some ∅) "https"
                  "acc.snowflakecomputing.com" 443 "snowflake" "" false
                  60000000000 0 "Go" false))
            None (mkProxy "" 0 "" "")) as E by (vm_compute; reflexivity).
  exact (proj1 (proj2 (proj2 (proj2 (proj2
           (proj1 (results_are_complete "Go") _ _ _ _ E)))))).
Defined.

(** ** Region and host *)

(** X4: the defaulting pass reconciles the host with the region.  For a host
    [prefix.snowflakecomputing.com] with a non-empty prefix that does not
    mention [snowflakecomputing] and a non-empty region, the host is left as
    it is when the prefix ends with the region, and becomes
    [prefix.region.snowflakecomputing.com] otherwise.  With an empty region
    the host is never touched. *)
Theorem region_inserted_into_host (clientType : string) (c c' : Config) :
  fillMissingConfigParameters clientType c = (c', None) ->
  (Region c = "" -> Host c' = Host c) /\
  (forall prefix : string,
     Region c <> "" -> prefix <> "" ->
     mentions prefix "snowflakecomputing" = false ->
     Host c = prefix +:+ ".snowflakecomputing.com" ->
     Host c' =
     if HasSuffix prefix (Region c) then Host c
     else prefix +:+ "." +:+ Region c +:+ ".snowflakecomputing.com").
Proof.
  intros H. apply fill_ok in H as (-> & _).
  change (Host (defaulted clientType c)) with (reconciledHost c).
  unfold reconciledHost. split.
  - intros ->. reflexivity.
  - intros prefix Hr Hp Hm Hh. apply String.eqb_neq in Hr. rewrite Hr.
    cbn [negb]. cbv zeta. rewrite Hh, (Index_appended _ Hm).
    assert ((1 <=? len prefix) = true) as ->.
    { apply Z.leb_le. unfold len. destruct prefix; [congruence|]. simpl. lia. }
    rewrite slice_prefix by reflexivity.
    now destruct (HasSuffix prefix (Region c)).
Qed.

Lemma region_inserted_into_host_witness :
  Host
    (mkConfig "ab" "u" "p" "" "" "" "" "eu-central-1" None "https"
       "ab.eu-central-1.snowflakecomputing.com" 443 "snowflake" "" false
       60000000000 0 "Go" false) =
  (if HasSuffix "ab" "eu-central-1" then "ab.snowflakecomputing.com"
   else "ab" +:+ "." +:+ "eu-central-1" +:+ ".snowflakecomputing.com").
Proof.
  assert (fillMissingConfigParameters "Go"
            (mkConfig "ab" "u" "p" "" "" "" "" "eu-central-1" None "" 
               "ab.snowflakecomputing.com" 0 "" "" false 0 0 "" false) =
          (mkConfig "ab" "u" "p" "" "" "" "" "eu-central-1" None "https"
             "ab.eu-central-1.snowflakecomputing.com" 443 "snowflake" "" false
             60000000000 0 "Go" false, None)) as E by (vm_compute; reflexivity).
  apply (proj2 (region_inserted_into_host "Go" _ _ E) "ab");
    [discriminate | discriminate | reflexivity | reflexivity].
Defined.

(** ** Credentials *)

(** X5: [parseUserPassword] splits the text before the ['@'] at its first
    [':']: what is left of it is the user, what is right of it the password,
    which may itself hold further [':'].  Without a [':'] the whole text is
    the user and the password is empty. *)
Theorem credentials_split_at_first_colon :
  (forall user password rest : string,
     lacks user ":" = true ->
     parseUserPassword (String.length (user +:+ ":" +:+ password))
       (user +:+ ":" +:+ password +:+ rest) = (user, password)) /\
  (forall creds rest : string,
     lacks creds ":" = true ->
     parseUserPassword (String.length creds) (creds +:+ rest) = (creds, "")).
Proof.
  split.
  - intros user password rest Hu.
    exact (parseUserPassword_split user password rest Hu).
  - intros creds rest Hc. unfold parseUserPassword.
    change (creds +:+ rest) with ("" +:+ creds +:+ rest) at 1.
    rewrite scanFor_miss by (reflexivity || exact Hc).
    f_equal. apply slice_prefix. unfold len. simpl. lia.
Qed.

Lemma credentials_split_at_first_colon_witness :
  parseUserPassword (String.length ("admin" +:+ ":" +:+ "a:b:c"))
    ("admin" +:+ ":" +:+ "a:b:c" +:+ "@acc/db") = ("admin", "a:b:c") /\
  parseUserPassword (String.length "admin") ("admin" +:+ "@acc") = ("admin", "").
Proof.
  split.
  - apply (proj1 credentials_split_at_first_colon). reflexivity.
  - apply (proj2 credentials_split_at_first_colon). reflexivity.
Defined.

(** ** The account/host segment *)

Lemma parseAccountHostPort_scan before seg number rest :
  lacks seg ":" = true ->
  let dsn := before +:+ String "@" (seg +:+ String ":" (number +:+ rest)) in
  scanFor ":" dsn (Z.to_nat (len before + 1))
    (Z.to_nat (len (before +:+ String "@" (seg +:+ String ":" number))) -
     Z.to_nat (len before + 1)) =
  ((String.length before + 1 + String.length seg)%nat, true) /\
  slice dsn (Z.of_nat (String.length before + 1 + String.length seg) + 1)
    (len (before +:+ String "@" (seg +:+ String ":" number))) = number /\
  slice dsn (len before + 1)
    (Z.of_nat (String.length before + 1 + String.length seg)) = seg.
Proof.
  intros Hs dsn. unfold len.
  assert (dsn = (before +:+ "@") +:+ seg +:+ String ":" (number +:+ rest)) as E1.
  { unfold dsn. now rewrite app_assoc. }
  assert (dsn = (before +:+ "@" +:+ seg +:+ ":") +:+ number +:+ rest) as E2.
  { unfold dsn. now rewrite !app_assoc. }
  assert (String.length (before +:+ "@") = S (String.length before)) as L1
    by (rewrite length_app; simpl; lia).
  assert (String.length (before +:+ "@" +:+ seg +:+ ":") =
          (String.length before + String.length seg + 2)%nat) as L2
    by (rewrite !length_app; simpl; lia).
  assert (String.length (before +:+ String "@" (seg +:+ String ":" number)) =
          (String.length before + String.length seg + String.length number + 2)%nat)
    as L3 by (rewrite !length_app; simpl; rewrite length_app; simpl; lia).
  rewrite L3. repeat split.
  - rewrite E1. rewrite scanFor_hit; [f_equal; lia | lia | exact Hs | lia].
  - rewrite E2. apply slice_mid; unfold len; lia.
  - rewrite E1. apply slice_mid; unfold len; lia.
Qed.

(** X6: a segment [host:port] with a decimal port other than 0 is taken as
    host and port: region and account stay empty, whatever the host looks
    like.  So ["ab:5432"] gives host ["ab"], port 5432 and no account. *)
Theorem explicit_host_and_port :
  (forall (before host rest : string) (port : Z),
     lacks host ":" = true -> - 2 ^ 63 <= port < 2 ^ 63 -> port <> 0 ->
     parseAccountHostPort (len before)
       (len (before +:+ "@" +:+ host +:+ ":" +:+ FormatInt port))
       (before +:+ "@" +:+ host +:+ ":" +:+ FormatInt port +:+ rest) =
     ("", "", host, port, None)) /\
  parseAccountHostPort (-1) 7 "ab:5432" = ("", "", "ab", 5432, None).
Proof.
  split; [|reflexivity].
  intros before host rest port Hh Hr Hp.
  apply (parseAccountHostPort_hostport before host (FormatInt port) rest port);
    [exact Hh | unfold Atoi; now apply ParseInt_FormatInt | exact Hp].
Qed.

Lemma explicit_host_and_port_witness :
  parseAccountHostPort (len "u:p")
    (len ("u:p" +:+ "@" +:+ "db.example.org" +:+ ":" +:+ FormatInt 8443))
    ("u:p" +:+ "@" +:+ "db.example.org" +:+ ":" +:+ FormatInt 8443 +:+ "/db") =
  ("", "", "db.example.org", 8443, None).
Proof.
  apply (proj1 explicit_host_and_port); [reflexivity | lia | discriminate].
Defined.

(** X7: a port that is not a decimal 64-bit integer (no digits at all, a
    letter, a number out of range) makes [parseAccountHostPort] fail with
    the bad-port error that carries the offending text, with region, account
    and host left empty. *)
Theorem bad_port_rejected (before host number rest : string) :
  lacks host ":" = true -> snd (Atoi number) <> None ->
  parseAccountHostPort (len before)
    (len (before +:+ "@" +:+ host +:+ ":" +:+ number))
    (before +:+ "@" +:+ host +:+ ":" +:+ number +:+ rest) =
  ("", "", "", fst (Atoi number), Some (ErrFailedToParsePort number)).
Proof.
  intros Hh Hn.
  destruct (parseAccountHostPort_scan before host number rest Hh) as (E1 & E2 & E3).
  unfold parseAccountHostPort.
  change (before +:+ "@" +:+ host +:+ ":" +:+ number +:+ rest)
    with (before +:+ String "@" (host +:+ String ":" (number +:+ rest))).
  change (before +:+ "@" +:+ host +:+ ":" +:+ number)
    with (before +:+ String "@" (host +:+ String ":" number)).
  rewrite E1. 
  replace (Z.of_nat (Z.to_nat (len before + 1) + String.length host))
    with (Z.of_nat (String.length before + 1 + String.length host))
    by (unfold len; lia).
  rewrite E2.
  destruct (Atoi number) as [p [k|]]; [reflexivity | now contradiction Hn].
Qed.

Lemma bad_port_rejected_witness :
  parseAccountHostPort (len "u:p")
    (len ("u:p" +:+ "@" +:+ "host" +:+ ":" +:+ "80a"))
    ("u:p" +:+ "@" +:+ "host" +:+ ":" +:+ "80a" +:+ "/db") =
  ("", "", "", 0, Some (ErrFailedToParsePort "80a")) /\
  parseAccountHostPort (len "u:p")
    (len ("u:p" +:+ "@" +:+ "host" +:+ ":" +:+ ""))
    ("u:p" +:+ "@" +:+ "host" +:+ ":" +:+ "" +:+ "") =
  ("", "", "", 0, Some (ErrFailedToParsePort "")).
Proof.
  split.
  - apply (bad_port_rejected "u:p" "host" "80a" "/db"); [reflexivity | discriminate].
  - apply (bad_port_rejected "u:p" "host" "" ""); [reflexivity | discriminate].
Defined.

Lemma lacks_substring s c k n :
  lacks s c = true -> lacks (String.substring k n s) c = true.
Proof.
  revert k n; induction s as [|x s IH]; intros k n H.
  - now destruct k, n.
  - cbn [lacks] in H. apply andb_true_iff in H as [Hx Hs].
    destruct k as [|k]; cbn [String.substring].
    + destruct n as [|n]; [reflexivity|]. cbn [lacks]. now rewrite Hx, IH.
    + now apply IH.
Qed.

Lemma HasSuffix_lacks s suffix c :
  lacks s c = true -> lacks suffix c = false -> HasSuffix s suffix = false.
Proof.
  intros Hs Hsuf. unfold HasSuffix.
  destruct (String.eqb_spec
              (String.substring (String.length s - String.length suffix)
                 (String.length suffix) s) suffix) as [E|N];
    [|apply andb_false_r].
  rewrite <- E, lacks_substring in Hsuf by exact Hs. discriminate.
Qed.

Lemma parseAccountHostPort_name before seg rest :
  lacks seg ":" = true ->
  HasSuffix seg "snowflakecomputing.com" = false ->
  parseAccountHostPort (len before) (len (before +:+ String "@" seg))
    (before +:+ String "@" (seg +:+ rest)) =
  if 0 <? Index seg "." then
    (sliceFrom seg (Index seg "." + 1), slice seg 0 (Index seg "."),
     seg +:+ ".snowflakecomputing.com", 443, None)
  else ("", seg, seg +:+ ".snowflakecomputing.com", 443, None).
Proof.
  intros Hc Hs. unfold parseAccountHostPort, len.
  set (dsn := before +:+ String "@" (seg +:+ rest)).
  assert (dsn = (before +:+ "@") +:+ seg +:+ rest) as E1.
  { unfold dsn. now rewrite app_assoc. }
  assert (String.length (before +:+ "@") = S (String.length before)) as L1
    by (rewrite length_app; simpl; lia).
  assert (String.length (before +:+ String "@" seg) =
          (String.length before + 1 + String.length seg)%nat) as L3
    by (rewrite length_app; simpl; lia).
  rewrite L3.
  replace (Z.to_nat (Z.of_nat (String.length before + 1 + String.length seg)) -
           Z.to_nat (Z.of_nat (String.length before) + 1))%nat
    with (String.length seg) by lia.
  rewrite E1 at 1. rewrite scanFor_miss by (lia || exact Hc).
  assert (slice dsn (Z.of_nat (String.length before) + 1)
            (Z.of_nat (Z.to_nat (Z.of_nat (String.length before) + 1) +
                       String.length seg)) = seg) as ->.
  { rewrite E1. apply slice_mid; unfold len; lia. }
  rewrite Hs. reflexivity.
Qed.

(** X8: a segment without [':'] that does not end in the domain suffix is an
    account name: the host becomes [segment.snowflakecomputing.com] and the
    port 443.  A name without a dot is the account as it is; a name
    [account.region] is split at its first dot. *)
Theorem account_name_segment :
  (forall before account rest : string,
     lacks account ":" = true -> lacks account "." = true ->
     parseAccountHostPort (len before) (len (before +:+ "@" +:+ account))
       (before +:+ "@" +:+ account +:+ rest) =
     ("", account, account +:+ ".snowflakecomputing.com", 443, None)) /\
  (forall before account region rest : string,
     account <> "" -> lacks account ":" = true -> lacks account "." = true ->
     lacks region ":" = true ->
     HasSuffix (account +:+ "." +:+ region) "snowflakecomputing.com" = false ->
     parseAccountHostPort (len before)
       (len (before +:+ "@" +:+ account +:+ "." +:+ region))
       (before +:+ "@" +:+ (account +:+ "." +:+ region) +:+ rest) =
     (region, account,
      account +:+ "." +:+ region +:+ ".snowflakecomputing.com", 443, None)).
Proof.
  split.
  - intros before account rest Hc Hd.
    change (before +:+ "@" +:+ account +:+ rest)
      with (before +:+ String "@" (account +:+ rest)).
    change (before +:+ "@" +:+ account) with (before +:+ String "@" account).
    rewrite parseAccountHostPort_name;
      [| exact Hc | now apply (HasSuffix_lacks account _ ".")].
    now rewrite (Index_byte_lacks account "." Hd).
  - intros before account region rest Hne Hc Hd Hrc Hs.
    set (seg := account +:+ "." +:+ region) in *.
    change (before +:+ "@" +:+ seg +:+ rest)
      with (before +:+ String "@" (seg +:+ rest)).
    change (before +:+ "@" +:+ seg) with (before +:+ String "@" seg).
    rewrite parseAccountHostPort_name; [| | exact Hs].
    2:{ unfold seg. rewrite !lacks_app, Hc, Hrc. reflexivity. }
    assert (Index seg "." = len account) as ->
      by (unfold seg; now apply (Index_byte_first account region ".")).
    assert ((0 <? len account) = true) as ->.
    { apply Z.ltb_lt. unfold len. destruct account; [congruence|]. simpl. lia. }
    assert (sliceFrom seg (len account + 1) = region) as ->.
    { unfold seg. rewrite <- app_assoc. apply sliceFrom_suffix.
      unfold len. rewrite length_app. simpl. lia. }
    assert (slice seg 0 (len account) = account) as ->
      by (unfold seg; now apply slice_prefix).
    unfold seg. now rewrite !app_assoc.
Qed.

Lemma account_name_segment_witness :
  parseAccountHostPort (len "u:p") (len ("u:p" +:+ "@" +:+ "myorg-acct"))
    ("u:p" +:+ "@" +:+ "myorg-acct" +:+ "/db/sch") =
  ("", "myorg-acct", "myorg-acct" +:+ ".snowflakecomputing.com", 443, None) /\
  parseAccountHostPort (len "u:p")
    (len ("u:p" +:+ "@" +:+ "xy12345" +:+ "." +:+ "east-us-2.azure"))
    ("u:p" +:+ "@" +:+ ("xy12345" +:+ "." +:+ "east-us-2.azure") +:+ "?role=r") =
  ("east-us-2.azure", "xy12345",
   "xy12345" +:+ "." +:+ "east-us-2.azure" +:+ ".snowflakecomputing.com", 443,
   None).
Proof.
  split.
  - apply (proj1 account_name_segment); reflexivity.
  - apply (proj2 account_name_segment); (discriminate || reflexivity).
Defined.

(** ** The serialiser *)

Section SerialiserFacts.

Variable clientType : string.

(** What the first two statements of [DSN] leave in account and region. *)
Lemma beforeDefaulting_fields (c : Config) :
  User (beforeDefaulting c) = User c /\
  Password (beforeDefaulting c) = Password c /\
  Account (beforeDefaulting c) =
    (if 0 <? Index (Account c) "."
     then slice (Account c) 0 (Index (Account c) ".") else Account c) /\
  Region (beforeDefaulting c) =
    (if 0 <? Index (Account c) "."
     then sliceFrom (Account c) (Index (Account c) "." + 1) else Region c).
Proof.
  cbv beta delta [beforeDefaulting].
  set (c1 := if String.eqb (Host c) "" then _ else c).
  assert (Account c1 = Account c /\ Region c1 = Region c /\
          User c1 = User c /\ Password c1 = Password c) as (Ea & Er & Eu & Ep).
  { unfold c1. destruct (String.eqb (Host c) "");
      [destruct (String.eqb (Region c) "")|]; repeat split. }
  cbv zeta. rewrite Ea.
  destruct (0 <? Index (Account c) "."); fields; auto.
Qed.

Lemma beforeDefaulting_account_empty (c : Config) :
  String.eqb (Account (beforeDefaulting c)) "" = String.eqb (Account c) "".
Proof.
  destruct (beforeDefaulting_fields c) as (_ & _ & -> & _).
  destruct (0 <? Index (Account c) ".") eqn:E; [|reflexivity].
  apply Z.ltb_lt in E.
  pose proof (Index_bound (Account c) "." ltac:(simpl; lia) ltac:(lia)) as Hb.
  assert (String.eqb (slice (Account c) 0 (Index (Account c) ".")) "" = false)
    as ->.
  { apply eqb_empty_length. rewrite length_slice_prefix; [lia|].
    unfold len in *. simpl in Hb. lia. }
  symmetry. apply eqb_empty_length.
  unfold len in Hb. simpl in Hb. lia.
Qed.

End SerialiserFacts.

(** X9: [DSN] fails exactly as the defaulting pass does, on the account,
    user and password of its argument, in that order, and then returns the
    empty string; with all three present it succeeds. *)
Theorem DSN_fails_on_missing_fields (clientType : string) (c : Config) :
  (Account c = "" -> snd (DSN clientType c) = ("", Some ErrEmptyAccount)) /\
  (Account c <> "" -> User c = "" ->
   snd (DSN clientType c) = ("", Some ErrEmptyUsername)) /\
  (Account c <> "" -> User c <> "" -> Password c = "" ->
   snd (DSN clientType c) = ("", Some ErrEmptyPassword)) /\
  (Account c <> "" -> User c <> "" -> Password c <> "" ->
   snd (snd (DSN clientType c)) = None).
Proof.
  rewrite DSN_spec, fill_spec, beforeDefaulting_account_empty.
  destruct (beforeDefaulting_fields c) as (-> & -> & _).
  destruct (String.eqb_spec (Account c) "") as [Ea|Na];
    [|destruct (String.eqb_spec (User c) "") as [Eu|Nu];
      [|destruct (String.eqb_spec (Password c) "") as [Ep|Np]]];
    cbn [fst snd]; repeat split; congruence.
Qed.

Lemma DSN_fails_on_missing_fields_witness :
  snd (DSN "Go"
         (mkConfig "acc" "user" "" "db" "" "" "" "" None "" "" 0 "" "" false 0
            0 "" false)) = ("", Some ErrEmptyPassword).
Proof.
  apply (proj1 (proj2 (proj2 (DSN_fails_on_missing_fields "Go" _))));
    (discriminate || reflexivity).
Defined.

(** X10: the text of a successful [DSN] is [user:password@host:port] of the
    [Config] it leaves, followed, when some field differs from its default,
    by ['?'] and the pairs [key=escaped value] joined by ['&'], in the
    alphabetical order of the keys: application, authenticator, database,
    loginTimeout, passcode, passcodeInPassword, region, requestTimeout, role,
    schema, warehouse. *)
Theorem DSN_text (clientType : string) (c c' : Config) (s : string) :
  DSN clientType c = (c', (s, None)) ->
  s =
  User c' +:+ ":" +:+ Password c' +:+ "@" +:+ Host c' +:+ ":" +:+
  FormatInt (Port c') +:+
  match dsnPieces clientType c' with
  | [] => ""
  | pieces => "?" +:+ String.concat "&" pieces
  end.
Proof.
  rewrite DSN_spec.
  destruct (fillMissingConfigParameters _ _) as [c1 [e|]]; [discriminate|].
  intros [= -> <-]. unfold dsnText. rewrite dsnParams_Encode.
  destruct (String.eqb_spec (String.concat "&" (dsnPieces clientType c')) "")
    as [E|N]; cbn [negb].
  - apply concat_empty in E; [|apply dsnPieces_nonempty]. rewrite E.
    now rewrite app_nil_r.
  - destruct (dsnPieces clientType c') as [|p l] eqn:Ep;
      [now contradiction N|].
    now rewrite !app_assoc.
Qed.

Lemma DSN_text_witness :
  "u:p@ab.snowflakecomputing.com:443?loginTimeout=30&passcode=1+2&role=r" =
  "u" +:+ ":" +:+ "p" +:+ "@" +:+ "ab.snowflakecomputing.com" +:+ ":" +:+
  FormatInt 443 +:+
  match
    dsnPieces "Go"
      (mkConfig "ab" "u" "p" "" "" "" "r" "" None "https"
         "ab.snowflakecomputing.com" 443 "snowflake" "1 2" false 30000000000 0
         "Go" false)
  with
  | [] => ""
  | pieces => "?" +:+ String.concat "&" pieces
  end.
Proof.
  apply (DSN_text "Go"
           (mkConfig "ab" "u" "p" "" "" "" "r" "" None "" "" 0 "" "1 2" false
              30000000000 0 "" false)
           (mkConfig "ab" "u" "p" "" "" "" "r" "" None "https"
              "ab.snowflakecomputing.com" 443 "snowflake" "1 2" false
              30000000000 0 "Go" false)
           "u:p@ab.snowflakecomputing.com:443?loginTimeout=30&passcode=1+2&role=r").
  vm_compute. reflexivity.
Defined.

(** X11: [DSN] splits an account [account.region] at its first dot before
    anything else: the [Config] it leaves has the account without the region
    and the region taken from the account, whatever region it held before.
    An account without a dot, and the region with it, are left alone. *)
Theorem DSN_splits_account (clientType : string) (c : Config) :
  (forall account region : string,
     Account c = account +:+ "." +:+ region -> account <> "" ->
     lacks account "." = true ->
     Account (fst (DSN clientType c)) = account /\
     Region (fst (DSN clientType c)) = region) /\
  (lacks (Account c) "." = true ->
   Account (fst (DSN clientType c)) = Account c /\
   Region (fst (DSN clientType c)) = Region c).
Proof.
  assert (Account (fst (DSN clientType c)) = Account (beforeDefaulting c) /\
          Region (fst (DSN clientType c)) = Region (beforeDefaulting c))
    as [-> ->].
  { rewrite DSN_config.
    destruct (fill_config_cases clientType (beforeDefaulting c)) as [-> | ->];
      split; reflexivity. }
  destruct (beforeDefaulting_fields c) as (_ & _ & -> & ->).
  split.
  - intros account region E Hne Hl. rewrite E.
    change (account +:+ "." +:+ region) with (account +:+ String "." region).
    rewrite (Index_byte_first account region "." Hl).
    assert ((0 <? len account) = true) as ->.
    { apply Z.ltb_lt. unfold len. destruct account; [congruence|]. simpl. lia. }
    split; [now apply slice_prefix|].
    change (account +:+ String "." region) with (account +:+ "." +:+ region).
    rewrite <- app_assoc. apply sliceFrom_suffix.
    unfold len. rewrite length_app. simpl. lia.
  - intros Hl. now rewrite (Index_byte_lacks _ "." Hl).
Qed.

Lemma DSN_splits_account_witness :
  Account
    (fst (DSN "Go"
            (mkConfig ("xy12345" +:+ "." +:+ "eu-west-1") "u" "p" "" "" "" ""
               "other" None "" "" 0 "" "" false 0 0 "" false))) = "xy12345" /\
  Region
    (fst (DSN "Go"
            (mkConfig ("xy12345" +:+ "." +:+ "eu-west-1") "u" "p" "" "" "" ""
               "other" None "" "" 0 "" "" false 0 0 "" false))) = "eu-west-1".
Proof.
  apply (proj1 (DSN_splits_account "Go" _)); (reflexivity || discriminate).
Defined.

(** ** The decoder of the query string *)

(** X12: for each of the keys account, warehouse, database, schema, role,
    region, protocol, passcode, application and authenticator, a pair
    [key=raw] assigns the percent-decoded value to the field of that key and
    changes nothing else; so a value written with [url.QueryEscape] arrives
    as it was, whatever bytes it holds. *)
Theorem string_keys_assign_decoded_value :
  forall (key : string) (set : Config -> string -> Config),
    In (key, set) stringFields ->
    (forall (st : State) (raw value : string),
       QueryUnescape raw = inl value ->
       parseDSNParam st (key +:+ "=" +:+ raw) =
       (onCfg (fun cf => set cf value) st, None)) /\
    (forall (st : State) (value : string),
       parseDSNParams st (key +:+ "=" +:+ QueryEscape value) =
       (onCfg (fun cf => set cf value) st, None)).
Proof.
  intros key set Hin.
  assert (lacks key "=" = true /\ lacks key "&" = true /\
          forall st value,
            dispatchParam st key value =
            (onCfg (fun cf => set cf value) st, None)) as (Hk & Hka & Hd).
  { simpl in Hin.
    repeat (destruct Hin as [[= <- <-]|Hin]; [repeat split|]).
    contradiction. }
  split.
  - intros st raw value Hu. unfold parseDSNParam, SplitN2.
    change (key +:+ "=" +:+ raw) with (key +:+ String "=" raw).
    now rewrite cut_app, Hu.
  - intros st value. unfold parseDSNParams.
    rewrite Split_lacks.
    + cbn [parsePieces]. now rewrite parseDSNParam_escaped, Hd.
    + rewrite !lacks_app, Hka, QueryEscape_lacks by (reflexivity || discriminate).
      reflexivity.
Qed.

Lemma string_keys_assign_decoded_value_witness :
  parseDSNParams (mkState newConfig (mkProxy "" 0 "" ""))
    ("warehouse" +:+ "=" +:+ QueryEscape "load & go/100%") =
  (onCfg (fun cf => setWarehouse cf "load & go/100%")
     (mkState newConfig (mkProxy "" 0 "" "")), None).
Proof.
  apply (proj2 (string_keys_assign_decoded_value "warehouse" setWarehouse
                  ltac:(simpl; tauto))).
Defined.

(** X13: the proxy keys are assigned to the package variables and leave the
    [Config] as it is; every other piece of a query string leaves the
    package variables as they are. *)
Theorem proxy_keys_bypass_config :
  (forall (st st' : State) (key raw : string) (e : option Error),
     In key proxyKeys ->
     parseDSNParam st (key +:+ "=" +:+ raw) = (st', e) -> cfg st' = cfg st) /\
  (forall (st st' : State) (piece : string) (e : option Error),
     (forall key raw, In key proxyKeys -> piece <> key +:+ "=" +:+ raw) ->
     parseDSNParam st piece = (st', e) -> proxy st' = proxy st) /\
  (forall (st : State) (raw value : string),
     QueryUnescape raw = inl value ->
     parseDSNParam st ("proxyHost" +:+ "=" +:+ raw) =
     (mkState (cfg st)
        (mkProxy value (proxyPort (proxy st)) (proxyUser (proxy st))
           (proxyPassword (proxy st))), None)).
Proof.
  split; [|split].
  - intros st st' key raw e Hin. unfold parseDSNParam, SplitN2.
    change (key +:+ "=" +:+ raw) with (key +:+ String "=" raw).
    rewrite cut_app
      by (simpl in Hin; repeat (destruct Hin as [<-|Hin]; [reflexivity|]);
          contradiction).
    destruct (QueryUnescape raw) as [value|text]; [|now intros [= <- _]].
    simpl in Hin.
    repeat (destruct Hin as [<-|Hin];
            [unfold dispatchParam; simpl String.eqb; cbv iota;
             try (destruct (ParseInt value) as [n [k|]]);
             now intros [= <- _]|]).
    contradiction.
  - intros st st' piece e Hp. unfold parseDSNParam, SplitN2.
    destruct (cut "=" piece) as [[key raw]|] eqn:E; [|now intros [= <- _]].
    apply cut_Some in E as [-> _].
    destruct (QueryUnescape raw) as [value|text]; [|now intros [= <- _]].
    assert (~ In key proxyKeys) as Hk.
    { intros Hin. now apply (Hp key raw Hin). }
    unfold dispatchParam.
    repeat match goal with
      | |- context [if String.eqb key ?lit then _ else _] =>
          destruct (String.eqb_spec key lit) as [->|?]
      end;
      try (exfalso; apply Hk; simpl; tauto);
      try (intros [= <- _]; reflexivity);
      try (destruct (ParseBool value); intros [= <- _]; reflexivity);
      destruct (ParseInt value) as [num [kd|]]; intros [= <- _]; reflexivity.
  - intros st raw value Hu. unfold parseDSNParam, SplitN2.
    change ("proxyHost" +:+ "=" +:+ raw) with ("proxyHost" +:+ String "=" raw).
    rewrite cut_app by reflexivity. now rewrite Hu.
Qed.

Lemma proxy_keys_bypass_config_witness :
  cfg (fst (parseDSNParam (mkState newConfig (mkProxy "" 0 "" ""))
              ("proxyPort" +:+ "=" +:+ "3128"))) = newConfig /\
  proxy (fst (parseDSNParam (mkState newConfig (mkProxy "h" 1 "" ""))
                "role=analyst")) = mkProxy "h" 1 "" "".
Proof.
  destruct proxy_keys_bypass_config as (H1 & H2 & _). split.
  - apply (H1 (mkState newConfig (mkProxy "" 0 "" "")) _ "proxyPort" "3128" None);
      [simpl; tauto | vm_compute; reflexivity].
  - apply (H2 (mkState newConfig (mkProxy "h" 1 "" "")) _ "role=analyst" None);
      [|vm_compute; reflexivity].
    intros key raw Hin. simpl in Hin.
    repeat (destruct Hin as [<-|Hin]; [discriminate|]). contradiction.
Defined.

(** ** Invariants of the scans *)

Section ScanInvariant.

Variables (dsn : string) (I : State -> Prop).

Hypothesis Icred :
  forall st j, byteIs dsn j "@" = true -> I st -> I (withCredentials st dsn j).
Hypothesis Iassign :
  forall st r a h p,
    I st ->
    I (onCfg (fun cf => setPort (setHost (setAccount (setRegion cf r) a) h) p) st).
Hypothesis Iparam : forall st v, I st -> I (fst (parseDSNParam st v)).
Hypothesis Ipath :
  forall st d s, I st -> I (onCfg (fun cf => setSchema (setDatabase cf d) s) st).

Lemma scanSegment_inv st ss pss n :
  I st -> I (snd (fst (fst (scanSegment dsn st ss pss n)))).
Proof.
  revert ss pss; induction n as [|n IH]; intros ss pss HI; [exact HI|].
  simpl. destruct (byteIs dsn n "/"); [now apply IH|].
  destruct (byteIs dsn n "@") eqn:Hat; [|now apply IH].
  pose proof (Icred st n Hat HI) as H. unfold withCredentials in H.
  destruct (parseUserPassword n dsn) as [u p]. exact H.
Qed.

Lemma scanCredentials_inv st pq n :
  I st -> I (snd (fst (scanCredentials dsn st pq n))).
Proof.
  revert pq; induction n as [|n IH]; intros pq HI; [exact HI|].
  simpl. destruct (byteIs dsn n "@") eqn:Hat.
  - pose proof (Icred st n Hat HI) as H. unfold withCredentials in H.
    destruct (parseUserPassword n dsn) as [u p]. exact H.
  - destruct (byteIs dsn n "?"); now apply IH.
Qed.

Lemma parsePieces_inv st l : I st -> I (fst (parsePieces st l)).
Proof.
  revert st; induction l as [|v l IH]; intros st HI; [exact HI|].
  simpl. pose proof (Iparam st v HI) as H.
  destruct (parseDSNParam st v) as [st' [e|]]; [exact H | now apply IH].
Qed.

Lemma parseParams_inv st pos : I st -> I (fst (parseParams st pos dsn)).
Proof.
  intros HI. unfold parseParams.
  destruct (scanFor _ _ _ _) as [j [|]]; [now apply parsePieces_inv | exact HI].
Qed.

Lemma assign_inv st r : I st -> I (fst (assignAccountHostPort st r)).
Proof. destruct r as [[[[r a] h] p] e]. apply Iassign. Qed.

Lemma slashCase_inv st pq i : I st -> I (flowState (slashCase dsn st pq i)).
Proof.
  intros HI. unfold slashCase.
  destruct (0 <? i)%nat.
  - pose proof (scanSegment_inv st false (Z.of_nat i) i HI) as H1.
    destruct (scanSegment dsn st false (Z.of_nat i) i) as [[[j st1] ss] pss].
    simpl in H1.
    pose proof (assign_inv st1 (parseAccountHostPort j pss dsn) H1) as H2.
    destruct (assignAccountHostPort st1 _) as [st2 [e|]]; [exact H2|].
    simpl in H2.
    pose proof (parseParams_inv st2 (Z.of_nat i) H2) as H3.
    destruct (parseParams st2 _ dsn) as [st3 [e|]]; [exact H3|].
    destruct ss; simpl; now apply Ipath.
  - pose proof (parseParams_inv st (Z.of_nat i) HI) as H3.
    destruct (parseParams st _ dsn) as [st3 [e|]]; [exact H3|].
    simpl. now apply Ipath.
Qed.

Lemma scanDSN_inv st pq n : I st -> I (flowState (scanDSN dsn st pq n)).
Proof.
  revert pq; induction n as [|n IH]; intros pq HI; [exact HI|].
  simpl. destruct (byteIs dsn n "/"); [now apply slashCase_inv|].
  destruct (byteIs dsn n "?"); now apply IH.
Qed.

Lemma noSlashCase_inv st pq : I st -> I (flowState (noSlashCase dsn st pq)).
Proof.
  intros HI. unfold noSlashCase.
  pose proof (scanCredentials_inv st pq (String.length dsn) HI) as H1.
  destruct (scanCredentials dsn st pq _) as [[j st1] pq1]. simpl in H1.
  pose proof (assign_inv st1 (parseAccountHostPort j pq1 dsn) H1) as H2.
  destruct (assignAccountHostPort st1 _) as [st2 [e|]]; [exact H2|].
  pose proof (parseParams_inv st2 (pq1 - 1) H2) as H3.
  destruct (parseParams st2 _ dsn) as [st3 [e|]]; exact H3.
Qed.

Lemma parseSegments_inv px :
  I (mkState newConfig px) -> I (flowState (parseSegments px dsn)).
Proof.
  intros HI. unfold parseSegments.
  pose proof (scanDSN_inv (mkState newConfig px) (len dsn) (String.length dsn) HI)
    as H.
  destruct (scanDSN dsn _ _ _) as [st ret err|st [|] pq]; try exact H.
  now apply noSlashCase_inv.
Qed.

End ScanInvariant.

Section Results.

Variable clientType : string.

(** A [Config] that [ParseDSN] returns is the one the scans left, when they
    returned it with their error, or that one after the account has been
    derived, the defaults filled in and four fields decoded again. *)
Lemma ParseDSN_result px dsn cf :
  result (ParseDSN clientType px dsn) = Some cf ->
  cf = cfg (flowState (parseSegments px dsn)) \/
  exists d s r w,
    cf = setWarehouse
           (setRole
              (setSchema
                 (setDatabase
                    (defaulted clientType
                       (deriveAccount (cfg (flowState (parseSegments px dsn)))))
                    d) s) r) w.
Proof.
  unfold ParseDSN.
  assert (forall st ret err,
            parseSegments px dsn = Returned st ret err ->
            ret = None \/ ret = Some (cfg st)) as Hret.
  { unfold parseSegments. intros st ret err.
    assert (forall st0 pq n f,
              scanDSN dsn st0 pq n = f ->
              match f with
              | Returned st1 ret1 _ => ret1 = Some (cfg st1)
              | Running _ _ _ => True
              end) as Hscan.
    { intros st0 pq n. revert pq. induction n as [|n IH]; intros pq f <-; [exact I|].
      simpl. destruct (byteIs dsn n "/").
      - unfold slashCase.
        destruct (if (0 <? n)%nat then _ else _) as [[[st1 ss] pss] [e|]];
          [reflexivity|].
        destruct (parseParams st1 _ dsn) as [st2 [e|]]; [reflexivity | exact I].
      - destruct (byteIs dsn n "?"); [apply (IH (Z.of_nat n)) | apply (IH pq)];
          reflexivity. }
    specialize (Hscan (mkState newConfig px) (len dsn) (String.length dsn) _ eq_refl).
    destruct (scanDSN dsn _ _ _) as [st1 ret1 err1|st1 [|] pq].
    - intros [= <- <- <-]. now right.
    - discriminate.
    - unfold noSlashCase.
      destruct (scanCredentials dsn st1 pq _) as [[j st2] pq2].
      destruct (assignAccountHostPort st2 _) as [st3 [e|]];
        [intros [= <- <- <-]; now left|].
      destruct (parseParams st3 _ dsn) as [st4 [e|]]; [|discriminate].
      intros [= <- <- <-]. now right. }
  destruct (parseSegments px dsn) as [st ret err|st b pq] eqn:E.
  - simpl. intros ->. destruct (Hret _ _ _ eq_refl) as [H|H]; [discriminate|].
    injection H as <-. now left.
  - simpl flowState.
    destruct (fillMissingConfigParameters _ _) as [c1 [e|]] eqn:Ef; [discriminate|].
    apply fill_ok in Ef as [-> _].
    destruct (unescapeFields _) as [c2 [e|]] eqn:Eu; [discriminate|].
    apply unescapeFields_ok in Eu as (d & s & r & w & _ & _ & _ & _ & ->).
    intros [= <-]. right. now exists d, s, r, w.
Qed.

End Results.

Section DecoderFrame.

Lemma sameTarget_refl c : sameTarget c c.
Proof. repeat split. tauto. Qed.

Lemma sameTarget_trans c1 c2 c3 :
  sameTarget c1 c2 -> sameTarget c2 c3 -> sameTarget c1 c3.
Proof.
  intros (A1 & A2 & A3 & A4 & A5 & A6) (B1 & B2 & B3 & B4 & B5 & B6).
  repeat split; try congruence. tauto.
Qed.

Lemma dispatchParam_frame st key value :
  sameTarget (cfg st) (cfg (fst (dispatchParam st key value))).
Proof.
  unfold dispatchParam.
  repeat match goal with
    | |- context [if String.eqb ?k ?lit then _ else _] =>
        destruct (String.eqb k lit)
    end;
    try (destruct (ParseBool value));
    try (destruct (ParseInt value) as [num [kd|]]);
    repeat split; try tauto; discriminate.
Qed.

Lemma parseDSNParam_frame st v :
  sameTarget (cfg st) (cfg (fst (parseDSNParam st v))).
Proof.
  unfold parseDSNParam.
  destruct (SplitN2 v "=") as [|k [|raw [|]]]; try apply sameTarget_refl.
  destruct (QueryUnescape raw); [apply dispatchParam_frame | apply sameTarget_refl].
Qed.

Lemma parsePieces_frame st l :
  sameTarget (cfg st) (cfg (fst (parsePieces st l))).
Proof.
  revert st; induction l as [|v l IH]; intros st; [apply sameTarget_refl|].
  simpl. pose proof (parseDSNParam_frame st v) as H.
  destruct (parseDSNParam st v) as [st' [e|]]; [exact H|].
  exact (sameTarget_trans _ _ _ H (IH st')).
Qed.

End DecoderFrame.

(** X14: the decoder of the query string has no key for the user, the
    password, the host, the port or the request timeout: whatever the query
    string holds, and whether decoding fails or not, these five fields are
    after the call what they were before, and an extension mapping that
    was there is still there. *)
Theorem query_cannot_set_target (st : State) (query : string) :
  sameTarget (cfg st) (cfg (fst (parseDSNParams st query))).
Proof. apply parsePieces_frame. Qed.

(** X15: [ParseDSN] has no way to set the request timeout, although [DSN]
    writes it: every [Config] it returns, with or without an error, has
    [RequestTimeout] 0 and an extension mapping that is not [nil]. *)
Theorem ParseDSN_never_sets_request_timeout
    (clientType : string) (px : Proxy) (dsn : string) (cf : Config) :
  result (ParseDSN clientType px dsn) = Some cf ->
  RequestTimeout cf = 0 /\ Params cf <> None.
Proof.
  intros H.
  assert ((fun st => RequestTimeout (cfg st) = 0 /\ Params (cfg st) <> None)
            (flowState (parseSegments px dsn))) as [H1 H2].
  { apply parseSegments_inv.
    - intros st j _ HI. exact HI.
    - intros st r a h p HI. exact HI.
    - intros st v [HI1 HI2].
      destruct (parseDSNParam_frame st v) as (_ & _ & _ & _ & Hr & Hp).
      split; [congruence | now apply Hp].
    - intros st d s HI. exact HI.
    - split; [reflexivity | discriminate]. }
  apply ParseDSN_result in H as [->|(d & s & r & w & ->)]; [now split|].
  fields.
  destruct (deriveAccount_cases (cfg (flowState (parseSegments px dsn))))
    as [->|[a ->]]; now split.
Qed.

Lemma ParseDSN_never_sets_request_timeout_witness :
  RequestTimeout
    (defaulted "Go"
       (mkConfig "acc" "u" "p" "" "" "" "" "" (Some {[ "requestTimeout" := "30" ]})
          "" "acc.snowflakecomputing.com" 443 "" "" false 0 0 "" false)) = 0 /\
  Params
    (defaulted "Go"
       (mkConfig "acc" "u" "p" "" "" "" "" "" (Some {[ "requestTimeout" := "30" ]})
          "" "acc.snowflakecomputing.com" 443 "" "" false 0 0 "" false)) <> None.
Proof.
  apply (ParseDSN_never_sets_request_timeout "Go" (mkProxy "" 0 "" "")
           "u:p@acc?requestTimeout=30").
  vm_compute. reflexivity.
Defined.

(** ** What a successful parse went through *)

Section Success.

Variable clientType : string.

(** A successful [ParseDSN] went through all the scans, and its four decoded
    fields are the decoded ones of the [Config] that the scans left; the
    other fields are those of that [Config] with its account derived and
    the defaults filled in. *)
Lemma ParseDSN_ok px dsn cf px' :
  ParseDSN clientType px dsn = mkParsed (Some cf) None px' ->
  exists st b pq,
    parseSegments px dsn = Running st b pq /\ px' = proxy st /\
    QueryUnescape (Database (cfg st)) = inl (Database cf) /\
    QueryUnescape (Schema (cfg st)) = inl (Schema cf) /\
    QueryUnescape (Role (cfg st)) = inl (Role cf) /\
    QueryUnescape (Warehouse (cfg st)) = inl (Warehouse cf) /\
    cf = setWarehouse
           (setRole
              (setSchema
                 (setDatabase (defaulted clientType (deriveAccount (cfg st)))
                    (Database cf)) (Schema cf)) (Role cf)) (Warehouse cf).
Proof.
  unfold ParseDSN.
  destruct (parseSegments px dsn) as [st ret err|st b pq]; [discriminate|].
  destruct (fillMissingConfigParameters _ _) as [c1 [e|]] eqn:Ef; [discriminate|].
  apply fill_ok in Ef as [-> _].
  destruct (unescapeFields _) as [c2 [e|]] eqn:Eu; [discriminate|].
  apply unescapeFields_ok in Eu as (d & s & r & w & Hd & Hs & Hr & Hw & ->).
  intros [= <- <-]. exists st, b, pq.
  assert (forall c, Database (deriveAccount c) = Database c /\
                    Schema (deriveAccount c) = Schema c /\
                    Role (deriveAccount c) = Role c /\
                    Warehouse (deriveAccount c) = Warehouse c) as Hda.
  { intros c. destruct (deriveAccount_cases c) as [->|[a ->]]; repeat split. }
  destruct (Hda (cfg st)) as (E1 & E2 & E3 & E4).
  unfold defaulted in Hd, Hs, Hr, Hw. fields.
  rewrite E1 in Hd. rewrite E2 in Hs. rewrite E3 in Hr. rewrite E4 in Hw.
  repeat split; assumption.
Qed.

End Success.

(** X16: the user is read only from the text before an ['@']: a DSN without
    ['@'] is never accepted, whatever else it holds. *)
Theorem no_at_sign_fails (clientType : string) (px : Proxy) (dsn : string) :
  lacks dsn "@" = true ->
  exists e, failure (ParseDSN clientType px dsn) = Some e.
Proof.
  intros Hat.
  assert ((fun st => User (cfg st) = "") (flowState (parseSegments px dsn))) as H.
  { apply parseSegments_inv.
    - intros st j Hj _. now rewrite byteIs_lacks in Hj.
    - intros st r a h p HI. exact HI.
    - intros st v HI.
      destruct (parseDSNParam_frame st v) as (Hu & _). congruence.
    - intros st d s HI. exact HI.
    - reflexivity. }
  unfold ParseDSN.
  destruct (parseSegments px dsn) as [st ret err|st b pq]; [eauto|].
  simpl in H.
  destruct (fillMissingConfigParameters _ _) as [c1 [e|]] eqn:Ef; [eauto|].
  apply fill_ok in Ef as (_ & _ & Hu & _).
  assert (User (deriveAccount (cfg st)) = "") as E.
  { destruct (deriveAccount_cases (cfg st)) as [->|[a ->]]; exact H. }
  rewrite E in Hu. discriminate.
Qed.

Lemma no_at_sign_fails_witness :
  exists e,
    failure (ParseDSN "Go" (mkProxy "" 0 "" "") "acc/db/sch?user=u&password=p") =
    Some e.
Proof.
  apply (no_at_sign_fails "Go" (mkProxy "" 0 "" "") "acc/db/sch?user=u&password=p").
  reflexivity.
Defined.

(** X17: the value of every pair is percent-decoded before its key is looked
    at.  A value that does not decode stops the decoder with the escape
    error, whatever the key; the pairs before it stay assigned and the
    pieces after it are not read.  Decoding fails at a ['%'] that is not
    followed by two hex digits, and at nothing else. *)
Theorem bad_escape_aborts :
  (forall (st : State) (q key raw rest text : string),
     lacks key "=" = true -> lacks key "&" = true -> lacks raw "&" = true ->
     QueryUnescape raw = inr text ->
     snd (parseDSNParams st q) = None ->
     parseDSNParams st (q +:+ "&" +:+ key +:+ "=" +:+ raw +:+ "&" +:+ rest) =
     (fst (parseDSNParams st q), Some (EscapeError text))) /\
  (forall (a b : string),
     lacks a "%" = true -> startsWithHexPair b = false ->
     QueryUnescape (a +:+ "%" +:+ b) = inr (String.substring 0 3 ("%" +:+ b))) /\
  (forall (raw text : string),
     QueryUnescape raw = inr text -> lacks raw "%" = false).
Proof.
  split; [|split].
  - intros st q key raw rest text Hk Hka Hr Hu Hq.
    change (q +:+ "&" +:+ key +:+ "=" +:+ raw +:+ "&" +:+ rest)
      with (q +:+ String "&" (key +:+ String "=" (raw +:+ String "&" rest))).
    rewrite parseDSNParams_app.
    destruct (parseDSNParams st q) as [st1 [e|]]; [discriminate|]. simpl fst.
    replace (key +:+ String "=" (raw +:+ String "&" rest))
      with ((key +:+ String "=" raw) +:+ String "&" rest)
      by (now rewrite app_assoc, app_cons).
    rewrite parseDSNParams_app.
    assert (parseDSNParams st1 (key +:+ String "=" raw) =
            (st1, Some (EscapeError text))) as ->; [|reflexivity].
    unfold parseDSNParams. rewrite Split_lacks.
    + cbn [parsePieces]. unfold parseDSNParam, SplitN2.
      now rewrite cut_app, Hu.
    + rewrite lacks_app, Hka. cbn [lacks]. now rewrite Hr.
  - intros a b Ha Hb. induction a as [|x a IH].
    + rewrite app_nil_l. change ("%" +:+ b) with (String "%" b).
      cbn [QueryUnescape]. rewrite Ascii.eqb_refl.
      destruct b as [|h1 [|h2 b]]; try reflexivity.
      cbn [startsWithHexPair] in Hb. now rewrite Hb.
    + rewrite app_cons. cbn [lacks] in Ha.
      apply andb_true_iff in Ha as [Hx Ha]. apply negb_true_iff in Hx.
      cbn [QueryUnescape]. rewrite Hx. fold QueryUnescape.
      change (a +:+ "%" +:+ b) with (a +:+ String "%" b) in *.
      now rewrite (IH Ha).
  - intros raw text Hu.
    destruct (lacks raw "%") eqn:E; [|reflexivity].
    assert (forall s, lacks s "%" = true -> exists r, QueryUnescape s = inl r) as Hp.
    { clear. induction s as [|x s IH]; intros H; [now exists ""|].
      cbn [lacks] in H. apply andb_true_iff in H as [Hx Hs].
      apply negb_true_iff in Hx. destruct (IH Hs) as [r Hr].
      cbn [QueryUnescape]. rewrite Hx, Hr. eauto. }
    destruct (Hp raw E) as [r Hr]. congruence.
Qed.

Lemma bad_escape_aborts_witness :
  parseDSNParams (mkState newConfig (mkProxy "" 0 "" ""))
    ("role=r" +:+ "&" +:+ "note" +:+ "=" +:+ "100%" +:+ "&" +:+ "warehouse=wh") =
  (fst (parseDSNParams (mkState newConfig (mkProxy "" 0 "" "")) "role=r"),
   Some (EscapeError "%")) /\
  QueryUnescape ("a+b" +:+ "%" +:+ "4z") = inr (String.substring 0 3 ("%" +:+ "4z")).
Proof.
  destruct bad_escape_aborts as (H1 & H2 & _). split.
  - apply H1; reflexivity.
  - apply H2; reflexivity.
Defined.

(** X18: role and warehouse are decoded twice, once by the decoder of the
    query string and once more by the final pass of [ParseDSN], while region
    and passcode are decoded once: in a DSN that is accepted and whose
    query string ends in a pair for one of these keys, the field holds the
    value of the pair decoded twice, respectively once. *)
Theorem role_and_warehouse_decoded_twice
    (clientType : string) (px px' : Proxy) (head q key raw : string)
    (get : Config -> string) (cf : Config) :
  lacks head "?" = true ->
  lacks q "/" = true -> lacks q "@" = true -> lacks q "?" = true ->
  lacks raw "/" = true -> lacks raw "@" = true -> lacks raw "?" = true ->
  lacks raw "&" = true ->
  ParseDSN clientType px (head +:+ "?" +:+ q +:+ "&" +:+ key +:+ "=" +:+ raw) =
  mkParsed (Some cf) None px' ->
  (In (key, get) twiceDecoded ->
   exists once, QueryUnescape raw = inl once /\ QueryUnescape once = inl (get cf)) /\
  (In (key, get) onceDecoded -> QueryUnescape raw = inl (get cf)).
Proof.
  intros Hh Hq1 Hq2 Hq3 Hr1 Hr2 Hr3 Hr4 Hok.
  assert (In (key, get) (twiceDecoded ++ onceDecoded) ->
          lacks key "=" = true /\ lacks key "&" = true /\ lacks key "/" = true /\
          lacks key "@" = true /\ lacks key "?" = true /\
          forall st value, exists st',
            dispatchParam st key value = (st', None) /\
            get (cfg st') = value /\
            (forall d s, get (setSchema (setDatabase (cfg st') d) s) = value))
    as Hkey.
  { simpl. intros Hin.
    repeat (destruct Hin as [[= <- <-]|Hin];
            [repeat split; intros st value; eexists; repeat split|]).
    contradiction. }
  assert (In (key, get) (twiceDecoded ++ onceDecoded) ->
          exists st once,
            QueryUnescape raw = inl once /\ get (cfg st) = once /\
            get cf = get (setWarehouse (setRole (cfg st) (Role cf)) (Warehouse cf)) /\
            QueryUnescape (Role (cfg st)) = inl (Role cf) /\
            QueryUnescape (Warehouse (cfg st)) = inl (Warehouse cf)) as Hmain.
  { intros Hin. destruct (Hkey Hin) as (K1 & K2 & K3 & K4 & K5 & Hd).
    set (query := q +:+ String "&" (key +:+ String "=" raw)).
    assert (forall c : ascii, lacks q c = true -> lacks key c = true ->
                              lacks raw c = true -> Ascii.eqb "&" c = false ->
                              Ascii.eqb "=" c = false -> lacks query c = true)
      as Hl.
    { intros c A B C D E. unfold query.
      change (String "&" (key +:+ String "=" raw))
        with ("&" +:+ (key +:+ String "=" raw)).
      change (String "=" raw) with ("=" +:+ raw).
      rewrite !lacks_app, A, B, C. cbn [lacks]. now rewrite D, E. }
    change (head +:+ "?" +:+ q +:+ "&" +:+ key +:+ "=" +:+ raw)
      with (head +:+ String "?" query) in Hok.
    apply ParseDSN_ok in Hok
      as (st & b & pq & E & _ & _ & _ & Hrole & Hwh & Hcf).
    destruct (parseSegments_query px head query Hh)
      as [(st1 & ret & text & E1 & _)|(st0 & fin & found & _ & _ & Hfin & E1)];
      try (apply Hl; (assumption || reflexivity));
      rewrite E1 in E; [discriminate|].
    unfold query in E. rewrite parseDSNParams_app in E.
    destruct (parseDSNParams st0 q) as [st1 [e|]]; [discriminate|].
    unfold parseDSNParams in E. rewrite Split_lacks in E
      by (change (String "=" raw) with ("=" +:+ raw);
          rewrite !lacks_app, K2, Hr4; reflexivity).
    cbn [parsePieces] in E. unfold parseDSNParam, SplitN2 in E.
    rewrite cut_app in E by exact K1.
    destruct (QueryUnescape raw) as [once|text] eqn:Eu; [|discriminate].
    destruct (Hd st1 once) as (st2 & E2 & G1 & G2). rewrite E2 in E.
    injection E as <- _ _.
    assert (get (cfg (fin st2)) = once /\ Role (cfg (fin st2)) = Role (cfg st2) /\
            Warehouse (cfg (fin st2)) = Warehouse (cfg st2)) as (F1 & F2 & F3).
    { destruct Hfin as [->|(d & s & ->)]; [now repeat split|].
      repeat split. apply G2. }
    exists (fin st2), once. repeat split; try assumption.
    rewrite Hcf at 1.
    assert (forall c : Config,
              get (setWarehouse
                     (setRole
                        (setSchema (setDatabase (defaulted clientType (deriveAccount c))
                                      (Database cf)) (Schema cf)) (Role cf))
                     (Warehouse cf)) =
              get (setWarehouse (setRole c (Role cf)) (Warehouse cf))) as Hg.
    { intros c. simpl in Hin.
      destruct (deriveAccount_cases c) as [->|[a ->]];
        repeat (destruct Hin as [[= <- <-]|Hin]; [reflexivity|]);
        contradiction. }
    apply Hg. }
  split.
  - intros Hin.
    destruct Hmain as (st & once & Eu & G & Hcf & Hrole & Hwh);
      [apply in_or_app; now left|].
    exists once. split; [exact Eu|].
    simpl in Hin. destruct Hin as [[= <- <-]|[[= <- <-]|[]]]; congruence.
  - intros Hin.
    destruct Hmain as (st & once & Eu & G & Hcf & Hrole & Hwh);
      [apply in_or_app; now right|].
    f_equal. rewrite Hcf.
    simpl in Hin. destruct Hin as [[= <- <-]|[[= <- <-]|[]]]; fields; congruence.
Qed.

Lemma role_and_warehouse_decoded_twice_witness :
  (exists once,
     QueryUnescape "a%2Bb" = inl once /\ QueryUnescape once = inl "a b") /\
  QueryUnescape "a%2Bb" = inl "a+b".
Proof.
  assert (ParseDSN "Go" (mkProxy "" 0 "" "")
            ("u:p@acc/db" +:+ "?" +:+ "region=a%2Bb" +:+ "&" +:+ "warehouse" +:+
             "=" +:+ "a%2Bb") =
          mkParsed
            (Some
               (mkConfig "acc" "u" "p" "db" "public" "a b" "" "a+b" (Some ∅) "https"
                  "acc.a+b.snowflakecomputing.com" 443 "snowflake" "" false
                  defaultLoginTimeout 0 "Go" false))
            None (mkProxy "" 0 "" "")) as E1 by (vm_compute; reflexivity).
  assert (ParseDSN "Go" (mkProxy "" 0 "" "")
            ("u:p@acc/db" +:+ "?" +:+ "warehouse=w" +:+ "&" +:+ "region" +:+
             "=" +:+ "a%2Bb") =
          mkParsed
            (Some
               (mkConfig "acc" "u" "p" "db" "public" "w" "" "a+b" (Some ∅) "https"
                  "acc.a+b.snowflakecomputing.com" 443 "snowflake" "" false
                  defaultLoginTimeout 0 "Go" false))
            None (mkProxy "" 0 "" "")) as E2 by (vm_compute; reflexivity).
  split.
  - apply (proj1 (role_and_warehouse_decoded_twice "Go" _ _ "u:p@acc/db"
                    "region=a%2Bb" "warehouse" "a%2Bb" Warehouse _
                    eq_refl eq_refl eq_refl eq_refl eq_refl eq_refl eq_refl
                    eq_refl E1)).
    simpl. tauto.
  - apply (proj2 (role_and_warehouse_decoded_twice "Go" _ _ "u:p@acc/db"
                    "warehouse=w" "region" "a%2Bb" Region _
                    eq_refl eq_refl eq_refl eq_refl eq_refl eq_refl eq_refl
                    eq_refl E2)).
    simpl. tauto.
Defined.

(** ** DSNs with a path *)

Section Paths.

Implicit Types (a s p dsn head creds seg db rest : string) (c x : ascii)
  (i j k m n : nat) (qs : option string).

Lemma scanSegment_skip dsn st ss pss n m :
  (forall q, (n <= q < n + m)%nat ->
             byteIs dsn q "/" = false /\ byteIs dsn q "@" = false) ->
  scanSegment dsn st ss pss (n + m) = scanSegment dsn st ss pss n.
Proof.
  induction m as [|m IH]; intros H.
  - now rewrite Nat.add_0_r.
  - replace (n + S m)%nat with (S (n + m)) by lia. simpl.
    destruct (H (n + m)%nat) as [-> ->]; [lia|].
    apply IH. intros q Hq. apply H. lia.
Qed.

Lemma byteIs_mid a (b : string) s k c :
  lacks b c = true -> (String.length a <= k < String.length a + String.length b)%nat ->
  byteIs (a +:+ b +:+ s) k c = false.
Proof.
  intros Hb Hk.
  replace k with (String.length a + (k - String.length a))%nat by lia.
  rewrite byteIs_app_r. apply byteIs_prefix_lacks; [exact Hb | lia].
Qed.

Lemma length_pathText head p qs :
  String.length (pathText head p qs) =
  (String.length head + 1 + String.length p +
   match qs with Some q => 1 + String.length q | None => 0 end)%nat.
Proof.
  unfold pathText. rewrite length_app. cbn [String.length].
  rewrite length_app. destruct qs; simpl; lia.
Qed.

(** The bytes of a path text: the slash after [head], no slash after it, and
    the first ['?'] right after [p], if there is a query string. *)
Lemma pathText_bytes head p qs :
  lacks p "/" = true -> lacks p "?" = true -> queryLacks qs ["/"]%char = true ->
  let dsn := pathText head p qs in
  (forall c, byteIs dsn (String.length head) c = Ascii.eqb "/" c) /\
  (forall k, (String.length head < k)%nat -> byteIs dsn k "/" = false) /\
  (forall k, (String.length head < k < String.length head + 1 + String.length p)%nat ->
             byteIs dsn k "?" = false) /\
  (forall q c, qs = Some q ->
     byteIs dsn (String.length head + 1 + String.length p) c = Ascii.eqb "?" c) /\
  (forall k, qs = None -> (String.length head < k)%nat -> byteIs dsn k "?" = false).
Proof.
  intros Hp1 Hp2 Hq dsn. unfold dsn, pathText.
  assert (forall t, head +:+ String "/" t = (head +:+ "/") +:+ t) as Ea.
  { intros t. now rewrite app_assoc. }
  assert (String.length (head +:+ "/") = String.length head + 1)%nat as La.
  { rewrite length_app. reflexivity. }
  split; [|split; [|split; [|split]]].
  - intros c. apply byteIs_at.
  - intros k Hk. rewrite Ea. apply byteIs_suffix_lacks; [|lia].
    rewrite lacks_app, Hp1. destruct qs as [q|]; [|reflexivity].
    cbn [queryLacks lacksAll forallb] in Hq. rewrite andb_true_r in Hq.
    cbn [queryTail lacks]. now rewrite Hq.
  - intros k Hk. rewrite Ea. apply byteIs_mid; [exact Hp2 | lia].
  - intros q c ->. cbn [queryTail].
    replace (head +:+ String "/" (p +:+ String "?" q))
      with ((head +:+ String "/" p) +:+ String "?" q)
      by (now rewrite app_assoc, app_cons).
    replace (String.length head + 1 + String.length p)%nat
      with (String.length (head +:+ String "/" p))
      by (rewrite length_app; simpl; lia).
    apply byteIs_at.
  - intros k -> Hk. cbn [queryTail]. rewrite app_nil_r, Ea.
    apply byteIs_suffix_lacks; [exact Hp2 | lia].
Qed.

(** The outer scan of a path text stops at the slash after [head], with
    [posQuestion] right after [p]. *)
Lemma scanDSN_path head p qs st :
  lacks p "/" = true -> lacks p "?" = true ->
  queryLacks qs ["/"; "?"]%char = true ->
  let dsn := pathText head p qs in
  scanDSN dsn st (len dsn) (String.length dsn) =
  slashCase dsn st (Z.of_nat (String.length head + 1 + String.length p))
    (String.length head).
Proof.
  intros Hp1 Hp2 Hq dsn.
  assert (queryLacks qs ["/"]%char = true) as Hq1.
  { destruct qs as [q|]; [|reflexivity]. cbn [queryLacks lacksAll forallb] in *.
    apply andb_true_iff in Hq as [-> _]. reflexivity. }
  destruct (pathText_bytes head p qs Hp1 Hp2 Hq1) as (Hat & Hs & Hpq & HQ & Hn).
  fold dsn in Hat, Hs, Hpq, HQ, Hn.
  set (P := String.length head) in *. set (Q := (P + 1 + String.length p)%nat) in *.
  assert (scanDSN dsn st (Z.of_nat Q) Q = slashCase dsn st (Z.of_nat Q) P) as Hlow.
  { replace Q with (S P + String.length p)%nat at 2 by lia.
    rewrite scanDSN_skip by (intros k Hk; split; [apply Hs | apply Hpq]; lia).
    simpl. now rewrite Hat. }
  pose proof (length_pathText head p qs) as Hlen. fold dsn P Q in Hlen.
  unfold len. rewrite Hlen. destruct qs as [q|].
  - assert (forall k, (Q < k)%nat -> byteIs dsn k "?" = false) as Hqq.
    { intros k Hk. unfold dsn, pathText. cbn [queryTail].
      replace (head +:+ String "/" (p +:+ String "?" q))
        with ((head +:+ String "/" (p +:+ "?")) +:+ q)
        by (now rewrite app_assoc, app_cons, app_assoc).
      apply byteIs_suffix_lacks.
      - cbn [queryLacks lacksAll forallb] in Hq.
        apply andb_true_iff in Hq as [_ Hq]. now rewrite andb_true_r in Hq.
      - rewrite length_app. cbn [String.length]. rewrite length_app. simpl.
        unfold Q, P in Hk. lia. }
    replace (Q + (1 + String.length q))%nat with (S Q + String.length q)%nat by lia.
    rewrite scanDSN_skip by (intros k Hk; split; [apply Hs | apply Hqq]; lia).
    simpl. rewrite Hs by lia. rewrite (HQ q "?"%char eq_refl). exact Hlow.
  - rewrite Nat.add_0_r. exact Hlow.
Qed.

(** [parseParams] started at the slash of a path text decodes the query
    string, if there is one. *)
Lemma parseParams_path head p qs st :
  lacks p "/" = true -> lacks p "?" = true -> queryLacks qs ["/"]%char = true ->
  parseParams st (len head) (pathText head p qs) =
  match qs with
  | Some q => parseDSNParams st q
  | None => (st, None)
  end.
Proof.
  intros Hp1 Hp2 Hq.
  destruct (pathText_bytes head p qs Hp1 Hp2 Hq) as (Hat & Hs & Hpq & HQ & Hn).
  pose proof (length_pathText head p qs) as Hlen.
  unfold parseParams, len.
  replace (Z.to_nat (Z.of_nat (String.length head) + 1))
    with (String.length head + 1)%nat by lia.
  destruct qs as [q|].
  - rewrite (scanFor_first "?" _ _ _ (String.length head + 1 + String.length p)).
    + f_equal. unfold pathText. cbn [queryTail].
      replace (head +:+ String "/" (p +:+ String "?" q))
        with ((head +:+ String "/" (p +:+ "?")) +:+ q)
        by (now rewrite app_assoc, app_cons, app_assoc).
      apply sliceFrom_suffix. unfold len. rewrite length_app. cbn [String.length].
      rewrite length_app. simpl. lia.
    + rewrite Hlen. lia.
    + now rewrite (HQ q "?"%char eq_refl).
    + intros k Hk. apply Hpq. lia.
  - rewrite scanFor_none; [reflexivity|]. intros k Hk. apply Hn; [reflexivity | lia].
Qed.

(** The inner scan over the account segment stops at the ['@'] before it. *)
Lemma scanSegment_seg creds seg rest st ss pss :
  lacks seg "/" = true -> lacks seg "@" = true ->
  let dsn := creds +:+ String "@" (seg +:+ rest) in
  scanSegment dsn st ss pss (String.length creds + 1 + String.length seg) =
  (Z.of_nat (String.length creds), withCredentials st dsn (String.length creds),
   ss, pss).
Proof.
  intros H1 H2 dsn.
  assert (dsn = (creds +:+ "@") +:+ seg +:+ rest) as E.
  { unfold dsn. now rewrite app_assoc. }
  replace (String.length creds + 1 + String.length seg)%nat
    with (S (String.length creds) + String.length seg)%nat by lia.
  rewrite scanSegment_skip.
  - assert (forall c, byteIs dsn (String.length creds) c = Ascii.eqb "@" c) as Hat
      by (intros c; apply byteIs_at).
    simpl. rewrite !Hat. simpl Ascii.eqb. cbv iota. unfold withCredentials.
    now destruct (parseUserPassword (String.length creds) dsn).
  - intros k Hk. rewrite E.
    split; (apply byteIs_mid; [assumption | rewrite length_app; simpl; lia]).
Qed.

(** The inner scan over the database part of a path with two slashes notes
    the slash before it. *)
Lemma scanSegment_db head db rest st ss pss :
  lacks db "/" = true -> lacks db "@" = true ->
  let dsn := head +:+ String "/" (db +:+ rest) in
  scanSegment dsn st ss pss (String.length head + 1 + String.length db) =
  scanSegment dsn st true (Z.of_nat (String.length head)) (String.length head).
Proof.
  intros H1 H2 dsn.
  assert (dsn = (head +:+ "/") +:+ db +:+ rest) as E.
  { unfold dsn. now rewrite app_assoc. }
  replace (String.length head + 1 + String.length db)%nat
    with (S (String.length head) + String.length db)%nat by lia.
  rewrite scanSegment_skip.
  - assert (forall c, byteIs dsn (String.length head) c = Ascii.eqb "/" c) as Hat
      by (intros c; apply byteIs_at).
    simpl. now rewrite Hat.
  - intros k Hk. rewrite E.
    split; (apply byteIs_mid; [assumption | rewrite length_app; simpl; lia]).
Qed.

(** What the scans leave as database and schema, for a path of one part and
    for a path of two. *)
Lemma parseSegments_one_part px creds seg db qs st b pq :
  lacks seg "/" = true -> lacks seg "@" = true ->
  lacks db "/" = true -> lacks db "?" = true ->
  queryLacks qs ["/"; "?"]%char = true ->
  parseSegments px (pathText (creds +:+ String "@" seg) db qs) = Running st b pq ->
  Database (cfg st) = db /\ Schema (cfg st) = "public".
Proof.
  intros Hs1 Hs2 Hd1 Hd2 Hq.
  assert (queryLacks qs ["/"]%char = true) as Hq1.
  { destruct qs as [q|]; [|reflexivity]. cbn [queryLacks lacksAll forallb] in *.
    apply andb_true_iff in Hq as [-> _]. reflexivity. }
  set (head := creds +:+ String "@" seg).
  assert (String.length head = String.length creds + 1 + String.length seg)%nat
    as Lh by (unfold head; rewrite length_app; simpl; lia).
  unfold parseSegments. rewrite scanDSN_path by assumption.
  set (dsn := pathText head db qs).
  assert (dsn = creds +:+ String "@" (seg +:+ String "/" (db +:+ queryTail qs)))
    as E by (unfold dsn, pathText, head; now rewrite app_assoc, app_cons).
  assert (forall st1 ss pss,
            scanSegment dsn st1 ss pss (String.length head) =
            (Z.of_nat (String.length creds),
             withCredentials st1 dsn (String.length creds), ss, pss)) as Hss.
  { intros st1 ss pss. rewrite Lh, E. now apply scanSegment_seg. }
  unfold slashCase.
  assert ((0 <? String.length head)%nat = true) as -> by (apply Nat.ltb_lt; lia).
  rewrite Hss.
  destruct (parseAccountHostPort _ _ dsn) as [[[[r a] h] p] [e|]];
    unfold assignAccountHostPort; cbv beta iota zeta; [discriminate|].
  assert (forall st1,
            parseParams st1 (Z.of_nat (String.length head)) dsn =
            match qs with
            | Some q => parseDSNParams st1 q
            | None => (st1, None)
            end) as Hpp by (intros st1; apply parseParams_path; assumption).
  rewrite Hpp.
  assert (slice dsn (Z.of_nat (String.length head) + 1)
            (Z.of_nat (String.length head + 1 + String.length db)) = db) as Hdb.
  { unfold dsn, pathText.
    replace (head +:+ String "/" (db +:+ queryTail qs))
      with ((head +:+ "/") +:+ db +:+ queryTail qs) by (now rewrite app_assoc).
    apply slice_mid; unfold len; rewrite length_app; simpl; lia. }
  destruct qs as [q|].
  - destruct (parseDSNParams _ q) as [st3 [e|]]; [discriminate|].
    intros [= <- _ _]. fields. now rewrite Hdb.
  - intros [= <- _ _]. fields. now rewrite Hdb.
Qed.

Lemma parseSegments_two_parts px creds seg db sch qs st b pq :
  lacks seg "/" = true -> lacks seg "@" = true ->
  lacks db "/" = true -> lacks db "@" = true ->
  lacks sch "/" = true -> lacks sch "?" = true ->
  queryLacks qs ["/"; "?"]%char = true ->
  parseSegments px
    (pathText ((creds +:+ String "@" seg) +:+ String "/" db) sch qs) =
  Running st b pq ->
  Database (cfg st) = db /\ Schema (cfg st) = sch.
Proof.
  intros Hs1 Hs2 Hd1 Hd2 Hc1 Hc2 Hq.
  assert (queryLacks qs ["/"]%char = true) as Hq1.
  { destruct qs as [q|]; [|reflexivity]. cbn [queryLacks lacksAll forallb] in *.
    apply andb_true_iff in Hq as [-> _]. reflexivity. }
  set (head := creds +:+ String "@" seg).
  assert (String.length head = String.length creds + 1 + String.length seg)%nat
    as Lh by (unfold head; rewrite length_app; simpl; lia).
  set (head2 := head +:+ String "/" db).
  assert (String.length head2 = String.length head + 1 + String.length db)%nat
    as Lh2 by (unfold head2; rewrite length_app; simpl; lia).
  unfold parseSegments. rewrite scanDSN_path by assumption.
  set (dsn := pathText head2 sch qs).
  set (rest := String "/" (sch +:+ queryTail qs)).
  assert (dsn = head +:+ String "/" (db +:+ rest)) as E2
    by (unfold dsn, pathText, head2, rest; now rewrite app_assoc, app_cons).
  assert (dsn = creds +:+ String "@" (seg +:+ String "/" (db +:+ rest))) as E
    by (rewrite E2; unfold head; now rewrite app_assoc, app_cons).
  assert (forall st1 ss pss,
            scanSegment dsn st1 ss pss (String.length head) =
            (Z.of_nat (String.length creds),
             withCredentials st1 dsn (String.length creds), ss, pss)) as Hss.
  { intros st1 ss pss. rewrite Lh, E. now apply scanSegment_seg. }
  assert (forall st1 ss pss,
            scanSegment dsn st1 ss pss (String.length head2) =
            (Z.of_nat (String.length creds),
             withCredentials st1 dsn (String.length creds), true,
             Z.of_nat (String.length head))) as Hss2.
  { intros st1 ss pss. rewrite <- Hss. rewrite Lh2, E2.
    now apply scanSegment_db. }
  unfold slashCase.
  assert ((0 <? String.length head2)%nat = true) as -> by (apply Nat.ltb_lt; lia).
  rewrite Hss2.
  destruct (parseAccountHostPort _ _ dsn) as [[[[r a] h] p] [e|]];
    unfold assignAccountHostPort; cbv beta iota zeta; [discriminate|].
  assert (forall st1,
            parseParams st1 (Z.of_nat (String.length head2)) dsn =
            match qs with
            | Some q => parseDSNParams st1 q
            | None => (st1, None)
            end) as Hpp by (intros st1; apply parseParams_path; assumption).
  rewrite Hpp.
  assert (slice dsn (Z.of_nat (String.length head) + 1)
            (Z.of_nat (String.length head2)) = db) as Hdb.
  { rewrite E2.
    replace (head +:+ String "/" (db +:+ rest))
      with ((head +:+ "/") +:+ db +:+ rest) by (now rewrite app_assoc).
    apply slice_mid; unfold len; rewrite ?Lh2, length_app; simpl; lia. }
  assert (slice dsn (Z.of_nat (String.length head2) + 1)
            (Z.of_nat (String.length head2 + 1 + String.length sch)) = sch) as Hsch.
  { unfold dsn, pathText.
    replace (head2 +:+ String "/" (sch +:+ queryTail qs))
      with ((head2 +:+ "/") +:+ sch +:+ queryTail qs) by (now rewrite app_assoc).
    apply slice_mid; unfold len; rewrite length_app; simpl; lia. }
  destruct qs as [q|].
  - destruct (parseDSNParams _ q) as [st3 [e|]]; [discriminate|].
    intros [= <- _ _]. fields. now rewrite Hdb, Hsch.
  - intros [= <- _ _]. fields. now rewrite Hdb, Hsch.
Qed.

End Paths.

(** X19: in [user:password@account/database?query] the database is the
    decoded text between the slash and the query string and the schema is
    ["public"]; in [user:password@account/database/schema?query] both are the
    decoded parts of the path.  The path is assigned after the query string
    has been decoded, so a [database] or [schema] key of the query string
    has no effect on such a DSN. *)
Theorem path_names_database_and_schema
    (clientType : string) (px px' : Proxy) (creds seg db sch : string)
    (query : option string) (cf : Config) :
  lacks seg "/" = true -> lacks seg "@" = true ->
  lacks db "/" = true -> lacks db "?" = true ->
  lacks sch "/" = true -> lacks sch "?" = true ->
  queryLacks query ["/"; "?"]%char = true ->
  (ParseDSN clientType px (creds +:+ "@" +:+ seg +:+ "/" +:+ db +:+ queryTail query) =
   mkParsed (Some cf) None px' ->
   QueryUnescape db = inl (Database cf) /\ Schema cf = "public") /\
  (lacks db "@" = true ->
   ParseDSN clientType px
     (creds +:+ "@" +:+ seg +:+ "/" +:+ db +:+ "/" +:+ sch +:+ queryTail query) =
   mkParsed (Some cf) None px' ->
   QueryUnescape db = inl (Database cf) /\ QueryUnescape sch = inl (Schema cf)).
Proof.
  intros Hs1 Hs2 Hd1 Hd2 Hc1 Hc2 Hq. split.
  - replace (creds +:+ "@" +:+ seg +:+ "/" +:+ db +:+ queryTail query)
      with (pathText (creds +:+ String "@" seg) db query)
      by (unfold pathText; now rewrite app_assoc, app_cons).
    intros Hok.
    apply ParseDSN_ok in Hok as (st & b & pq & E & _ & Hdb & Hsch & _).
    apply parseSegments_one_part in E as [Ed Es]; try assumption.
    rewrite Ed in Hdb. rewrite Es in Hsch. split; [exact Hdb|].
    now injection Hsch.
  - intros Hd3.
    replace (creds +:+ "@" +:+ seg +:+ "/" +:+ db +:+ "/" +:+ sch +:+ queryTail query)
      with (pathText ((creds +:+ String "@" seg) +:+ String "/" db) sch query)
      by (unfold pathText;
          change ("@" +:+ seg +:+ "/" +:+ db +:+ "/" +:+ sch +:+ queryTail query)
            with (String "@" (seg +:+ String "/" (db +:+ String "/" (sch +:+ queryTail query))));
          repeat (rewrite app_assoc || rewrite app_cons); reflexivity).
    intros Hok.
    apply ParseDSN_ok in Hok as (st & b & pq & E & _ & Hdb & Hsch & _).
    apply parseSegments_two_parts in E as [Ed Es]; try assumption.
    rewrite Ed in Hdb. rewrite Es in Hsch. now split.
Qed.

Lemma path_names_database_and_schema_witness :
  (QueryUnescape "my%20db" = inl "my db" /\ "public" = "public") /\
  (QueryUnescape "my%20db" = inl "my db" /\ QueryUnescape "s+1" = inl "s 1").
Proof.
  assert (ParseDSN "Go" (mkProxy "" 0 "" "")
            ("u:p" +:+ "@" +:+ "acc" +:+ "/" +:+ "my%20db" +:+
             queryTail (Some "database=other&schema=mine")) =
          mkParsed
            (Some
               (mkConfig "acc" "u" "p" "my db" "public" "" "" "" (Some ∅) "https"
                  "acc.snowflakecomputing.com" 443 "snowflake" "" false
                  defaultLoginTimeout 0 "Go" false))
            None (mkProxy "" 0 "" "")) as E1 by (vm_compute; reflexivity).
  assert (ParseDSN "Go" (mkProxy "" 0 "" "")
            ("u:p" +:+ "@" +:+ "acc" +:+ "/" +:+ "my%20db" +:+ "/" +:+ "s+1" +:+
             queryTail (Some "database=other&schema=mine")) =
          mkParsed
            (Some
               (mkConfig "acc" "u" "p" "my db" "s 1" "" "" "" (Some ∅) "https"
                  "acc.snowflakecomputing.com" 443 "snowflake" "" false
                  defaultLoginTimeout 0 "Go" false))
            None (mkProxy "" 0 "" "")) as E2 by (vm_compute; reflexivity).
  split.
  - apply (proj1 (path_names_database_and_schema "Go" _ _ "u:p" "acc" "my%20db"
                    "s+1" (Some "database=other&schema=mine") _
                    eq_refl eq_refl eq_refl eq_refl eq_refl eq_refl eq_refl) E1).
  - apply (proj2 (path_names_database_and_schema "Go" _ _ "u:p" "acc" "my%20db"
                    "s+1" (Some "database=other&schema=mine") _
                    eq_refl eq_refl eq_refl eq_refl eq_refl eq_refl eq_refl)
             eq_refl E2).
Defined.

(** X20: the login timeout is read as a number of seconds and multiplied by
    [time.Second] in [int64], so it wraps around beyond about 292 years; up
    to there a DSN that is accepted has the login timeout its query string
    names, negative ones included, except for 0, which the defaulting pass
    takes as unset and replaces by 60 seconds. *)
Theorem login_timeout_in_seconds :
  (forall (st : State) (n : Z),
     - 2 ^ 63 <= n < 2 ^ 63 ->
     parseDSNParams st ("loginTimeout=" +:+ FormatInt n) =
     (onCfg (fun cf => setLoginTimeout cf (wrap64 (n * second))) st, None)) /\
  (forall n : Z,
     - 9223372036 <= n <= 9223372036 -> wrap64 (n * second) = n * second) /\
  (forall (clientType : string) (px px' : Proxy) (head : string) (n : Z)
          (cf : Config),
     lacks head "?" = true -> - 9223372036 <= n <= 9223372036 ->
     ParseDSN clientType px (head +:+ "?" +:+ "loginTimeout=" +:+ FormatInt n) =
     mkParsed (Some cf) None px' ->
     LoginTimeout cf = if n =? 0 then defaultLoginTimeout else n * second).
Proof.
  assert (forall n : Z,
            - 9223372036 <= n <= 9223372036 -> wrap64 (n * second) = n * second)
    as Hw.
  { intros n Hn. apply wrap64_small. unfold second. lia. }
  assert (forall (st : State) (n : Z),
            - 2 ^ 63 <= n < 2 ^ 63 ->
            parseDSNParams st ("loginTimeout=" +:+ FormatInt n) =
            (onCfg (fun cf => setLoginTimeout cf (wrap64 (n * second))) st, None))
    as Hp.
  { intros st n Hn. unfold parseDSNParams.
    assert (forall c : ascii, isDigit c = false -> c <> "-"%char ->
              Ascii.eqb "=" c = false ->
              lacks ("loginTimeout=" +:+ FormatInt n) c = lacks "loginTimeout" c)
      as Hl.
    { intros c H1 H2 H3.
      change ("loginTimeout=" +:+ FormatInt n)
        with ("loginTimeout" +:+ "=" +:+ FormatInt n).
      rewrite !lacks_app, FormatInt_lacks by assumption.
      cbn [lacks]. rewrite H3. simpl. now rewrite !andb_true_r. }
    rewrite Split_lacks by (rewrite Hl; (reflexivity || discriminate)).
    cbn [parsePieces]. unfold parseDSNParam, SplitN2.
    change ("loginTimeout=" +:+ FormatInt n)
      with ("loginTimeout" +:+ String "=" (FormatInt n)).
    rewrite cut_app by reflexivity.
    rewrite QueryUnescape_plain
      by (apply FormatInt_lacks; (reflexivity || discriminate)).
    unfold dispatchParam. simpl String.eqb. cbv iota.
    now rewrite ParseInt_FormatInt. }
  split; [exact Hp|]. split; [exact Hw|].
  intros clientType px px' head n cf Hh Hn Hok.
  change (head +:+ "?" +:+ "loginTimeout=" +:+ FormatInt n)
    with (head +:+ String "?" ("loginTimeout=" +:+ FormatInt n)) in Hok.
  assert (forall c : ascii, isDigit c = false -> c <> "-"%char ->
            lacks "loginTimeout=" c = true ->
            lacks ("loginTimeout=" +:+ FormatInt n) c = true) as Hl.
  { intros c H1 H2 H3. now rewrite lacks_app, H3, FormatInt_lacks. }
  apply ParseDSN_ok in Hok as (st & b & pq & E & _ & _ & _ & _ & _ & ->).
  fields.
  destruct (parseSegments_query px head ("loginTimeout=" +:+ FormatInt n) Hh)
    as [(st1 & ret & text & E1 & _)|(st0 & fin & found & _ & _ & Hfin & E1)];
    try (apply Hl; (reflexivity || discriminate));
    rewrite E1 in E; [discriminate|].
  rewrite Hp in E by lia. injection E as <- _ _.
  rewrite Hw by exact Hn.
  assert (LoginTimeout
            (deriveAccount
               (cfg (fin (onCfg (fun cf => setLoginTimeout cf (n * second)) st0)))) =
          n * second) as Hlt.
  { destruct (deriveAccount_cases
                (cfg (fin (onCfg (fun cf => setLoginTimeout cf (n * second)) st0))))
      as [->|[a ->]];
      destruct Hfin as [->|(d & s & ->)]; reflexivity. }
  unfold defaulted. fields. rewrite Hlt.
  replace (n * second =? 0) with (n =? 0); [reflexivity|].
  unfold second. destruct (Z.eqb_spec n 0) as [->|Hne]; [reflexivity|].
  symmetry. apply Z.eqb_neq. lia.
Qed.

Lemma login_timeout_in_seconds_witness :
  parseDSNParams (mkState newConfig (mkProxy "" 0 "" ""))
    ("loginTimeout=" +:+ FormatInt 9223372037) =
  (onCfg (fun cf => setLoginTimeout cf (wrap64 (9223372037 * second)))
     (mkState newConfig (mkProxy "" 0 "" "")), None) /\
  wrap64 (-30 * second) = -30 * second /\
  60000000000 = (if 0 =? 0 then defaultLoginTimeout else 0 * second).
Proof.
  destruct login_timeout_in_seconds as (H1 & H2 & H3).
  split; [apply H1; lia|]. split; [apply H2; lia|].
  assert (ParseDSN "Go" (mkProxy "" 0 "" "")
            ("u:p@acc" +:+ "?" +:+ "loginTimeout=" +:+ FormatInt 0) =
          mkParsed
            (Some
               (mkConfig "acc" "u" "p" "" "" "" "" "" (Some ∅) "https"
                  "acc.snowflakecomputing.com" 443 "snowflake" "" false
                  60000000000 0 "Go" false))
            None (mkProxy "" 0 "" "")) as E by (vm_compute; reflexivity).
  apply (H3 "Go" _ _ "u:p@acc" 0 _ eq_refl ltac:(lia) E).
Defined.
